(** * OCI scheduled-report automation: a shallow embedding

    The repository has two entry points that deliver a cost report by
    e-mail: the event-triggered function [handler] (src/func.py) and the
    polling script [ReportSender] (src/local-execution/send_latest_report.py).
    This development embeds their decision logic in Rocq and states the
    properties of the specification over that embedding.

    Conventions.
    - A Python [str] is a Rocq [string] holding the UTF-8 bytes of the text,
      so [s.encode()] is the list of its characters.
    - Python [bytes] are [list ascii].
    - A Python [dict] with string keys is a [gmap string _]; parsed JSON
      objects are association lists read through a first-match lookup.
    - External collaborators (object storage, vault, SMTP, the identity
      set-up, the file system holding the ledger) are fields of a [World]
      record: every theorem quantifies over all of them. *)

From Stdlib Require Import ZArith NArith Ascii String List Lia Bool DecimalString.
From stdpp Require Import gmap strings list.

Local Open Scope string_scope.

(** ** Python string helpers *)

Module PyStr.

(** [s.startswith(p)] *)
Definition startswith (s p : string) : bool := String.prefix p s.

(** [s.endswith(p)] *)
Definition endswith (s p : string) : bool :=
  let n := String.length s in
  let k := String.length p in
  if (k <=? n)%nat then String.eqb (String.substring (n - k) k s) p else false.

(** [needle in hay] on two strings: substring search. *)
Fixpoint contains (hay needle : string) : bool :=
  String.prefix needle hay ||
  match hay with
  | EmptyString => false
  | String _ rest => contains rest needle
  end.

(** [sep.join(parts)] *)
Fixpoint join (sep : string) (parts : list string) : string :=
  match parts with
  | [] => EmptyString
  | [p] => p
  | p :: rest => p ++ sep ++ join sep rest
  end.

(** The one-character string holding a double quote. *)
Definition dquote : string := String (ascii_of_N 34) EmptyString.

Definition nl : string := String (ascii_of_N 10) EmptyString.

(** ASCII white space, as [str.strip()] removes it. *)
Definition is_space (c : ascii) : bool :=
  let n := N_of_ascii c in
  (((9 <=? n) && (n <=? 13)) || ((28 <=? n) && (n <=? 32)))%N.

Definition in_chars (chars : string) (c : ascii) : bool :=
  existsb (Ascii.eqb c) (list_ascii_of_string chars).

Fixpoint lstrip_by (drop : ascii -> bool) (s : string) : string :=
  match s with
  | EmptyString => EmptyString
  | String c rest => if drop c then lstrip_by drop rest else s
  end.

Fixpoint rstrip_by (drop : ascii -> bool) (s : string) : string :=
  match s with
  | EmptyString => EmptyString
  | String c rest =>
      match rstrip_by drop rest with
      | EmptyString => if drop c then EmptyString else String c EmptyString
      | rest' => String c rest'
      end
  end.

(** [s.strip()] and [s.strip(chars)] *)
Definition strip (s : string) : string := rstrip_by is_space (lstrip_by is_space s).
Definition strip_chars (chars s : string) : string :=
  rstrip_by (in_chars chars) (lstrip_by (in_chars chars) s).

(** [s.split(sep, 1)] for a one-character separator: the text before
    the first separator and the text after it, if there is one. *)
Fixpoint split_once (sep : ascii) (s : string) : string * option string :=
  match s with
  | EmptyString => (EmptyString, None)
  | String c rest =>
      if Ascii.eqb c sep then (EmptyString, Some rest)
      else let '(a, b) := split_once sep rest in (String c a, b)
  end.

(** The lines of a text file, without their terminators.  A text file
    is read with universal newlines, so a line ends at a line feed or at
    a carriage return; the empty line this puts between the two
    characters of a CR LF pair is skipped by every caller. *)
Fixpoint lines_from (cur : string) (s : string) : list string :=
  match s with
  | EmptyString => match cur with EmptyString => [] | _ => [cur] end
  | String c rest =>
      if Ascii.eqb c (ascii_of_N 10) || Ascii.eqb c (ascii_of_N 13)
      then cur :: lines_from EmptyString rest
      else lines_from (cur ++ String c EmptyString) rest
  end.
Definition lines (s : string) : list string := lines_from EmptyString s.

(** [repr] of a list of plain identifiers: [['A', 'B']]. *)
Definition repr_list (l : list string) : string :=
  "[" ++ join ", " (List.map (fun k => "'" ++ k ++ "'") l) ++ "]".

(** [s.encode()] under the byte-string convention above. *)
Definition encode (s : string) : list ascii := list_ascii_of_string s.

(** Decimal rendering of a natural number, [str(n)]. *)
Definition of_N (n : N) : string := NilZero.string_of_uint (N.to_uint n).

Fixpoint zeros (k : nat) : string :=
  match k with O => EmptyString | S k' => String "0" (zeros k') end.

(** ["%0<w>d" % n] *)
Definition zfill (w : nat) (n : N) : string :=
  let s := of_N n in zeros (w - String.length s) ++ s.

(** [f"{n:,}"]: decimal digits with a comma before every group of three. *)
Fixpoint group3 (s : string) : string :=
  match s with
  | EmptyString => EmptyString
  | String c rest =>
      let k := String.length rest in
      if (Nat.eqb (k mod 3) 0 && negb (Nat.eqb k 0))%nat
      then String c (String "," (group3 rest))
      else String c (group3 rest)
  end.
Definition thousands (n : N) : string := group3 (of_N n).

End PyStr.

(** ** Creation timestamps

    The SDK hands out timezone-aware [datetime] values in UTC.  Python
    orders two such values by their fields, most significant first, and
    [str] renders them in ISO form with a space separator. *)

Record datetime := mkDatetime {
  dt_year : N; dt_month : N; dt_day : N;
  dt_hour : N; dt_minute : N; dt_second : N; dt_microsecond : N
}.

Definition dt_fields (d : datetime) : list N :=
  [dt_year d; dt_month d; dt_day d; dt_hour d; dt_minute d; dt_second d;
   dt_microsecond d].

Fixpoint lex_compare (a b : list N) : comparison :=
  match a, b with
  | [], [] => Eq
  | [], _ :: _ => Lt
  | _ :: _, [] => Gt
  | x :: a', y :: b' =>
      match N.compare x y with
      | Eq => lex_compare a' b'
      | c => c
      end
  end.

(** [a <= b] on datetimes. *)
Definition dt_leb (a b : datetime) : bool :=
  match lex_compare (dt_fields a) (dt_fields b) with
  | Gt => false
  | _ => true
  end.

(** [str(d)] *)
Definition dt_str (d : datetime) : string :=
  PyStr.zfill 4 (dt_year d) ++ "-" ++ PyStr.zfill 2 (dt_month d) ++ "-" ++
  PyStr.zfill 2 (dt_day d) ++ " " ++ PyStr.zfill 2 (dt_hour d) ++ ":" ++
  PyStr.zfill 2 (dt_minute d) ++ ":" ++ PyStr.zfill 2 (dt_second d) ++
  (if N.eqb (dt_microsecond d) 0 then EmptyString
   else "." ++ PyStr.zfill 6 (dt_microsecond d)) ++ "+00:00".

(** ** Object Locator *)

(** One entry of a [list_objects] response
    (requested fields: [timeCreated,name,size]). *)
Record ObjectSummary := mkObject {
  name : string;
  time_created : datetime;
  size : N
}.

(** [lst.sort(key=..., reverse=True)]: Python's sort is stable, also when
    reversed: among equal keys the original order is kept. *)
Section SortDesc.
Context {A : Type} (key : A -> datetime).

Fixpoint insert_desc (x : A) (l : list A) : list A :=
  match l with
  | [] => [x]
  | y :: l' => if dt_leb (key y) (key x) then x :: l
               else y :: insert_desc x l'
  end.

Fixpoint sort_desc (l : list A) : list A :=
  match l with
  | [] => []
  | x :: l' => insert_desc x (sort_desc l')
  end.
End SortDesc.

Definition is_report (o : ObjectSummary) : bool := PyStr.endswith (name o) ".csv.gz".

(** ** MD5 ([hashlib.md5(...).hexdigest()]), RFC 1321

    Words are 32-bit, kept in [Z] with the wrap-around written out. *)

Module MD5.
Local Open Scope Z_scope.

Definition mask32 : Z := 0xFFFFFFFF.
Definition add32 (a b : Z) : Z := Z.land (a + b) mask32.
Definition not32 (a : Z) : Z := Z.lxor a mask32.
Definition rotl32 (x c : Z) : Z :=
  Z.lor (Z.land (Z.shiftl x c) mask32) (Z.shiftr x (32 - c)).

(** Per-round left-rotation amounts. *)
Definition shifts : list Z :=
  [7; 12; 17; 22; 7; 12; 17; 22; 7; 12; 17; 22; 7; 12; 17; 22;
   5;  9; 14; 20; 5;  9; 14; 20; 5;  9; 14; 20; 5;  9; 14; 20;
   4; 11; 16; 23; 4; 11; 16; 23; 4; 11; 16; 23; 4; 11; 16; 23;
   6; 10; 15; 21; 6; 10; 15; 21; 6; 10; 15; 21; 6; 10; 15; 21].

(** [K[i] = floor(2^32 * abs(sin(i + 1)))] *)
Definition sines : list Z :=
  [0xd76aa478; 0xe8c7b756; 0x242070db; 0xc1bdceee;
   0xf57c0faf; 0x4787c62a; 0xa8304613; 0xfd469501;
   0x698098d8; 0x8b44f7af; 0xffff5bb1; 0x895cd7be;
   0x6b901122; 0xfd987193; 0xa679438e; 0x49b40821;
   0xf61e2562; 0xc040b340; 0x265e5a51; 0xe9b6c7aa;
   0xd62f105d; 0x02441453; 0xd8a1e681; 0xe7d3fbc8;
   0x21e1cde6; 0xc33707d6; 0xf4d50d87; 0x455a14ed;
   0xa9e3e905; 0xfcefa3f8; 0x676f02d9; 0x8d2a4c8a;
   0xfffa3942; 0x8771f681; 0x6d9d6122; 0xfde5380c;
   0xa4beea44; 0x4bdecfa9; 0xf6bb4b60; 0xbebfbc70;
   0x289b7ec6; 0xeaa127fa; 0xd4ef3085; 0x04881d05;
   0xd9d4d039; 0xe6db99e5; 0x1fa27cf8; 0xc4ac5665;
   0xf4292244; 0x432aff97; 0xab9423a7; 0xfc93a039;
   0x655b59c3; 0x8f0ccc92; 0xffeff47d; 0x85845dd1;
   0x6fa87e4f; 0xfe2ce6e0; 0xa3014314; 0x4e0811a1;
   0xf7537e82; 0xbd3af235; 0x2ad7d2bb; 0xeb86d391].

Definition word_at (l : list Z) (i : Z) : Z := List.nth (Z.to_nat i) l 0.

(** The message with the padding bit, the zero fill and the 64-bit
    little-endian bit length. *)
Definition le_bytes (width : nat) (x : Z) : list Z :=
  List.map (fun k => Z.land (Z.shiftr x (8 * Z.of_nat k)) 0xFF) (List.seq 0 width).

Definition pad (msg : list Z) : list Z :=
  let len := Z.of_nat (List.length msg) in
  let fill := Z.to_nat ((55 - len) mod 64) in
  msg ++ [0x80] ++ List.repeat 0 fill ++ le_bytes 8 (Z.land (8 * len) 0xFFFFFFFFFFFFFFFF).

Fixpoint le_words (bytes : list Z) : list Z :=
  match bytes with
  | b0 :: b1 :: b2 :: b3 :: rest =>
      (b0 + Z.shiftl b1 8 + Z.shiftl b2 16 + Z.shiftl b3 24) :: le_words rest
  | _ => []
  end.

Fixpoint blocks (fuel : nat) (bytes : list Z) : list (list Z) :=
  match fuel, bytes with
  | O, _ | _, [] => []
  | S fuel', _ => le_words (List.firstn 64 bytes) :: blocks fuel' (List.skipn 64 bytes)
  end.

Record state := mkState { sa : Z; sb : Z; sc : Z; sd : Z }.

Definition init : state :=
  mkState 0x67452301 0xefcdab89 0x98badcfe 0x10325476.

Definition round (m : list Z) (s : state) (i : Z) : state :=
  let '(mkState a b c d) := s in
  let '(f, g) :=
    if i <? 16 then (Z.lor (Z.land b c) (Z.land (not32 b) d), i)
    else if i <? 32 then (Z.lor (Z.land d b) (Z.land (not32 d) c), (5 * i + 1) mod 16)
    else if i <? 48 then (Z.lxor (Z.lxor b c) d, (3 * i + 5) mod 16)
    else (Z.lxor c (Z.lor b (not32 d)), (7 * i) mod 16) in
  let f' := add32 (add32 (add32 f a) (word_at sines i)) (word_at m g) in
  mkState d (add32 b (rotl32 f' (word_at shifts i))) b c.

Definition compress (s : state) (m : list Z) : state :=
  let s' := List.fold_left (round m) (List.map Z.of_nat (List.seq 0 64)) s in
  mkState (add32 (sa s) (sa s')) (add32 (sb s) (sb s'))
          (add32 (sc s) (sc s')) (add32 (sd s) (sd s')).

Definition digest (msg : list ascii) : list Z :=
  let bytes := pad (List.map (fun c => Z.of_N (N_of_ascii c)) msg) in
  let s := List.fold_left compress (blocks (List.length bytes) bytes) init in
  le_bytes 4 (sa s) ++ le_bytes 4 (sb s) ++ le_bytes 4 (sc s) ++ le_bytes 4 (sd s).

Definition hex_digit (x : Z) : ascii :=
  ascii_of_N (Z.to_N (if x <? 10 then 48 + x else 87 + x)).

Fixpoint hex (bytes : list Z) : string :=
  match bytes with
  | [] => EmptyString
  | b :: rest => String (hex_digit (Z.shiftr b 4)) (String (hex_digit (Z.land b 0xF)) (hex rest))
  end.

Definition hexdigest (msg : list ascii) : string := hex (digest msg).
End MD5.

(** ** Base64 as the e-mail package uses it

    [encoders.encode_base64] calls [base64.encodebytes]: the payload is cut
    into chunks of 57 bytes, each chunk is encoded by [binascii.b2a_base64]
    and followed by a newline.  [Message.get_payload(decode=True)] joins the
    lines again and hands them to [decode_b]. *)

Module Base64.
Local Open Scope N_scope.

Definition alphabet : string :=
  "ABCDEFGHIJKLMNOPQRSTUVWXYZabcdefghijklmnopqrstuvwxyz0123456789+/".

Definition pad_char : ascii := "="%char.
Definition newline : ascii := ascii_of_N 10.
Definition carriage_return : ascii := ascii_of_N 13.

Definition char_of_sextet (n : N) : ascii :=
  match String.get (N.to_nat n) alphabet with
  | Some c => c
  | None => pad_char
  end.

Definition sextet_of_char (c : ascii) : option N :=
  let n := N_of_ascii c in
  if (65 <=? n) && (n <=? 90) then Some (n - 65)
  else if (97 <=? n) && (n <=? 122) then Some (n - 71)
  else if (48 <=? n) && (n <=? 57) then Some (n + 4)
  else if n =? 43 then Some 62
  else if n =? 47 then Some 63
  else None.

(** Three bytes become four sextets; a tail of one or two bytes is
    completed with padding characters. *)
Fixpoint b64_groups (s : list ascii) : list ascii :=
  match s with
  | [] => []
  | [b1] =>
      let x := N_of_ascii b1 in
      [char_of_sextet (x / 4); char_of_sextet ((x mod 4) * 16); pad_char; pad_char]
  | [b1; b2] =>
      let x := N_of_ascii b1 in
      let y := N_of_ascii b2 in
      [char_of_sextet (x / 4); char_of_sextet ((x mod 4) * 16 + y / 16);
       char_of_sextet ((y mod 16) * 4); pad_char]
  | b1 :: b2 :: b3 :: rest =>
      let x := N_of_ascii b1 in
      let y := N_of_ascii b2 in
      let z := N_of_ascii b3 in
      char_of_sextet (x / 4) :: char_of_sextet ((x mod 4) * 16 + y / 16) ::
      char_of_sextet ((y mod 16) * 4 + z / 64) :: char_of_sextet (z mod 64) ::
      b64_groups rest
  end.

(** [binascii.b2a_base64(chunk)] *)
Definition b2a_base64 (chunk : list ascii) : list ascii :=
  b64_groups chunk ++ [newline].

Definition MAXBINSIZE : nat := 57.

Fixpoint encode_chunks (fuel : nat) (s : list ascii) : list ascii :=
  match fuel, s with
  | O, _ | _, [] => []
  | S fuel', _ =>
      b2a_base64 (List.firstn MAXBINSIZE s) ++ encode_chunks fuel' (List.skipn MAXBINSIZE s)
  end.

(** [base64.encodebytes(s)]: one chunk per iteration of
    [range(0, len(s), MAXBINSIZE)], so [len(s)] iterations are enough. *)
Definition encodebytes (s : list ascii) : list ascii :=
  encode_chunks (List.length s) s.

Definition byte_of (hi lo : N) : ascii := ascii_of_N (hi + lo).

(** [base64.b64decode(s, validate=True)]: the input has to match
    [[A-Za-z0-9+/]*={0,2}]; [None] is [binascii.Error]. *)
Fixpoint b64decode_strict (s : list ascii) : option (list ascii) :=
  match s with
  | [] => Some []
  | c1 :: c2 :: c3 :: c4 :: rest =>
      match sextet_of_char c1, sextet_of_char c2 with
      | Some s1, Some s2 =>
          let b1 := byte_of (s1 * 4) (s2 / 16) in
          match sextet_of_char c3, sextet_of_char c4 with
          | Some s3, Some s4 =>
              match b64decode_strict rest with
              | Some tail =>
                  Some (b1 :: byte_of ((s2 mod 16) * 16) (s3 / 4) ::
                        byte_of ((s3 mod 4) * 64) s4 :: tail)
              | None => None
              end
          | Some s3, None =>
              match rest with
              | [] => if Ascii.eqb c4 pad_char
                      then Some [b1; byte_of ((s2 mod 16) * 16) (s3 / 4)]
                      else None
              | _ => None
              end
          | None, None =>
              match rest with
              | [] => if Ascii.eqb c3 pad_char && Ascii.eqb c4 pad_char
                      then Some [b1] else None
              | _ => None
              end
          | None, Some _ => None
          end
      | _, _ => None
      end
  | _ => None
  end.

(** [b''.join(bpayload.splitlines())] on ASCII text: the line breaks go. *)
Definition join_splitlines (s : list ascii) : list ascii :=
  List.filter (fun c => negb (Ascii.eqb c newline || Ascii.eqb c carriage_return)) s.

(** [email._encoded_words.decode_b]: completes the padding and decodes
    strictly.  [None] stands for the defect-recovery branches that follow
    a [binascii.Error]. *)
Definition decode_b (encoded : list ascii) : option (list ascii) :=
  let pad_err := (List.length encoded mod 4)%nat in
  let missing_padding :=
    if Nat.eqb pad_err 0 then [] else List.repeat pad_char (4 - pad_err) in
  b64decode_strict (encoded ++ missing_padding).
End Base64.

(** ** MIME messages ([email.mime]) *)

(** The payload of a leaf part.  [set_payload] keeps a [bytes] payload as
    text decoded with [surrogateescape], and [get_payload] encodes such text
    back the same way; the two conversions are inverse to each other, and
    the payload is kept here as the bytes they stand for. *)
Inductive Payload :=
| PayloadNone
| PayloadText (text : string)
| PayloadBytes (data : list ascii).

(** A leaf part: its headers in insertion order and its payload. *)
Record MimePart := mkPart {
  part_headers : list (string * string);
  part_payload : Payload
}.

(** [MIMEMultipart]: headers and the attached parts, in order. *)
Record MimeMultipart := mkMultipart {
  mp_headers : list (string * string);
  mp_parts : list MimePart
}.

Definition ascii_lower (c : ascii) : ascii :=
  let n := N_of_ascii c in
  if ((65 <=? n) && (n <=? 90))%N then ascii_of_N (n + 32) else c.

Fixpoint lower (s : string) : string :=
  match s with
  | EmptyString => EmptyString
  | String c rest => String (ascii_lower c) (lower rest)
  end.

(** [part.get(name, default)]: header names compare case-insensitively. *)
Fixpoint get_header (hs : list (string * string)) (name default : string) : string :=
  match hs with
  | [] => default
  | (k, v) :: rest =>
      if String.eqb (lower k) (lower name) then v else get_header rest name default
  end.

(** [part[name] = value] and [part.add_header(name, value)] append. *)
Definition add_header (p : MimePart) (name value : string) : MimePart :=
  mkPart (part_headers p ++ [(name, value)]) (part_payload p).

Definition set_payload (p : MimePart) (pl : Payload) : MimePart :=
  mkPart (part_headers p) pl.

(** [MIMEBase(maintype, subtype)] *)
Definition MIMEBase (maintype subtype : string) : MimePart :=
  mkPart [("Content-Type", maintype ++ "/" ++ subtype); ("MIME-Version", "1.0")]
         PayloadNone.

(** [MIMEText(text, "plain")]; the charset negotiation of the text part is
    not modelled, the body is kept as given. *)
Definition MIMEText (text subtype : string) : MimePart :=
  mkPart [("Content-Type", "text/" ++ subtype); ("MIME-Version", "1.0")]
         (PayloadText text).

(** [part.get_payload(decode=True)] of a leaf part whose transfer encoding
    is absent or [base64] (the two that occur). *)
Definition get_payload_decoded (p : MimePart) : option (list ascii) :=
  let cte := lower (get_header (part_headers p) "content-transfer-encoding" EmptyString) in
  let decode (bpayload : list ascii) :=
    if String.eqb cte "base64"
    then Base64.decode_b (Base64.join_splitlines bpayload)
    else Some bpayload in
  match part_payload p with
  | PayloadNone => None
  | PayloadBytes b => decode b
  | PayloadText t => decode (list_ascii_of_string t)
  end.

(** [encoders.encode_base64(part)]; a part without payload (where Python
    raises [TypeError]) is left as it is, no caller builds one. *)
Definition encode_base64 (p : MimePart) : MimePart :=
  match get_payload_decoded p with
  | Some orig =>
      let encdata := string_of_list_ascii (Base64.encodebytes orig) in
      add_header (set_payload p (PayloadText encdata)) "Content-Transfer-Encoding" "base64"
  | None => p
  end.

(** The four statements both entry points use to attach the report:
    [part = MIMEBase("application", "octet-stream")],
    [part.set_payload(file_data)], [encoders.encode_base64(part)],
    [part.add_header("Content-Disposition", ...)]. *)
Definition attachment_part (file_name : string) (file_data : list ascii) : MimePart :=
  let part := MIMEBase "application" "octet-stream" in
  let part := set_payload part (PayloadBytes file_data) in
  let part := encode_base64 part in
  add_header part "Content-Disposition"
             ("attachment; filename=" ++ PyStr.dquote ++ file_name ++ PyStr.dquote).

(** ** Python values, exceptions and results *)

(** A value as [json.loads] produces it.  A float is carried as its
    [repr]; a dict as its items, read by first match. *)
#[local] Unset Elimination Schemes.
Inductive PyVal :=
| PNone
| PBool (b : bool)
| PInt (z : Z)
| PFloat (repr : string)
| PStr (s : string)
| PList (items : list PyVal)
| PDict (items : list (string * PyVal)).
#[local] Set Elimination Schemes.

(** [type(v).__name__] *)
Definition type_name (v : PyVal) : string :=
  match v with
  | PNone => "NoneType"
  | PBool _ => "bool"
  | PInt _ => "int"
  | PFloat _ => "float"
  | PStr _ => "str"
  | PList _ => "list"
  | PDict _ => "dict"
  end.

(** An instance of a subclass of Python's [Exception]: the class name,
    [type(e).__name__], and the text, [str(e)]. *)
Record exn := Exception { exn_type : string; exn_str : string }.

(** What a library call or a collaborator answers: a value, or an
    exception. *)
Inductive answer (A : Type) : Type :=
| Returns (a : A)
| Raises (e : exn).
Arguments Returns {A} a.
Arguments Raises {A} e.

(** How a piece of the program ends: with a value, with an exception, or
    with the [SystemExit] of [sys.exit(code)], which [except Exception] does
    not catch. *)
Inductive result (A : Type) : Type :=
| Ok (a : A)
| Raise (e : exn)
| Exit (code : Z).
Arguments Ok {A} a.
Arguments Raise {A} e.
Arguments Exit {A} code.

(** [int(s)] on ASCII text: optional white space around an optional sign
    and decimal digits, single underscores allowed between digits. *)
Module PyInt.
Local Open Scope Z_scope.

Definition digit (c : ascii) : option Z :=
  let n := N_of_ascii c in
  if ((48 <=? n) && (n <=? 57))%N then Some (Z.of_N n - 48) else None.

(** [after_digit] tells whether the previous character was a digit, which
    is where an underscore or the end of the literal may stand. *)
Fixpoint digits (acc : Z) (after_digit : bool) (s : string) : option Z :=
  match s with
  | EmptyString => if after_digit then Some acc else None
  | String c rest =>
      match digit c with
      | Some d => digits (10 * acc + d) true rest
      | None =>
          if Ascii.eqb c "_"%char && after_digit then
            match rest with
            | String c' _ => match digit c' with
                             | Some _ => digits acc false rest
                             | None => None
                             end
            | EmptyString => None
            end
          else None
      end
  end.

Definition parse (s : string) : option Z :=
  match PyStr.strip s with
  | String "+" rest => digits 0 false rest
  | String "-" rest => option_map Z.opp (digits 0 false rest)
  | body => digits 0 false body
  end.

Definition int (s : string) : answer Z :=
  match parse s with
  | Some z => Returns z
  | None => Raises (Exception "ValueError"
              ("invalid literal for int() with base 10: '" ++ s ++ "'"))
  end.
End PyInt.

(** ** The sent-files ledger and the surrounding world *)

(** One entry of [sent_files]: the dict
    [{'file_name': ..., 'time_created': ..., 'sent_at': ...}]. *)
Record SentRecord := mkSentRecord {
  rec_file_name : string;
  rec_time_created : string;
  rec_sent_at : string
}.

(** [sent_files.json] as [load_sent_files] can find it.  A file that parses
    holds the JSON object [save_sent_files] wrote: fingerprints mapped to
    records. *)
Inductive LedgerFile :=
| FileMissing
| FileUnreadable (e : exn)
| FileLedger (entries : gmap string SentRecord).

(** What happens when [save_sent_files] opens the file for writing and
    dumps the ledger: it succeeds, [open] raises and the file stays as it
    was, or the write fails half-way and leaves a file that no longer
    parses. *)
Inductive WriteOutcome :=
| WriteOk
| WriteDenied (e : exn)
| WriteTorn (e : exn).

Inductive ConfigFile :=
| ConfigMissing
| ConfigUnreadable (e : exn)
| ConfigText (text : string).

(** The request signer both entry points hand to the OCI clients. *)
Inductive Signer :=
| ResourcePrincipalsSigner
| KeyFileSigner (tenancy user fingerprint key_file : string)
                (pass_phrase : option string).

(** Everything outside the program.  The fields are the answers of the
    collaborators.  [oss_bucket] is what one listing call can report of a
    bucket (the scripts never ask for a further page), or its failure. *)
Record World := mkWorld {
  environ : gmap string string;                 (* os.environ *)
  home_oci_config : string;                     (* expanduser("~/.oci/config") *)
  config_path : string;                         (* Path(__file__).parent / config_file *)
  fs_config : ConfigFile;                       (* ../config.env *)
  fs_write : WriteOutcome;                      (* writing sent_files.json *)
  now_isoformat : string;                       (* datetime.now().isoformat() *)
  now_strftime : string;                        (* datetime.now().strftime(...) *)
  oci_config_from_file : string -> string -> answer (gmap string string);
  load_private_key : string -> option string -> option exn;
  resource_principals_signer : option exn;
  oss_bucket : Signer -> string -> string -> answer (list ObjectSummary);
  oss_get_object : Signer -> string -> string -> PyVal -> answer (list ascii);
  vault_secret : Signer -> string -> answer string;
  smtp_deliver : string -> Z -> string -> string -> MimeMultipart -> option exn;
  json_decode : string -> answer PyVal;         (* JSONDecoder.decode on text *)
  decode_other : string -> list ascii -> answer string; (* bytes.decode, UTF-16/32 *)
  repr_container : PyVal -> string              (* str() of a list or a dict *)
}.

Inductive Level := WARNING | ERROR.

(** The interactions with the outside, in the order they happen. *)
Inductive Call :=
| CallReadConfig
| CallReadLedger
| CallWriteLedger
| CallOciConfigFile (path profile : string)
| CallLoadKey (key_file : string)
| CallResourcePrincipal
| CallListObjects (namespace bucket prefix : string)
| CallGetObject (namespace bucket : string) (object_name : PyVal)
| CallGetSecret (secret_id : string)
| CallSmtp (server : string) (port : Z).

(** The mutable state one process sees: its own [self.sent_files], the
    ledger file, the messages delivered so far, and the record of calls and
    of the warnings and errors logged (informational log lines are left out). *)
Record Store := mkStore {
  sent_files : gmap string SentRecord;
  ledger_file : LedgerFile;
  outbox : list MimeMultipart;
  calls : list Call;
  logs : list (Level * string)
}.

(** *** A state-and-exception monad *)

Definition M (A : Type) : Type := Store -> result A * Store.

Definition ret {A} (a : A) : M A := fun s => (Ok a, s).
Definition raise {A} (e : exn) : M A := fun s => (Raise e, s).
Definition bind {A B} (m : M A) (k : A -> M B) : M B :=
  fun s => match m s with
           | (Ok a, s') => k a s'
           | (Raise e, s') => (Raise e, s')
           | (Exit code, s') => (Exit code, s')
           end.

Notation "'let*' x ':=' m 'in' k" := (bind m (fun x => k))
  (at level 10, x name, m at level 100, k at level 200).
Notation "m ';;' k" := (bind m (fun _ => k))
  (at level 100, k at level 200, right associativity).

(** [try: m except Exception as e: h e]; a [SystemExit] passes through. *)
Definition try_except {A} (m : M A) (h : exn -> M A) : M A :=
  fun s => match m s with
           | (Raise e, s') => h e s'
           | r => r
           end.

(** [try: m except cls as e: h e] for one exception class. *)
Definition try_except_class {A} (cls : string) (m : M A) (h : exn -> M A) : M A :=
  fun s => match m s with
           | (Raise e, s') =>
               if String.eqb (exn_type e) cls then h e s' else (Raise e, s')
           | r => r
           end.

(** Calling something that answers. *)
Definition lift {A} (r : answer A) : M A :=
  fun s => match r with
           | Returns a => (Ok a, s)
           | Raises e => (Raise e, s)
           end.
Definition gets {A} (f : Store -> A) : M A := fun s => (Ok (f s), s).
Definition modify (f : Store -> Store) : M unit := fun s => (Ok tt, f s).

Definition call (c : Call) : M unit :=
  modify (fun s => mkStore (sent_files s) (ledger_file s) (outbox s)
                           (calls s ++ [c]) (logs s)).
Definition log (lvl : Level) (msg : string) : M unit :=
  modify (fun s => mkStore (sent_files s) (ledger_file s) (outbox s)
                           (calls s) (logs s ++ [(lvl, msg)])).
Definition set_sent_files (m : gmap string SentRecord) : M unit :=
  modify (fun s => mkStore m (ledger_file s) (outbox s) (calls s) (logs s)).
Definition set_ledger_file (f : LedgerFile) : M unit :=
  modify (fun s => mkStore (sent_files s) f (outbox s) (calls s) (logs s)).
Definition deliver (msg : MimeMultipart) : M unit :=
  modify (fun s => mkStore (sent_files s) (ledger_file s) (outbox s ++ [msg])
                           (calls s) (logs s)).

(** [sys.exit(code)] *)
Definition sys_exit {A} (code : Z) : M A := fun s => (Exit code, s).

(** [d[key]] on a [dict] with string keys. *)
Definition dict_index (d : gmap string string) (key : string) : answer string :=
  match d !! key with
  | Some v => Returns v
  | None => Raises (Exception "KeyError" ("'" ++ key ++ "'"))
  end.

(** [d.get(key, default)] *)
Definition dict_get_default (d : gmap string string) (key default : string) : string :=
  match d !! key with Some v => v | None => default end.

(** Truthiness of [d.get(key)]: missing and empty both count as false. *)
Definition truthy (v : option string) : bool :=
  match v with
  | Some (String _ _) => true
  | _ => false
  end.

(** ** The polling script: [ReportSender] *)

(** What an f-string puts for a value: [format(v)] with an empty format
    specification, which is [str(v)] for the types that occur. *)
Class Format (T : Type) := format : T -> string.
#[export] Instance format_str : Format string := fun s => s.
#[export] Instance format_datetime : Format datetime := dt_str.

(** The fields [__init__] sets besides [sent_files]. *)
Record ReportSender := mkReportSender {
  config : gmap string string;
  oci_config : gmap string string;
  signer : Signer
}.

Definition required_keys : list string :=
  ["NAMESPACE"; "REPORT_BUCKET_NAME"; "EMAIL_SENDER"; "EMAIL_RECIPIENT";
   "SMTP_USERNAME_SECRET_OCID"; "SMTP_PASSWORD_SECRET_OCID";
   "SMTP_SERVER"; "SMTP_PORT"].

(** The loop over the lines of [config.env]. *)
Definition parse_line (config : gmap string string) (line : string)
  : gmap string string :=
  let line := PyStr.strip line in
  if negb (String.eqb line EmptyString) && negb (PyStr.startswith line "#")
     && PyStr.contains line "="
  then
    match PyStr.split_once "="%char line with
    | (key, Some value) =>
        let value := PyStr.strip_chars (PyStr.dquote ++ "'") value in
        <[key := value]> config
    | (_, None) => config
    end
  else config.

Definition parse_config (text : string) : gmap string string :=
  List.fold_left parse_line (PyStr.lines text) ∅.

Definition missing_keys_of (config : gmap string string) : list string :=
  List.filter (fun key => negb (truthy (config !! key))) required_keys.

(** [ReportSender.load_config] *)
Definition load_config (w : World) : M (gmap string string) :=
  call CallReadConfig ;;
  match fs_config w with
  | ConfigMissing =>
      raise (Exception "FileNotFoundError"
               ("Configuration file not found: " ++ config_path w))
  | ConfigUnreadable e => raise e
  | ConfigText text =>
      let config := parse_config text in
      let missing_keys := missing_keys_of config in
      match missing_keys with
      | _ :: _ =>
          raise (Exception "ValueError"
                   ("Missing required configuration keys: "
                    ++ PyStr.repr_list missing_keys))
      | [] => ret config
      end
  end.

(** [ReportSender.setup_oci_config] *)
Definition setup_oci_config (w : World) : M (gmap string string) :=
  try_except
    (let oci_config_path :=
       dict_get_default (environ w) "OCI_CONFIG_FILE" (home_oci_config w) in
     let oci_profile_name :=
       dict_get_default (environ w) "OCI_CONFIG_PROFILE" "DEFAULT" in
     call (CallOciConfigFile oci_config_path oci_profile_name) ;;
     lift (oci_config_from_file w oci_config_path oci_profile_name))
    (fun e => log ERROR ("Failed to setup OCI config: " ++ exn_str e) ;; raise e).

(** [Signer(tenancy=..., user=..., fingerprint=...,
    private_key_file_location=..., pass_phrase=...)] *)
Definition make_signer (w : World) (cfg : gmap string string) : M Signer :=
  let* tenancy := lift (dict_index cfg "tenancy") in
  let* user := lift (dict_index cfg "user") in
  let* fingerprint := lift (dict_index cfg "fingerprint") in
  let* key_file := lift (dict_index cfg "key_file") in
  let pass_phrase := cfg !! "pass_phrase" in
  call (CallLoadKey key_file) ;;
  match load_private_key w key_file pass_phrase with
  | Some e => raise e
  | None => ret (KeyFileSigner tenancy user fingerprint key_file pass_phrase)
  end.

(** [ReportSender.setup_signer] *)
Definition setup_signer (w : World) (cfg : gmap string string) : M Signer :=
  try_except (make_signer w cfg)
    (fun e => log ERROR ("Failed to setup OCI signer: " ++ exn_str e) ;; raise e).

(** [ReportSender.load_sent_files] *)
Definition load_sent_files : M (gmap string SentRecord) :=
  call CallReadLedger ;;
  let* file := gets ledger_file in
  match file with
  | FileMissing => ret ∅
  | FileLedger entries => ret entries
  | FileUnreadable e =>
      try_except (raise e)
        (fun e => log WARNING ("Failed to load sent files database: " ++ exn_str e) ;;
                  ret ∅)
  end.

(** [ReportSender.save_sent_files] *)
Definition save_sent_files (w : World) : M unit :=
  try_except
    (call CallWriteLedger ;;
     match fs_write w with
     | WriteOk => let* entries := gets sent_files in set_ledger_file (FileLedger entries)
     | WriteDenied e => raise e
     | WriteTorn e => set_ledger_file (FileUnreadable e) ;; raise e
     end)
    (fun e => log ERROR ("Failed to save sent files database: " ++ exn_str e)).

(** [ReportSender.__init__]; building the two SDK clients has no effect
    that the script observes. *)
Definition ReportSender_init (w : World) : M ReportSender :=
  let* config := load_config w in
  let* loaded := load_sent_files in
  set_sent_files loaded ;;
  let* oci_config := setup_oci_config w in
  let* signer := setup_signer w oci_config in
  ret (mkReportSender config oci_config signer).

(** The object-storage service: [list_objects(..., prefix=p)] answers with
    the entries of the bucket whose name starts with [p], or fails.  The
    requested [fields] only select what an entry carries. *)
Definition list_objects (w : World) (sg : Signer) (namespace bucket prefix : string)
  : M (list ObjectSummary) :=
  call (CallListObjects namespace bucket prefix) ;;
  match oss_bucket w sg namespace bucket with
  | Returns content =>
      ret (List.filter (fun o => PyStr.startswith (name o) prefix) content)
  | Raises e => raise e
  end.

(** [self.config[key]]: the key may be absent only if validation was
    skipped. *)
Definition cfg (self : ReportSender) (key : string) : M string :=
  lift (dict_index (config self) key).

(** [ReportSender.get_latest_report_file] *)
Definition get_latest_report_file (w : World) (self : ReportSender)
  : M (option ObjectSummary) :=
  try_except
    (let* bucket_name := cfg self "REPORT_BUCKET_NAME" in
     let* namespace := cfg self "NAMESPACE" in
     let* objects :=
       list_objects w (signer self) namespace bucket_name "WeeklyCostsScheduledReport_" in
     match objects with
     | [] => log WARNING "No report files found in bucket" ;; ret None
     | _ :: _ =>
         let report_files := List.filter is_report objects in
         match report_files with
         | [] => log WARNING "No CSV.GZ report files found" ;; ret None
         | _ :: _ =>
             let report_files := sort_desc time_created report_files in
             ret (List.head report_files)
         end
     end)
    (fun e => log ERROR ("Failed to get latest report file: " ++ exn_str e) ;; raise e).

(** [get_latest_report_filename] of func.py; [oss_client] is the service
    reached with signer [sg]. *)
Definition get_latest_report_filename (w : World) (sg : Signer)
  (namespace bucket_name prefix : string) : M (option string) :=
  try_except
    (let* objects := list_objects w sg namespace bucket_name prefix in
     match objects with
     | _ :: _ =>
         let report_files := List.filter is_report objects in
         match report_files with
         | [] =>
             log WARNING ("No files matching '" ++ prefix ++ "*.csv.gz' found in bucket '"
                          ++ bucket_name ++ "'.") ;;
             ret None
         | _ :: _ =>
             match sort_desc time_created report_files with
             | latest_file_obj :: _ => ret (Some (name latest_file_obj))
             | [] => raise (Exception "IndexError" "list index out of range")
             end
         end
     | [] =>
         log WARNING ("No objects found with prefix '" ++ prefix ++ "' in bucket '"
                      ++ bucket_name ++ "'.") ;;
         ret None
     end)
    (fun e =>
       log ERROR ("Error listing objects in bucket '" ++ bucket_name ++ "': " ++ exn_str e) ;;
       raise e).

Section Ledger.
Context {T : Type} `{Format T}.

(** The two statements both ledger methods start with:
    [file_key = f"{file_name}_{file_time_created}"] and
    [file_hash = hashlib.md5(file_key.encode()).hexdigest()]. *)
Definition file_key (file_name : string) (file_time_created : T) : string :=
  file_name ++ "_" ++ format file_time_created.
Definition file_hash (file_name : string) (file_time_created : T) : string :=
  MD5.hexdigest (PyStr.encode (file_key file_name file_time_created)).

(** [ReportSender.is_file_already_sent] *)
Definition is_file_already_sent (file_name : string) (file_time_created : T) : M bool :=
  let h := file_hash file_name file_time_created in
  let* entries := gets sent_files in
  ret (match entries !! h with Some _ => true | None => false end).

(** [ReportSender.mark_file_as_sent] *)
Definition mark_file_as_sent (w : World) (file_name : string) (file_time_created : T)
  : M unit :=
  let h := file_hash file_name file_time_created in
  let* entries := gets sent_files in
  set_sent_files
    (<[h := mkSentRecord file_name (format file_time_created) (now_isoformat w)]> entries) ;;
  save_sent_files w.
End Ledger.

(** [ReportSender.get_secret]: the bundle is fetched and its content
    base64- and UTF-8-decoded; [vault_secret] answers with the decoded
    text or with whatever one of these steps raises. *)
Definition get_secret (w : World) (sg : Signer) (secret_ocid : string) : M string :=
  try_except
    (call (CallGetSecret secret_ocid) ;; lift (vault_secret w sg secret_ocid))
    (fun e =>
       log ERROR ("Failed to retrieve secret " ++ secret_ocid ++ ": " ++ exn_str e) ;;
       raise e).

(** [ReportSender.download_file] *)
Definition download_file (w : World) (self : ReportSender) (file_name : string)
  : M (list ascii) :=
  try_except
    (let* namespace := cfg self "NAMESPACE" in
     let* bucket_name := cfg self "REPORT_BUCKET_NAME" in
     call (CallGetObject namespace bucket_name (PStr file_name)) ;;
     lift (oss_get_object w (signer self) namespace bucket_name (PStr file_name)))
    (fun e =>
       log ERROR ("Failed to download file " ++ file_name ++ ": " ++ exn_str e) ;;
       raise e).

(** [MIMEMultipart()] with the three address headers and the two parts. *)
Definition compose (from to subject body : string) (attachment : MimePart)
  : MimeMultipart :=
  mkMultipart
    [("Content-Type", "multipart/mixed"); ("MIME-Version", "1.0");
     ("From", from); ("To", to); ("Subject", subject)]
    [MIMEText body "plain"; attachment].

(** One SMTP session: connect, [starttls], [login], [send_message],
    close.  It either delivers the message or raises having delivered
    nothing. *)
Definition smtp_session (w : World) (server : string) (port : Z)
  (user password : string) (msg : MimeMultipart) : M unit :=
  call (CallSmtp server port) ;;
  match smtp_deliver w server port user password msg with
  | None => deliver msg
  | Some e => raise e
  end.

(** The f-string of the body, before [.strip()]. *)
Definition polling_body (w : World) (file_name : string) (file_data : list ascii) : string :=
  PyStr.nl ++ "Hello," ++ PyStr.nl ++ PyStr.nl ++
  "Please find attached the latest OCI Usage Report: " ++ file_name ++ PyStr.nl ++ PyStr.nl ++
  "This report was automatically generated and sent by the OCI Report Automation system."
  ++ PyStr.nl ++ PyStr.nl ++
  "Report Details:" ++ PyStr.nl ++
  "- File: " ++ file_name ++ PyStr.nl ++
  "- Size: " ++ PyStr.thousands (N.of_nat (List.length file_data)) ++ " bytes" ++ PyStr.nl ++
  "- Sent: " ++ now_strftime w ++ PyStr.nl ++ PyStr.nl ++
  "Best regards," ++ PyStr.nl ++
  "OCI Report Automation System" ++ PyStr.nl ++ "            ".

(** [ReportSender.send_email] *)
Definition send_email (w : World) (self : ReportSender) (file_name : string)
  (file_data : list ascii) : M unit :=
  try_except
    (let* user_ocid := cfg self "SMTP_USERNAME_SECRET_OCID" in
     let* smtp_username := get_secret w (signer self) user_ocid in
     let* pass_ocid := cfg self "SMTP_PASSWORD_SECRET_OCID" in
     let* smtp_password := get_secret w (signer self) pass_ocid in
     let* sender := cfg self "EMAIL_SENDER" in
     let* recipient := cfg self "EMAIL_RECIPIENT" in
     let msg :=
       compose sender recipient ("OCI Usage Report: " ++ file_name)
               (PyStr.strip (polling_body w file_name file_data))
               (attachment_part file_name file_data) in
     let* server := cfg self "SMTP_SERVER" in
     let* port_text := cfg self "SMTP_PORT" in
     let* port := lift (PyInt.int port_text) in
     smtp_session w server port smtp_username smtp_password msg)
    (fun e => log ERROR ("Failed to send email: " ++ exn_str e) ;; raise e).

(** [ReportSender.run] *)
Definition run (w : World) (self : ReportSender) : M unit :=
  try_except
    (let* latest_file := get_latest_report_file w self in
     match latest_file with
     | None => ret tt
     | Some latest_file =>
         let* already := is_file_already_sent (name latest_file) (time_created latest_file) in
         if already : bool then ret tt
         else
           let* file_data := download_file w self (name latest_file) in
           send_email w self (name latest_file) file_data ;;
           mark_file_as_sent w (name latest_file) (time_created latest_file)
     end)
    (fun e => log ERROR ("Failed to send report: " ++ exn_str e) ;; sys_exit 1).

(** [main]: one process of the polling script. *)
Definition main (w : World) : M unit :=
  try_except
    (let* sender := ReportSender_init w in run w sender)
    (fun e => log ERROR ("Application failed: " ++ exn_str e) ;; sys_exit 1).

(** A process starts with no [ReportSender] in memory; the ledger file,
    the delivered mail and the logs are what previous processes left. *)
Definition fresh_process (s : Store) : Store :=
  mkStore ∅ (ledger_file s) (outbox s) (calls s) (logs s).

(** ** [json.loads] on bytes

    [json.loads] first picks an encoding ([json.detect_encoding]), decodes
    the bytes with the [surrogatepass] handler and then runs the JSON
    decoder on the text.  The UTF-8 path is written out; the UTF-16/32
    codecs and the decoder itself are answers of the [World]. *)

Module Json.
Local Open Scope N_scope.

Inductive Encoding :=
| utf_8 | utf_8_sig | utf_16 | utf_16_be | utf_16_le
| utf_32 | utf_32_be | utf_32_le.

Definition encoding_name (e : Encoding) : string :=
  match e with
  | utf_8 => "utf-8" | utf_8_sig => "utf-8-sig"
  | utf_16 => "utf-16" | utf_16_be => "utf-16-be" | utf_16_le => "utf-16-le"
  | utf_32 => "utf-32" | utf_32_be => "utf-32-be" | utf_32_le => "utf-32-le"
  end.

Fixpoint starts_with (b prefix : list N) : bool :=
  match prefix, b with
  | [], _ => true
  | p :: prefix', x :: b' => (x =? p) && starts_with b' prefix'
  | _ :: _, [] => false
  end.

(** [json.detect_encoding(b)] *)
Definition detect_encoding (b : list N) : Encoding :=
  if starts_with b [0; 0; 254; 255] || starts_with b [255; 254; 0; 0] then utf_32
  else if starts_with b [254; 255] || starts_with b [255; 254] then utf_16
  else if starts_with b [239; 187; 191] then utf_8_sig
  else
    match b with
    | b0 :: b1 :: b2 :: b3 :: _ =>
        if b0 =? 0 then (if b1 =? 0 then utf_32_be else utf_16_be)
        else if b1 =? 0 then
               (if negb (b2 =? 0) || negb (b3 =? 0) then utf_16_le else utf_32_le)
        else utf_8
    | [b0; b1] =>
        if b0 =? 0 then utf_16_be
        else if b1 =? 0 then utf_16_le
        else utf_8
    | _ => utf_8
    end.

Definition between (lo x hi : N) : bool := (lo <=? x) && (x <=? hi).
Definition cont (x : N) : bool := between 128 x 191.

(** Whether [b.decode("utf-8", "surrogatepass")] succeeds: well-formed
    UTF-8, where the three-byte forms of surrogates are let through. *)
Fixpoint utf8_decodes (b : list N) : bool :=
  match b with
  | [] => true
  | x :: r =>
      if x <? 128 then utf8_decodes r
      else if between 194 x 223 then
        match r with
        | c1 :: r1 => cont c1 && utf8_decodes r1
        | _ => false
        end
      else if between 224 x 239 then
        match r with
        | c1 :: c2 :: r2 =>
            (if x =? 224 then between 160 c1 191 else cont c1)
            && cont c2 && utf8_decodes r2
        | _ => false
        end
      else if between 240 x 244 then
        match r with
        | c1 :: c2 :: c3 :: r3 =>
            (if x =? 240 then between 144 c1 191
             else if x =? 244 then between 128 c1 143
             else cont c1)
            && cont c2 && cont c3 && utf8_decodes r3
        | _ => false
        end
      else false
  end.

(** The [UnicodeDecodeError] of the UTF-8 codec; its text, which names
    the offending byte and its position, is shortened. *)
Definition unicode_decode_error : exn :=
  Exception "UnicodeDecodeError" "'utf-8' codec can't decode byte: invalid utf-8".

(** [s.decode(detect_encoding(s), 'surrogatepass')] *)
Definition decode_bytes (w : World) (s : list ascii) : answer string :=
  let b := List.map N_of_ascii s in
  match detect_encoding b with
  | utf_8 =>
      if utf8_decodes b then Returns (string_of_list_ascii s)
      else Raises unicode_decode_error
  | utf_8_sig =>
      if utf8_decodes b then Returns (string_of_list_ascii (List.skipn 3 s))
      else Raises unicode_decode_error
  | enc => decode_other w (encoding_name enc) s
  end.

(** [json.loads(s)] for [bytes] *)
Definition loads (w : World) (s : list ascii) : answer PyVal :=
  match decode_bytes w s with
  | Returns text => json_decode w text
  | Raises e => Raises e
  end.
End Json.

(** ** Operations of the Python object model the handler relies on *)

Fixpoint assoc {V : Type} (items : list (string * V)) (key : string) : option V :=
  match items with
  | [] => None
  | (k, v) :: rest => if String.eqb k key then Some v else assoc rest key
  end.

Definition type_error (msg : string) : exn := Exception "TypeError" msg.

(** [key in v] for a string [key] *)
Definition py_contains (key : string) (v : PyVal) : answer bool :=
  match v with
  | PDict items => Returns (match assoc items key with Some _ => true | None => false end)
  | PStr s => Returns (PyStr.contains s key)
  | PList items =>
      Returns (existsb (fun x => match x with PStr s => String.eqb s key | _ => false end) items)
  | _ => Raises (type_error ("argument of type '" ++ type_name v ++ "' is not iterable"))
  end.

(** [v[key]] for a string [key] *)
Definition py_getitem (v : PyVal) (key : string) : answer PyVal :=
  match v with
  | PDict items =>
      match assoc items key with
      | Some x => Returns x
      | None => Raises (Exception "KeyError" ("'" ++ key ++ "'"))
      end
  | PStr _ => Raises (type_error "string indices must be integers, not 'str'")
  | PList _ => Raises (type_error "list indices must be integers or slices, not str")
  | _ => Raises (type_error ("'" ++ type_name v ++ "' object is not subscriptable"))
  end.

(** [v.keys()] *)
Definition py_keys (v : PyVal) : answer (list string) :=
  match v with
  | PDict items => Returns (List.map fst items)
  | _ => Raises (Exception "AttributeError"
                  ("'" ++ type_name v ++ "' object has no attribute 'keys'"))
  end.

Definition Z_str (z : Z) : string :=
  match z with
  | Zneg p => "-" ++ PyStr.of_N (Npos p)
  | _ => PyStr.of_N (Z.to_N z)
  end.

(** [str(v)], as an f-string inserts it. *)
Definition py_str (w : World) (v : PyVal) : string :=
  match v with
  | PStr s => s
  | PNone => "None"
  | PBool true => "True"
  | PBool false => "False"
  | PInt z => Z_str z
  | PFloat r => r
  | PList _ | PDict _ => repr_container w v
  end.

(** ** The event-triggered function: [handler] of func.py *)

(** The platform's invocation context; what is in it plays no role. *)
Inductive InvokeContext : Set := FnContext.

(** What [handler] returns: [response.Response(ctx, response_data=
    json.dumps(result), status_code=...)] on the platform, the bare
    [result] dict in a local run.  [response_data] is kept as the value
    that [json.dumps] serialises. *)
Inductive HandlerReturn :=
| Response (status_code : Z) (response_data : PyVal)
| LocalResult (result : PyVal).

(** [get_secret] of func.py *)
Definition func_get_secret (w : World) (secret_id : string) (sg : Signer) : M string :=
  try_except
    (call (CallGetSecret secret_id) ;; lift (vault_secret w sg secret_id))
    (fun e =>
       log ERROR ("Error fetching secret " ++ secret_id ++ ": " ++ exn_str e) ;;
       raise e).

(** Parsing the input: [body = {}], then [json.loads] if there is data;
    only [json.JSONDecodeError] is caught there. *)
Definition parse_body (w : World) (data : option (list ascii)) : M PyVal :=
  match data with
  | None => ret (PDict [])
  | Some bytes =>
      try_except_class "JSONDecodeError"
        (let* body := lift (Json.loads w bytes) in
         let* _keys := lift (py_keys body) in
         ret body)
        (fun e => log ERROR ("Failed to parse JSON data: " ++ exn_str e) ;; ret (PDict []))
  end.

(** Extracting the object name from the event payload. *)
Definition extract_object_name (body : PyVal) : M PyVal :=
  let* has_data := lift (py_contains "data" body) in
  let* nested :=
    if has_data : bool then
      let* d := lift (py_getitem body "data") in
      lift (py_contains "resourceName" d)
    else ret false in
  if nested : bool then
    let* d := lift (py_getitem body "data") in
    lift (py_getitem d "resourceName")
  else
    let* direct := lift (py_contains "objectName" body) in
    if direct : bool then lift (py_getitem body "objectName")
    else
      log WARNING "No object name found in payload, using test mode" ;;
      ret (PStr "test-report.csv").

(** Initialising the OCI authentication: the signer and
    [config_for_clients]. *)
Definition init_authentication (w : World) : M (gmap string string * Signer) :=
  match environ w !! "OCI_RESOURCE_PRINCIPAL_VERSION" with
  | Some _ =>
      call CallResourcePrincipal ;;
      match resource_principals_signer w with
      | Some e => raise e
      | None => ret (∅, ResourcePrincipalsSigner)
      end
  | None =>
      try_except
        (let oci_config_path :=
           dict_get_default (environ w) "OCI_CONFIG_FILE" (home_oci_config w) in
         let oci_profile_name :=
           dict_get_default (environ w) "OCI_CONFIG_PROFILE" "DEFAULT" in
         call (CallOciConfigFile oci_config_path oci_profile_name) ;;
         let* config_for_clients :=
           lift (oci_config_from_file w oci_config_path oci_profile_name) in
         let* sg := make_signer w config_for_clients in
         ret (config_for_clients, sg))
        (fun e =>
           log ERROR ("Failed to initialize local OCI authentication: " ++ exn_str e) ;;
           raise e)
  end.

(** The [env_vars] dict. *)
Definition env_vars (w : World) : list (string * option string) :=
  [("SMTP_USERNAME_SECRET_OCID", environ w !! "SMTP_USERNAME_SECRET_OCID");
   ("SMTP_PASSWORD_SECRET_OCID", environ w !! "SMTP_PASSWORD_SECRET_OCID");
   ("EMAIL_FROM", environ w !! "EMAIL_FROM");
   ("EMAIL_TO", environ w !! "EMAIL_TO");
   ("SMTP_SERVER",
    Some (dict_get_default (environ w) "SMTP_SERVER"
            "smtp.email.eu-frankfurt-1.oci.oraclecloud.com"));
   ("SMTP_PORT", Some (dict_get_default (environ w) "SMTP_PORT" "587"));
   ("NAMESPACE", environ w !! "NAMESPACE");
   ("BUCKET_NAME", environ w !! "BUCKET_NAME")].

(** [env_vars[var]]; every key that is asked for is in the dict. *)
Definition env_var (w : World) (var : string) : option string :=
  match assoc (env_vars w) var with
  | Some v => v
  | None => None
  end.

(** The text of a variable that the check below found present. *)
Definition env_text (w : World) (var : string) : string :=
  match env_var w var with Some v => v | None => EmptyString end.

Definition required_vars : list string :=
  ["SMTP_USERNAME_SECRET_OCID"; "SMTP_PASSWORD_SECRET_OCID";
   "EMAIL_FROM"; "EMAIL_TO"; "NAMESPACE"; "BUCKET_NAME"].

Definition missing_vars_of (w : World) : list string :=
  List.filter (fun var => negb (truthy (env_var w var))) required_vars.

(** Checking for the required environment variables. *)
Definition check_environment (w : World) : M unit :=
  match missing_vars_of w with
  | (_ :: _) as missing_vars =>
      let error_msg :=
        "Missing required environment variables: " ++ PyStr.join ", " missing_vars in
      log ERROR error_msg ;;
      raise (Exception "ValueError" error_msg)
  | [] => ret tt
  end.

Definition handler_body_text (object_name : string) : string :=
  PyStr.nl ++ "Hello," ++ PyStr.nl ++ PyStr.nl ++
  "Please find attached the OCI Usage Report: " ++ object_name ++ PyStr.nl ++ PyStr.nl ++
  "This report was automatically generated and sent by the OCI Functions service."
  ++ PyStr.nl ++ PyStr.nl ++
  "Best regards," ++ PyStr.nl ++
  "OCI Report Automation" ++ PyStr.nl.

(** The [result] dict of a successful run. *)
Definition success_result (w : World) (object_name : PyVal) : PyVal :=
  PDict [("status", PStr "success");
         ("message", PStr ("Email sent successfully for " ++ py_str w object_name));
         ("object_name", object_name);
         ("recipient", PStr (env_text w "EMAIL_TO"))].

(** The statements of [handler] that follow the extraction of the object
    name, up to the [result] dict of a successful run. *)
Definition handler_rest (w : World) (object_name : PyVal) : M PyVal :=
  let* auth := init_authentication w in
  let '(config_for_clients, sg) := auth in
  check_environment w ;;
  let namespace := env_text w "NAMESPACE" in
  let bucket_name := env_text w "BUCKET_NAME" in
  let* file_data :=
    try_except
      (call (CallGetObject namespace bucket_name object_name) ;;
       lift (oss_get_object w sg namespace bucket_name object_name))
      (fun e =>
         log ERROR ("Failed to fetch object '" ++ py_str w object_name ++ "': " ++ exn_str e) ;;
         raise e) in
  let* credentials :=
    try_except
      (let* smtp_user := func_get_secret w (env_text w "SMTP_USERNAME_SECRET_OCID") sg in
       let* smtp_pass := func_get_secret w (env_text w "SMTP_PASSWORD_SECRET_OCID") sg in
       ret (smtp_user, smtp_pass))
      (fun e =>
         log ERROR ("Failed to retrieve SMTP credentials: " ++ exn_str e) ;; raise e) in
  let '(smtp_user, smtp_pass) := credentials in
  let msg :=
    compose (env_text w "EMAIL_FROM") (env_text w "EMAIL_TO")
            ("OCI Usage Report: " ++ py_str w object_name)
            (handler_body_text (py_str w object_name))
            (attachment_part (py_str w object_name) file_data) in
  try_except
    (let* port := lift (PyInt.int (env_text w "SMTP_PORT")) in
     smtp_session w (env_text w "SMTP_SERVER") port smtp_user smtp_pass msg)
    (fun e => log ERROR ("Failed to send email: " ++ exn_str e) ;; raise e) ;;
  ret (success_result w object_name).

(** The statements of [handler] inside its outer [try]. *)
Definition handler_steps (w : World) (data : option (list ascii)) : M PyVal :=
  let* body := parse_body w data in
  let* object_name := extract_object_name body in
  handler_rest w object_name.

(** The [result] dict of the [except Exception as e] branch. *)
Definition error_result (e : exn) : PyVal :=
  PDict [("status", PStr "error");
         ("message", PStr ("Function execution failed: " ++ exn_str e));
         ("error_type", PStr (exn_type e))].

(** [handler(ctx, data)] *)
Definition handler (w : World) (ctx : option InvokeContext) (data : option (list ascii))
  : M HandlerReturn :=
  try_except
    (let* result := handler_steps w data in
     match ctx with
     | Some _ => ret (Response 200 result)
     | None => ret (LocalResult result)
     end)
    (fun e =>
       let error_msg := "Function execution failed: " ++ exn_str e in
       log ERROR error_msg ;;
       log ERROR "Full traceback" ;;
       match ctx with
       | Some _ => ret (Response 500 (error_result e))
       | None => raise e
       end).

(** ** Vocabulary of the specification *)

(** A line break, as [splitlines] sees it in ASCII text. *)
Definition is_break (c : ascii) : bool :=
  Ascii.eqb c Base64.newline || Ascii.eqb c Base64.carriage_return.

(** The head of a list is at least as recent as every entry of it. *)
Definition head_dominates {A : Type} (key : A -> datetime) (l : list A) : Prop :=
  match l with
  | [] => True
  | h :: _ => Forall (fun y => dt_leb (key y) (key h) = true) l
  end.

(** The filtered set of the Object Locator: the entries whose name starts
    with the prefix and ends with [.csv.gz]. *)
Definition matching_reports (prefix : string) (content : list ObjectSummary)
  : list ObjectSummary :=
  List.filter (fun o => PyStr.startswith (name o) prefix && is_report o) content.

(** [o] is an entry of [F] whose creation time no entry of [F] exceeds. *)
Definition is_latest_of (F : list ObjectSummary) (o : ObjectSummary) : Prop :=
  In o F /\ Forall (fun o' => dt_leb (time_created o') (time_created o) = true) F.

(** ** A concrete world, for running the entry points *)

Module Sample.

Definition report_0101 : ObjectSummary :=
  mkObject "WeeklyCostsScheduledReport_20240101.csv.gz"
           (mkDatetime 2024 1 1 6 0 0 0) 1200.
Definition report_0108 : ObjectSummary :=
  mkObject "WeeklyCostsScheduledReport_20240108.csv.gz"
           (mkDatetime 2024 1 8 6 0 0 0) 1400.
Definition readme : ObjectSummary :=
  mkObject "WeeklyCostsScheduledReport_notes.txt"
           (mkDatetime 2024 2 1 0 0 0 0) 10.

Definition bucket : list ObjectSummary := [report_0101; readme; report_0108].

Definition config_text : string :=
  "# report automation" ++ PyStr.nl ++
  "NAMESPACE=tenancy-ns" ++ PyStr.nl ++
  "REPORT_BUCKET_NAME=cost-reports" ++ PyStr.nl ++
  "EMAIL_SENDER='reports@example.com'" ++ PyStr.nl ++
  "EMAIL_RECIPIENT=finance@example.com" ++ PyStr.nl ++
  "SMTP_USERNAME_SECRET_OCID=ocid1.secret.user" ++ PyStr.nl ++
  "SMTP_PASSWORD_SECRET_OCID=ocid1.secret.pass" ++ PyStr.nl ++
  "SMTP_SERVER=smtp.example.com" ++ PyStr.nl ++
  "SMTP_PORT=587" ++ PyStr.nl.

(** A configuration file that lacks two keys and leaves one empty. *)
Definition partial_config_text : string :=
  "NAMESPACE=tenancy-ns" ++ PyStr.nl ++
  "REPORT_BUCKET_NAME=cost-reports" ++ PyStr.nl ++
  "EMAIL_SENDER=reports@example.com" ++ PyStr.nl ++
  "EMAIL_RECIPIENT=" ++ PyStr.nl ++
  "SMTP_USERNAME_SECRET_OCID=ocid1.secret.user" ++ PyStr.nl ++
  "SMTP_SERVER=smtp.example.com" ++ PyStr.nl.

Definition function_environ : gmap string string :=
  list_to_map
    [("OCI_RESOURCE_PRINCIPAL_VERSION", "2.2");
     ("SMTP_USERNAME_SECRET_OCID", "ocid1.secret.user");
     ("SMTP_PASSWORD_SECRET_OCID", "ocid1.secret.pass");
     ("EMAIL_FROM", "reports@example.com");
     ("EMAIL_TO", "finance@example.com");
     ("NAMESPACE", "tenancy-ns");
     ("BUCKET_NAME", "cost-reports")].

Definition oci_profile : gmap string string :=
  list_to_map
    [("tenancy", "ocid1.tenancy"); ("user", "ocid1.user");
     ("fingerprint", "aa:bb"); ("key_file", "/home/ops/.oci/key.pem")].

Definition payload_empty_object : string := "{}".
Definition payload_event : string :=
  "{" ++ PyStr.dquote ++ "data" ++ PyStr.dquote ++ ": {" ++ PyStr.dquote
  ++ "resourceName" ++ PyStr.dquote ++ ": " ++ PyStr.dquote ++ "x.csv"
  ++ PyStr.dquote ++ "}}".
Definition payload_data_null : string :=
  "{" ++ PyStr.dquote ++ "data" ++ PyStr.dquote ++ ": null, " ++ PyStr.dquote
  ++ "objectName" ++ PyStr.dquote ++ ": " ++ PyStr.dquote ++ "x.csv"
  ++ PyStr.dquote ++ "}".

(** The JSON decoder on the handful of texts the examples use; any other
    text is answered as malformed. *)
Definition decoder (text : string) : answer PyVal :=
  if String.eqb text payload_empty_object then Returns (PDict [])
  else if String.eqb text payload_event
  then Returns (PDict [("data", PDict [("resourceName", PStr "x.csv")])])
  else if String.eqb text payload_data_null
  then Returns (PDict [("data", PNone); ("objectName", PStr "x.csv")])
  else Raises (Exception "JSONDecodeError" "Expecting value: line 1 column 1 (char 0)").

Definition report_bytes : list ascii := list_ascii_of_string "date,cost".

Definition world : World :=
  {| environ := function_environ;
     home_oci_config := "/home/ops/.oci/config";
     config_path := "/opt/reports/local-execution/../config.env";
     fs_config := ConfigText config_text;
     fs_write := WriteOk;
     now_isoformat := "2024-01-09T07:00:00.000000";
     now_strftime := "2024-01-09 07:00:00";
     oci_config_from_file := fun _ _ => Returns oci_profile;
     load_private_key := fun _ _ => None;
     resource_principals_signer := None;
     oss_bucket := fun _ _ _ => Returns bucket;
     oss_get_object := fun _ _ _ _ => Returns report_bytes;
     vault_secret := fun _ id => Returns ("secret-of-" ++ id);
     smtp_deliver := fun _ _ _ _ _ => None;
     json_decode := decoder;
     decode_other := fun enc _ => Raises (Exception "UnicodeDecodeError" enc);
     repr_container := fun _ => "<container>" |}.

Definition with_environ (e : gmap string string) (w : World) : World :=
  mkWorld e (home_oci_config w) (config_path w) (fs_config w) (fs_write w)
          (now_isoformat w) (now_strftime w) (oci_config_from_file w)
          (load_private_key w) (resource_principals_signer w) (oss_bucket w)
          (oss_get_object w) (vault_secret w) (smtp_deliver w) (json_decode w)
          (decode_other w) (repr_container w).

Definition with_fs_config (c : ConfigFile) (w : World) : World :=
  mkWorld (environ w) (home_oci_config w) (config_path w) c (fs_write w)
          (now_isoformat w) (now_strftime w) (oci_config_from_file w)
          (load_private_key w) (resource_principals_signer w) (oss_bucket w)
          (oss_get_object w) (vault_secret w) (smtp_deliver w) (json_decode w)
          (decode_other w) (repr_container w).

Definition with_fs_write (o : WriteOutcome) (w : World) : World :=
  mkWorld (environ w) (home_oci_config w) (config_path w) (fs_config w) o
          (now_isoformat w) (now_strftime w) (oci_config_from_file w)
          (load_private_key w) (resource_principals_signer w) (oss_bucket w)
          (oss_get_object w) (vault_secret w) (smtp_deliver w) (json_decode w)
          (decode_other w) (repr_container w).

Definition with_oci_config_from_file
  (f : string -> string -> answer (gmap string string)) (w : World) : World :=
  mkWorld (environ w) (home_oci_config w) (config_path w) (fs_config w) (fs_write w)
          (now_isoformat w) (now_strftime w) f
          (load_private_key w) (resource_principals_signer w) (oss_bucket w)
          (oss_get_object w) (vault_secret w) (smtp_deliver w) (json_decode w)
          (decode_other w) (repr_container w).

Definition with_smtp_deliver
  (f : string -> Z -> string -> string -> MimeMultipart -> option exn) (w : World)
  : World :=
  mkWorld (environ w) (home_oci_config w) (config_path w) (fs_config w) (fs_write w)
          (now_isoformat w) (now_strftime w) (oci_config_from_file w)
          (load_private_key w) (resource_principals_signer w) (oss_bucket w)
          (oss_get_object w) (vault_secret w) f (json_decode w)
          (decode_other w) (repr_container w).

(** A store before anything ran, with the ledger file in a given state. *)
Definition store (file : LedgerFile) : Store := mkStore ∅ file [] [] [].

(** The instance [ReportSender()] builds in [world]. *)
Definition sender : ReportSender :=
  mkReportSender (parse_config config_text) oci_profile
    (KeyFileSigner "ocid1.tenancy" "ocid1.user" "aa:bb" "/home/ops/.oci/key.pem" None).
End Sample.

(** Two stores agree on what the ledger discipline is about: the ledger in
    memory, the ledger file and the delivered mail. *)
Definition same_core (s s' : Store) : Prop :=
  sent_files s' = sent_files s /\ ledger_file s' = ledger_file s /\
  outbox s' = outbox s.

(** A computation that touches none of the three. *)
Definition frames {A} (m : M A) : Prop := forall s, same_core s (snd (m s)).

(** A computation whose outcome does not depend on the store it starts
    from. *)
Definition indep {A} (m : M A) : Prop := forall s s', fst (m s) = fst (m s').

(** One invocation of the polling script, as a new process. *)
Definition process (w : World) (s : Store) : result unit * Store :=
  main w (fresh_process s).

(** Between two invocations nothing changed in the installation or in the
    bucket: the configuration file, the environment, the OCI profile and
    key, and the content of the buckets are the same.  Downloads, secrets,
    the SMTP server, the clock and the disk may behave differently. *)
Definition unchanged (w1 w2 : World) : Prop :=
  fs_config w2 = fs_config w1 /\ config_path w2 = config_path w1 /\
  environ w2 = environ w1 /\ home_oci_config w2 = home_oci_config w1 /\
  oci_config_from_file w2 = oci_config_from_file w1 /\
  load_private_key w2 = load_private_key w1 /\
  oss_bucket w2 = oss_bucket w1.

(** The ledger [load_sent_files] obtains from a file. *)
Definition loaded_from (f : LedgerFile) : gmap string SentRecord :=
  match f with
  | FileLedger entries => entries
  | _ => ∅
  end.

(** A computation that, when it returns, has delivered exactly one message
    (one that satisfies [P]) and otherwise has delivered none; in both cases
    the ledger is as before. *)
Definition sends_one {A} (m : M A) (P : MimeMultipart -> Prop) : Prop :=
  forall s,
    match m s with
    | (Ok _, s') =>
        sent_files s' = sent_files s /\ ledger_file s' = ledger_file s /\
        exists msg, outbox s' = (outbox s ++ [msg])%list /\ P msg
    | (_, s') => same_core s s'
    end.

(** The message carries the report [file_data] under the name [file_name]
    as its attachment. *)
Definition carries (file_name : string) (file_data : list ascii)
  (msg : MimeMultipart) : Prop :=
  exists text, mp_parts msg = [text; attachment_part file_name file_data].

(** A run ended through [sys.exit] and left the ledger and the mail as
    they were. *)
Definition aborted (s : Store) (r : result unit * Store) : Prop :=
  (exists code, fst r = Exit code) /\ same_core s (snd r).

(** A run returned normally and left the ledger and the mail as they
    were. *)
Definition skipped (s : Store) (r : result unit * Store) : Prop :=
  fst r = Ok tt /\ same_core s (snd r).

(** The sample installation with a ledger file that exists, parses, and
    cannot be opened for writing. *)
Definition read_only_world : World :=
  Sample.with_fs_write
    (WriteDenied (Exception "PermissionError"
                    "[Errno 13] Permission denied: 'sent_files.json'"))
    Sample.world.

Definition intact_store : Store := Sample.store (FileLedger ∅).

(** The state after two invocations in a row. *)
Definition after_two (w1 w2 : World) (s : Store) : Store :=
  snd (process w2 (snd (process w1 s))).

(** The mail after is the mail before, possibly with one message added. *)
Definition at_most_one_more (before after : list MimeMultipart) : Prop :=
  after = before \/ exists msg, after = (before ++ [msg])%list.

(** The object name as the specification words it: [data.resourceName] if
    present, otherwise [objectName] if present, otherwise the placeholder. *)
Definition spec_object_name (items : list (string * PyVal)) : PyVal :=
  let fallback :=
    match assoc items "objectName" with
    | Some v => v
    | None => PStr "test-report.csv"
    end in
  match assoc items "data" with
  | Some (PDict d) =>
      match assoc d "resourceName" with
      | Some v => v
      | None => fallback
      end
  | _ => fallback
  end.

(** The [data] member of a payload, if there is one, is a JSON object. *)
Definition data_is_object (items : list (string * PyVal)) : Prop :=
  match assoc items "data" with
  | Some (PDict _) | None => True
  | Some _ => False
  end.

(** A computation that never ends through [sys.exit] and whose value, if it
    returns one, satisfies [P]. *)
Definition ends_in {A} (P : A -> Prop) (m : M A) : Prop :=
  forall s, match fst (m s) with
            | Ok a => P a
            | Raise _ => True
            | Exit _ => False
            end.

(** The text [k] occurs in [msg]. *)
Definition occurs_in (k msg : string) : Prop :=
  exists pre post, msg = pre ++ k ++ post.

(** An environment with the resource-principal marker and nothing else. *)
Definition bare_environ : gmap string string :=
  {[ "OCI_RESOURCE_PRINCIPAL_VERSION" := "2.2" ]}.

(** A local run without any of the variables and without an OCI profile. *)
Definition unconfigured_world : World :=
  Sample.with_environ ∅
    (Sample.with_oci_config_from_file
       (fun path _ =>
          Raises (Exception "ConfigFileNotFound"
                    ("Could not find config file at " ++ path)))
       Sample.world).

(** The one-byte payload [b'\xff']. *)
Definition payload_ff : list ascii := [ascii_of_N 255].

(** The calls of the identity set-up. *)
Definition is_authentication_call (c : Call) : Prop :=
  match c with
  | CallResourcePrincipal | CallOciConfigFile _ _ | CallLoadKey _ => True
  | _ => False
  end.

(** A computation all of whose calls satisfy [Q]. *)
Definition calls_only {A} (Q : Call -> Prop) (m : M A) : Prop :=
  forall s, exists cs, calls (snd (m s)) = (calls s ++ cs)%list /\ Forall Q cs.

(** ** Vocabulary of the further properties *)

(** [o] is the entry of [F] that is listed first among those with the
    latest creation time: what is listed before it is strictly older, what
    is listed after it is not newer. *)
Definition first_latest_of (F : list ObjectSummary) (o : ObjectSummary) : Prop :=
  exists pre post,
    F = (pre ++ o :: post)%list /\
    Forall (fun x => dt_leb (time_created o) (time_created x) = false) pre /\
    Forall (fun x => dt_leb (time_created x) (time_created o) = true) post.

(** The calls [ReportSender.__init__] can make. *)
Definition is_startup_call (c : Call) : Prop :=
  match c with
  | CallReadConfig | CallReadLedger | CallOciConfigFile _ _ | CallLoadKey _ => True
  | _ => False
  end.

(** The calls that reach the vault or the SMTP server. *)
Definition is_secret_or_smtp_call (c : Call) : Prop :=
  match c with
  | CallGetSecret _ | CallSmtp _ _ => True
  | _ => False
  end.

(** A computation that leaves through [sys.exit] only with status 1. *)
Definition exits_with_1 {A} (m : M A) : Prop :=
  forall s, match fst (m s) with
            | Exit code => code = 1%Z
            | _ => True
            end.

(** No character of [s] satisfies [p]. *)
Fixpoint no_char (p : ascii -> bool) (s : string) : bool :=
  match s with
  | EmptyString => true
  | String c rest => negb (p c) && no_char p rest
  end.

(** The sample installation with a bucket that cannot be listed. *)
Definition unlistable_world : World :=
  mkWorld (environ Sample.world) (home_oci_config Sample.world)
          (config_path Sample.world) (fs_config Sample.world) (fs_write Sample.world)
          (now_isoformat Sample.world) (now_strftime Sample.world)
          (oci_config_from_file Sample.world) (load_private_key Sample.world)
          (resource_principals_signer Sample.world)
          (fun _ _ _ => Raises (Exception "ServiceError" "BucketNotFound"))
          (oss_get_object Sample.world) (vault_secret Sample.world)
          (smtp_deliver Sample.world) (json_decode Sample.world)
          (decode_other Sample.world) (repr_container Sample.world).

(** The sample installation in which objects cannot be fetched. *)
Definition unfetchable_world : World :=
  mkWorld (environ Sample.world) (home_oci_config Sample.world)
          (config_path Sample.world) (fs_config Sample.world) (fs_write Sample.world)
          (now_isoformat Sample.world) (now_strftime Sample.world)
          (oci_config_from_file Sample.world) (load_private_key Sample.world)
          (resource_principals_signer Sample.world) (oss_bucket Sample.world)
          (fun _ _ _ _ => Raises (Exception "ServiceError" "ObjectNotFound"))
          (vault_secret Sample.world)
          (smtp_deliver Sample.world) (json_decode Sample.world)
          (decode_other Sample.world) (repr_container Sample.world).

(** The sample installation with a vault that rejects every secret. *)
Definition sealed_world : World :=
  mkWorld (environ Sample.world) (home_oci_config Sample.world)
          (config_path Sample.world) (fs_config Sample.world) (fs_write Sample.world)
          (now_isoformat Sample.world) (now_strftime Sample.world)
          (oci_config_from_file Sample.world) (load_private_key Sample.world)
          (resource_principals_signer Sample.world) (oss_bucket Sample.world)
          (oss_get_object Sample.world)
          (fun _ _ => Raises (Exception "ServiceError" "NotAuthorizedOrNotFound"))
          (smtp_deliver Sample.world) (json_decode Sample.world)
          (decode_other Sample.world) (repr_container Sample.world).

(** A bucket in which two reports share the latest creation time. *)
Definition tied_bucket : list ObjectSummary :=
  [Sample.report_0101;
   mkObject "WeeklyCostsScheduledReport_20240108b.csv.gz" (mkDatetime 2024 1 8 6 0 0 0) 7;
   Sample.report_0108].

Definition tied_world : World :=
  mkWorld (environ Sample.world) (home_oci_config Sample.world)
          (config_path Sample.world) (fs_config Sample.world) (fs_write Sample.world)
          (now_isoformat Sample.world) (now_strftime Sample.world)
          (oci_config_from_file Sample.world) (load_private_key Sample.world)
          (resource_principals_signer Sample.world)
          (fun _ _ _ => Returns tied_bucket)
          (oss_get_object Sample.world) (vault_secret Sample.world)
          (smtp_deliver Sample.world) (json_decode Sample.world)
          (decode_other Sample.world) (repr_container Sample.world).

(** A text file made of the given lines, each ended by a line feed. *)
Fixpoint unlines (ls : list string) : string :=
  match ls with
  | [] => EmptyString
  | l :: rest => l ++ PyStr.nl ++ unlines rest
  end.

(** The four entries of an OCI profile a key-file signer is made from. *)
Definition signer_entries : list string := ["tenancy"; "user"; "fingerprint"; "key_file"].

(** The kind of a call, without its arguments. *)
Inductive CallKind :=
| KReadConfig | KReadLedger | KWriteLedger | KOciConfigFile | KLoadKey
| KResourcePrincipal | KListObjects | KGetObject | KGetSecret | KSmtp.

Definition kind_of (c : Call) : CallKind :=
  match c with
  | CallReadConfig => KReadConfig
  | CallReadLedger => KReadLedger
  | CallWriteLedger => KWriteLedger
  | CallOciConfigFile _ _ => KOciConfigFile
  | CallLoadKey _ => KLoadKey
  | CallResourcePrincipal => KResourcePrincipal
  | CallListObjects _ _ _ => KListObjects
  | CallGetObject _ _ _ => KGetObject
  | CallGetSecret _ => KGetSecret
  | CallSmtp _ _ => KSmtp
  end.

(** The calls of one complete polling process, in order. *)
Definition polling_protocol : list CallKind :=
  [KReadConfig; KReadLedger; KOciConfigFile; KLoadKey; KListObjects;
   KGetObject; KGetSecret; KGetSecret; KSmtp; KWriteLedger].

(** The calls of the handler's identity set-up. *)
Definition authentication_protocol (w : World) : list CallKind :=
  match environ w !! "OCI_RESOURCE_PRINCIPAL_VERSION" with
  | Some _ => [KResourcePrincipal]
  | None => [KOciConfigFile; KLoadKey]
  end.

(** The calls of one complete invocation of the handler, in order. *)
Definition handler_protocol (w : World) : list CallKind :=
  (authentication_protocol w ++ [KGetObject; KGetSecret; KGetSecret; KSmtp])%list.

(** A computation whose calls are a beginning of [l], and all of [l] when
    it returns. *)
Definition makes {A} (l : list CallKind) (m : M A) : Prop :=
  forall s, exists cs,
    calls (snd (m s)) = (calls s ++ cs)%list /\
    List.map kind_of cs `prefix_of` l /\
    match fst (m s) with
    | Ok _ => List.map kind_of cs = l
    | _ => True
    end.

(** A computation whose calls are a beginning of [l]. *)
Definition within {A} (l : list CallKind) (m : M A) : Prop :=
  forall s, exists cs,
    calls (snd (m s)) = (calls s ++ cs)%list /\ List.map kind_of cs `prefix_of` l.

(** A computation that leaves the ledger alone, in memory and on disk. *)
Definition keeps_ledger {A} (m : M A) : Prop :=
  forall s, sent_files (snd (m s)) = sent_files s /\
            ledger_file (snd (m s)) = ledger_file s.

(** A computation that ends the same way and delivers the same messages
    whatever store it starts from. *)
Definition uniform {A} (m : M A) : Prop :=
  forall s s', fst (m s) = fst (m s') /\
    exists added, outbox (snd (m s)) = (outbox s ++ added)%list /\
                  outbox (snd (m s')) = (outbox s' ++ added)%list.

(** The sample installation without its configuration file. *)
Definition unconfigured_polling_world : World :=
  Sample.with_fs_config ConfigMissing Sample.world.

(** An OCI profile that lacks the [key_file] entry. *)
Definition keyless_profile : gmap string string :=
  list_to_map [("tenancy", "ocid1.tenancy"); ("user", "ocid1.user");
               ("fingerprint", "aa:bb")].

(** The sample installation with a vault that holds the user name and
    rejects the password. *)
Definition half_sealed_world : World :=
  mkWorld (environ Sample.world) (home_oci_config Sample.world)
          (config_path Sample.world) (fs_config Sample.world) (fs_write Sample.world)
          (now_isoformat Sample.world) (now_strftime Sample.world)
          (oci_config_from_file Sample.world) (load_private_key Sample.world)
          (resource_principals_signer Sample.world) (oss_bucket Sample.world)
          (oss_get_object Sample.world)
          (fun _ id =>
             if String.eqb id "ocid1.secret.user" then Returns "smtp-user"
             else Raises (Exception "ServiceError" "NotAuthorizedOrNotFound"))
          (smtp_deliver Sample.world) (json_decode Sample.world)
          (decode_other Sample.world) (repr_container Sample.world).

(** The sample installation with a JSON decoder that answers every text
    with an empty array. *)
Definition array_world : World :=
  mkWorld (environ Sample.world) (home_oci_config Sample.world)
          (config_path Sample.world) (fs_config Sample.world) (fs_write Sample.world)
          (now_isoformat Sample.world) (now_strftime Sample.world)
          (oci_config_from_file Sample.world) (load_private_key Sample.world)
          (resource_principals_signer Sample.world) (oss_bucket Sample.world)
          (oss_get_object Sample.world) (vault_secret Sample.world)
          (smtp_deliver Sample.world) (fun _ => Returns (PList []))
          (decode_other Sample.world) (repr_container Sample.world).

(** The object name when [data] does not lead to one: [objectName] if
    present, otherwise the placeholder. *)
Definition direct_object_name (items : list (string * PyVal)) : PyVal :=
  match assoc items "objectName" with
  | Some v => v
  | None => PStr "test-report.csv"
  end.

(** The handler's steps stop with [e] after the identity set-up left the
    store [s3], having made the calls [cs] and logged [lg] since then, and an
    invocation with a context is answered with status 500. *)
Definition stops_with (w : World) (data : option (list ascii)) (s s3 : Store)
  (e : exn) (cs : list Call) (lg : list (Level * string)) : Prop :=
  handler_steps w data s
  = (Raise e, mkStore (sent_files s3) (ledger_file s3) (outbox s3)
                      (calls s3 ++ cs) (logs s3 ++ lg)) /\
  forall c, fst (handler w (Some c) data s) = Ok (Response 500 (error_result e)).

(** The shapes of the [data] member on which the extraction of the object
    name raises: a scalar, a string that contains the text [resourceName], a
    list that has the string [resourceName] as an element. *)
Definition rejects_data (items : list (string * PyVal)) : bool :=
  match assoc items "data" with
  | None | Some (PDict _) => false
  | Some (PStr text) => PyStr.contains text "resourceName"
  | Some (PList l) =>
      existsb (fun x => match x with PStr s => String.eqb s "resourceName" | _ => false end) l
  | Some _ => true
  end.

(** The message the handler sends for an object. *)
Definition handler_message (w : World) (object_name : PyVal) (file_data : list ascii)
  : MimeMultipart :=
  compose (env_text w "EMAIL_FROM") (env_text w "EMAIL_TO")
          ("OCI Usage Report: " ++ py_str w object_name)
          (handler_body_text (py_str w object_name))
          (attachment_part (py_str w object_name) file_data).

(** The message the polling script sends for a report. *)
Definition polling_message (w : World) (sender recipient file_name : string)
  (file_data : list ascii) : MimeMultipart :=
  compose sender recipient ("OCI Usage Report: " ++ file_name)
          (PyStr.strip (polling_body w file_name file_data))
          (attachment_part file_name file_data).

(** The sample function deployed with an empty [SMTP_PORT]. *)
Definition portless_world : World :=
  Sample.with_environ (<[ "SMTP_PORT" := EmptyString ]> Sample.function_environ)
    Sample.world.

(** The server and the port the handler falls back to. *)
Definition default_smtp_server : string := "smtp.email.eu-frankfurt-1.oci.oraclecloud.com".
Definition default_smtp_port : Z := 587.


(** * Properties *)

(** ** The library models on known values *)

(** The test suite of RFC 1321, and a fingerprint as the script computes
    it. *)
Example md5_empty :
  MD5.hexdigest (PyStr.encode EmptyString) = "d41d8cd98f00b204e9800998ecf8427e".
Proof. vm_compute. reflexivity. Qed.

Example md5_abc :
  MD5.hexdigest (PyStr.encode "abc") = "900150983cd24fb0d6963f7d28e17f72".
Proof. vm_compute. reflexivity. Qed.

Example md5_message_digest :
  MD5.hexdigest (PyStr.encode "message digest") = "f96b697d7cb7938d525a2f31aaf161d0".
Proof. vm_compute. reflexivity. Qed.

Example md5_two_blocks :
  MD5.hexdigest
    (PyStr.encode
       "12345678901234567890123456789012345678901234567890123456789012345678901234567890")
  = "57edf4a22be3c955ac49da2e2107b67a".
Proof. vm_compute. reflexivity. Qed.

Example file_hash_of_report :
  file_hash "WeeklyCostsScheduledReport_20240108.csv.gz"
            (mkDatetime 2024 1 8 3 4 5 120000)
  = "2846c6d9150084e4d3e094d79abfb7a8".
Proof. vm_compute. reflexivity. Qed.

Example dt_str_whole_second :
  dt_str (mkDatetime 2024 1 8 3 4 5 0) = "2024-01-08 03:04:05+00:00".
Proof. vm_compute. reflexivity. Qed.

Example dt_str_microseconds :
  dt_str (mkDatetime 2024 1 8 3 4 5 120) = "2024-01-08 03:04:05.000120+00:00".
Proof. vm_compute. reflexivity. Qed.

Example encodebytes_short :
  string_of_list_ascii (Base64.encodebytes (list_ascii_of_string "ab"))
  = "YWI=" ++ PyStr.nl.
Proof. vm_compute. reflexivity. Qed.

Example int_of_port :
  PyInt.int " 587 " = Returns 587%Z /\ PyInt.int "5_8" = Returns 58%Z /\
  PyInt.parse "5__8" = None /\ PyInt.parse "smtp" = None /\ PyInt.parse EmptyString = None.
Proof. repeat split; vm_compute; reflexivity. Qed.

Example thousands_of_size :
  PyStr.thousands 1234567 = "1,234,567" /\ PyStr.thousands 1000 = "1,000" /\
  PyStr.thousands 12 = "12".
Proof. repeat split; vm_compute; reflexivity. Qed.

Example endswith_suffix :
  is_report (mkObject "WeeklyCostsScheduledReport_20240108.csv.gz"
                      (mkDatetime 2024 1 8 0 0 0 0) 1) = true /\
  PyStr.endswith "report.csv" ".csv.gz" = false /\
  PyStr.endswith ".gz" ".csv.gz" = false /\
  PyStr.startswith "WeeklyCostsScheduledReport_x" "WeeklyCostsScheduledReport_" = true.
Proof. repeat split; vm_compute; reflexivity. Qed.

(** The stable descending sort keeps the listing order among equal
    creation times. *)
Example sort_desc_is_stable :
  List.map name
    (sort_desc time_created
       [mkObject "a" (mkDatetime 2024 1 1 0 0 0 0) 1;
        mkObject "b" (mkDatetime 2024 1 8 0 0 0 0) 1;
        mkObject "c" (mkDatetime 2024 1 8 0 0 0 0) 1])
  = ["b"; "c"; "a"].
Proof. vm_compute. reflexivity. Qed.

(** [ReportSender()] in the sample installation, and the reading of a
    configuration file with a comment, a quoted value and an empty value. *)
Example sample_sender_is_built :
  fst (ReportSender_init Sample.world (Sample.store FileMissing)) = Ok Sample.sender /\
  parse_config Sample.config_text !! "EMAIL_SENDER" = Some "reports@example.com" /\
  parse_config Sample.partial_config_text !! "EMAIL_RECIPIENT" = Some EmptyString /\
  parse_config Sample.partial_config_text !! "SMTP_PORT" = None.
Proof. repeat split; vm_compute; reflexivity. Qed.

(** ** Base64 and the attachment round trip *)

Section Base64Facts.
Import Base64.
Local Open Scope N_scope.

(** Lists are consumed three bytes at a time. *)
Lemma list_ind3 {A : Type} (P : list A -> Prop) :
  P [] -> (forall a, P [a]) -> (forall a b, P [a; b]) ->
  (forall a b c l, P l -> P (a :: b :: c :: l)) ->
  forall l, P l.
Proof.
  intros H0 H1 H2 H3.
  fix IH 1. intros [|a [|b [|c l]]]; [assumption | apply H1 | apply H2 |].
  apply H3, IH.
Qed.

Lemma sextet_of_char_of_sextet n :
  n < 64 -> sextet_of_char (char_of_sextet n) = Some n.
Proof.
  intros Hn. destruct n as [|p]; [reflexivity|].
  do 6 (try (destruct p as [p|p|])); try reflexivity; lia.
Qed.

Lemma sextet_of_pad : sextet_of_char pad_char = None.
Proof. reflexivity. Qed.

Lemma byte_of_first (b1 b2 : ascii) :
  byte_of (N_of_ascii b1 / 4 * 4)
          (((N_of_ascii b1 mod 4) * 16 + N_of_ascii b2 / 16) / 16) = b1.
Proof.
  unfold byte_of.
  pose proof (N_ascii_bounded b1). pose proof (N_ascii_bounded b2).
  rewrite <- (ascii_N_embedding b1) at 3. f_equal.
  set (x := N_of_ascii b1) in *. set (y := N_of_ascii b2) in *.
  assert (Hy : y / 16 < 16) by (apply N.Div0.div_lt_upper_bound; lia).
  rewrite (N.add_comm (x mod 4 * 16)), N.div_add by lia.
  rewrite (N.div_small (y / 16)) by lia.
  rewrite (N.div_mod x 4) at 3 by lia. lia.
Qed.

Lemma byte_of_mid (x y z : ascii) :
  byte_of ((((N_of_ascii x mod 4) * 16 + N_of_ascii y / 16) mod 16) * 16)
          (((N_of_ascii y mod 16) * 4 + N_of_ascii z / 64) / 4) = y.
Proof.
  unfold byte_of.
  pose proof (N_ascii_bounded y). pose proof (N_ascii_bounded z).
  rewrite <- (ascii_N_embedding y) at 3. f_equal.
  set (a := N_of_ascii x). set (b := N_of_ascii y) in *. set (c := N_of_ascii z) in *.
  assert (Hb : b / 16 < 16) by (apply N.Div0.div_lt_upper_bound; lia).
  assert (Hc : c / 64 < 4) by (apply N.Div0.div_lt_upper_bound; lia).
  rewrite (N.add_comm (a mod 4 * 16)), N.Div0.mod_add.
  rewrite (N.mod_small (b / 16)) by lia.
  rewrite (N.add_comm (b mod 16 * 4)), N.div_add by lia.
  rewrite (N.div_small (c / 64)) by lia.
  rewrite (N.div_mod b 16) at 3 by lia. lia.
Qed.

Lemma byte_of_last (y z : ascii) :
  byte_of ((((N_of_ascii y mod 16) * 4 + N_of_ascii z / 64) mod 4) * 64)
          (N_of_ascii z mod 64) = z.
Proof.
  unfold byte_of.
  pose proof (N_ascii_bounded z).
  rewrite <- (ascii_N_embedding z) at 3. f_equal.
  set (b := N_of_ascii y). set (c := N_of_ascii z) in *.
  assert (Hc : c / 64 < 4) by (apply N.Div0.div_lt_upper_bound; lia).
  rewrite (N.add_comm (b mod 16 * 4)), N.Div0.mod_add.
  rewrite (N.mod_small (c / 64)) by lia.
  rewrite (N.div_mod c 64) at 3 by lia. lia.
Qed.

(** The sextets an encoder produces are below 64. *)
Lemma sextet_bounds (x y : ascii) :
  N_of_ascii x / 4 < 64 /\
  (N_of_ascii x mod 4) * 16 + N_of_ascii y / 16 < 64 /\
  (N_of_ascii x mod 16) * 4 + N_of_ascii y / 64 < 64 /\
  N_of_ascii x mod 64 < 64 /\
  (N_of_ascii x mod 4) * 16 < 64 /\
  (N_of_ascii x mod 16) * 4 < 64.
Proof.
  pose proof (N_ascii_bounded x). pose proof (N_ascii_bounded y).
  assert (N_of_ascii x / 4 < 64) by (apply N.Div0.div_lt_upper_bound; lia).
  assert (N_of_ascii y / 16 < 16) by (apply N.Div0.div_lt_upper_bound; lia).
  assert (N_of_ascii y / 64 < 4) by (apply N.Div0.div_lt_upper_bound; lia).
  pose proof (N.mod_upper_bound (N_of_ascii x) 4).
  pose proof (N.mod_upper_bound (N_of_ascii x) 16).
  pose proof (N.mod_upper_bound (N_of_ascii x) 64).
  lia.
Qed.

Lemma byte_of_first_tail (b1 : ascii) :
  byte_of (N_of_ascii b1 / 4 * 4) ((N_of_ascii b1 mod 4) * 16 / 16) = b1.
Proof.
  unfold byte_of. rewrite <- (ascii_N_embedding b1) at 3. f_equal.
  rewrite N.div_mul by lia.
  rewrite (N.div_mod (N_of_ascii b1) 4) at 3 by lia. lia.
Qed.

Lemma byte_of_mid_tail (x y : ascii) :
  byte_of ((((N_of_ascii x mod 4) * 16 + N_of_ascii y / 16) mod 16) * 16)
          ((N_of_ascii y mod 16) * 4 / 4) = y.
Proof.
  unfold byte_of. pose proof (N_ascii_bounded y).
  rewrite <- (ascii_N_embedding y) at 3. f_equal.
  set (a := N_of_ascii x). set (b := N_of_ascii y) in *.
  assert (Hb : b / 16 < 16) by (apply N.Div0.div_lt_upper_bound; lia).
  rewrite (N.add_comm (a mod 4 * 16)), N.Div0.mod_add.
  rewrite (N.mod_small (b / 16)) by lia.
  rewrite N.div_mul by lia.
  rewrite (N.div_mod b 16) at 3 by lia. lia.
Qed.

(** Strict decoding undoes the grouping. *)
Lemma b64decode_strict_groups (s : list ascii) :
  b64decode_strict (b64_groups s) = Some s.
Proof.
  induction s as [|a|a b|a b c l IH] using list_ind3.
  - reflexivity.
  - destruct (sextet_bounds a a) as (H1 & _ & _ & _ & H5 & _).
    cbn [b64_groups b64decode_strict].
    rewrite !sextet_of_char_of_sextet, sextet_of_pad by assumption.
    cbn. now rewrite byte_of_first_tail.
  - destruct (sextet_bounds a b) as (H1 & H2 & _).
    destruct (sextet_bounds b b) as (_ & _ & _ & _ & _ & H6).
    cbn [b64_groups b64decode_strict].
    rewrite !sextet_of_char_of_sextet, sextet_of_pad by assumption.
    cbn. now rewrite byte_of_first, byte_of_mid_tail.
  - destruct (sextet_bounds a b) as (H1 & H2 & _).
    destruct (sextet_bounds b c) as (_ & _ & H3 & _).
    destruct (sextet_bounds c c) as (_ & _ & _ & H4 & _).
    cbn [b64_groups b64decode_strict].
    rewrite !sextet_of_char_of_sextet by assumption.
    rewrite IH. now rewrite byte_of_first, byte_of_mid, byte_of_last.
Qed.

Lemma b64_groups_length_mod4 (s : list ascii) :
  (List.length (b64_groups s) mod 4 = 0)%nat.
Proof.
  induction s as [|a|a b|a b c l IH] using list_ind3; try reflexivity.
  cbn [b64_groups List.length].
  change (S (S (S (S ?n)))) with (4 + n)%nat.
  replace (4 + List.length (b64_groups l))%nat
    with (List.length (b64_groups l) + 1 * 4)%nat by lia.
  now rewrite Nat.Div0.mod_add.
Qed.

Lemma decode_b_groups (s : list ascii) : decode_b (b64_groups s) = Some s.
Proof.
  unfold decode_b. rewrite b64_groups_length_mod4. cbn [Nat.eqb].
  rewrite app_nil_r. apply b64decode_strict_groups.
Qed.

Lemma alphabet_no_break k c :
  String.get k alphabet = Some c -> is_break c = false.
Proof.
  do 64 (destruct k as [|k]; [intros [= <-]; reflexivity|]).
  discriminate.
Qed.

Lemma char_of_sextet_no_break n : is_break (char_of_sextet n) = false.
Proof.
  unfold char_of_sextet.
  destruct (String.get (N.to_nat n) alphabet) eqn:E; [|reflexivity].
  eapply alphabet_no_break; eassumption.
Qed.

Lemma join_splitlines_groups (s : list ascii) :
  join_splitlines (b64_groups s) = b64_groups s.
Proof.
  unfold join_splitlines.
  change (fun c => negb (Ascii.eqb c newline || Ascii.eqb c carriage_return))
    with (fun c => negb (is_break c)).
  induction s as [|a|a b|a b c l IH] using list_ind3;
    cbn [b64_groups List.filter];
    rewrite ?char_of_sextet_no_break; cbn [negb]; try reflexivity.
  now rewrite IH.
Qed.

Lemma join_splitlines_app (a b : list ascii) :
  join_splitlines (a ++ b)%list = (join_splitlines a ++ join_splitlines b)%list.
Proof. apply List.filter_app. Qed.

Lemma join_splitlines_b2a (chunk : list ascii) :
  join_splitlines (b2a_base64 chunk) = b64_groups chunk.
Proof.
  unfold b2a_base64. rewrite join_splitlines_app, join_splitlines_groups.
  cbn. apply app_nil_r.
Qed.

(** A chunk whose length is a multiple of three encodes independently
    of what follows it. *)
Lemma b64_groups_app (k : nat) : forall a b : list ascii,
  List.length a = (3 * k)%nat ->
  b64_groups (a ++ b)%list = (b64_groups a ++ b64_groups b)%list.
Proof.
  induction k as [|k IH]; intros a b Hlen.
  - destruct a; [reflexivity | discriminate].
  - destruct a as [|x [|y [|z a]]]; cbn in Hlen; try lia.
    cbn [b64_groups app]. rewrite IH by lia. reflexivity.
Qed.

Lemma b64_groups_chunk (s : list ascii) :
  (b64_groups (List.firstn MAXBINSIZE s) ++ b64_groups (List.skipn MAXBINSIZE s))%list
  = b64_groups s.
Proof.
  destruct (Nat.le_gt_cases MAXBINSIZE (List.length s)) as [Hge | Hlt].
  - rewrite <- (b64_groups_app 19).
    + now rewrite List.firstn_skipn.
    + rewrite List.length_firstn. unfold MAXBINSIZE in *. lia.
  - rewrite List.firstn_all2, List.skipn_all2 by lia.
    apply app_nil_r.
Qed.

Lemma join_splitlines_chunks (fuel : nat) : forall s : list ascii,
  (List.length s <= fuel)%nat ->
  join_splitlines (encode_chunks fuel s) = b64_groups s.
Proof.
  induction fuel as [|fuel IH]; intros s Hlen.
  - destruct s; [reflexivity | cbn in Hlen; lia].
  - destruct s as [|c s]; [reflexivity|].
    cbn [encode_chunks].
    rewrite join_splitlines_app, join_splitlines_b2a, IH.
    + apply b64_groups_chunk.
    + rewrite List.length_skipn. unfold MAXBINSIZE. cbn [List.length] in *. lia.
Qed.

(** [decode_b] after joining the lines inverts [encodebytes]. *)
Lemma decode_encodebytes (s : list ascii) :
  decode_b (join_splitlines (encodebytes s)) = Some s.
Proof.
  unfold encodebytes.
  rewrite join_splitlines_chunks by reflexivity.
  apply decode_b_groups.
Qed.
End Base64Facts.

(** The part that the four attachment statements build. *)
Lemma attachment_part_eq (file_name : string) (file_data : list ascii) :
  attachment_part file_name file_data
  = mkPart [("Content-Type", "application/octet-stream"); ("MIME-Version", "1.0");
            ("Content-Transfer-Encoding", "base64");
            ("Content-Disposition",
             "attachment; filename=" ++ PyStr.dquote ++ file_name ++ PyStr.dquote)]
           (PayloadText (string_of_list_ascii (Base64.encodebytes file_data))).
Proof.
  unfold attachment_part, encode_base64, get_payload_decoded, set_payload, MIMEBase.
  cbn [part_headers part_payload].
  change (lower (get_header _ "content-transfer-encoding" EmptyString)) with EmptyString.
  reflexivity.
Qed.

(** C6. Attachment round trip: for every file name and every byte payload,
    the attachment of the composed message is the part the entry points
    build (payload set, [encode_base64], disposition header), its payload is
    the base64 text of the bytes, its transfer encoding is [base64], and
    [get_payload(decode=True)], which decodes that base64 text, returns
    exactly the bytes that were attached. *)
Theorem attachment_roundtrip (from to subject body file_name : string)
  (file_data : list ascii) :
  let part := attachment_part file_name file_data in
  mp_parts (compose from to subject body part) = [MIMEText body "plain"; part] /\
  part_payload part = PayloadText (string_of_list_ascii (Base64.encodebytes file_data)) /\
  get_header (part_headers part) "Content-Transfer-Encoding" EmptyString = "base64" /\
  get_payload_decoded part = Some file_data.
Proof.
  cbv zeta.
  rewrite (attachment_part_eq file_name file_data).
  split; [reflexivity|]. split; [reflexivity|]. split; [reflexivity|].
  unfold get_payload_decoded. cbn [part_headers part_payload].
  change (lower (get_header _ "content-transfer-encoding" EmptyString)) with "base64".
  change (String.eqb "base64" "base64") with true. cbv beta iota.
  rewrite list_ascii_of_string_of_list_ascii.
  apply decode_encodebytes.
Qed.

(** ** Object Locator *)

Lemma lex_compare_antisym (a b : list N) :
  lex_compare b a = CompOpp (lex_compare a b).
Proof.
  revert b. induction a as [|x a IH]; intros [|y b]; cbn; try reflexivity.
  rewrite (N.compare_antisym x y).
  destruct (N.compare x y); cbn; auto.
Qed.

Lemma lex_compare_le_trans (a b c : list N) :
  lex_compare a b <> Gt -> lex_compare b c <> Gt -> lex_compare a c <> Gt.
Proof.
  revert b c. induction a as [|x a IH]; intros [|y b] [|z c]; cbn; try congruence.
  destruct (N.compare_spec x y), (N.compare_spec y z), (N.compare_spec x z);
    subst; try congruence; try lia; eauto.
Qed.

Lemma dt_leb_total (a b : datetime) : dt_leb a b = true \/ dt_leb b a = true.
Proof.
  unfold dt_leb. rewrite (lex_compare_antisym (dt_fields a) (dt_fields b)).
  destruct (lex_compare (dt_fields a) (dt_fields b)); cbn; auto.
Qed.

Lemma dt_leb_trans (a b c : datetime) :
  dt_leb a b = true -> dt_leb b c = true -> dt_leb a c = true.
Proof.
  unfold dt_leb. intros Hab Hbc.
  pose proof (lex_compare_le_trans (dt_fields a) (dt_fields b) (dt_fields c)) as Ht.
  destruct (lex_compare (dt_fields a) (dt_fields b)),
           (lex_compare (dt_fields b) (dt_fields c)),
           (lex_compare (dt_fields a) (dt_fields c));
    try reflexivity; try discriminate; exfalso; apply Ht; congruence.
Qed.

Lemma dt_leb_refl (a : datetime) : dt_leb a a = true.
Proof. destruct (dt_leb_total a a); assumption. Qed.

Section SortFacts.
Context {A : Type} (key : A -> datetime).

Lemma insert_desc_In x l z : In z (insert_desc key x l) <-> z = x \/ In z l.
Proof.
  induction l as [|y l IH]; cbn.
  - intuition.
  - destruct (dt_leb (key y) (key x)); cbn; [intuition|].
    rewrite IH. intuition.
Qed.

Lemma sort_desc_In l z : In z (sort_desc key l) <-> In z l.
Proof.
  induction l as [|x l IH]; cbn; [reflexivity|].
  rewrite insert_desc_In, IH. intuition.
Qed.

Lemma insert_desc_head x l :
  head_dominates key l -> head_dominates key (insert_desc key x l).
Proof.
  destruct l as [|y l]; cbn.
  - intros _. constructor; [apply dt_leb_refl | constructor].
  - intros Hdom. destruct (dt_leb (key y) (key x)) eqn:Hyx; cbn.
    + constructor; [apply dt_leb_refl|].
      eapply List.Forall_impl; [|exact Hdom].
      cbn. intros a Ha. eapply dt_leb_trans; eassumption.
    + inversion Hdom as [|? ? Hy Hl]; subst.
      constructor; [assumption|].
      apply List.Forall_forall. intros z Hz.
      apply insert_desc_In in Hz as [-> | Hz].
      * destruct (dt_leb_total (key x) (key y)); congruence.
      * rewrite List.Forall_forall in Hl. auto.
Qed.

Lemma sort_desc_head l : head_dominates key (sort_desc key l).
Proof.
  induction l as [|x l IH]; cbn; [exact I|].
  apply insert_desc_head, IH.
Qed.

Lemma sort_desc_nonempty x l : sort_desc key (x :: l) <> [].
Proof.
  cbn. destruct (sort_desc key l) as [|y l']; cbn; [discriminate|].
  destruct (dt_leb (key y) (key x)); discriminate.
Qed.

(** What [report_files.sort(...)] followed by [report_files[0]] finds. *)
Lemma sort_desc_first x l :
  exists o rest, sort_desc key (x :: l) = o :: rest /\ In o (x :: l) /\
    Forall (fun y => dt_leb (key y) (key o) = true) (x :: l).
Proof.
  pose proof (sort_desc_head (x :: l)) as Hd.
  pose proof (sort_desc_nonempty x l) as Hne.
  destruct (sort_desc key (x :: l)) as [|o rest] eqn:E; [congruence|].
  exists o, rest. split; [reflexivity|]. split.
  - apply sort_desc_In. rewrite E. now left.
  - apply List.Forall_forall. intros y Hy.
    apply sort_desc_In in Hy. rewrite E in Hy.
    cbn in Hd. rewrite List.Forall_forall in Hd. auto.
Qed.
End SortFacts.

Lemma filter_reports prefix content :
  List.filter is_report
    (List.filter (fun o => PyStr.startswith (name o) prefix) content)
  = matching_reports prefix content.
Proof.
  unfold matching_reports.
  induction content as [|o l IH]; cbn; [reflexivity|].
  destruct (PyStr.startswith (name o) prefix); cbn; [|exact IH].
  destruct (is_report o); now rewrite IH.
Qed.

(** C1. When the listing call is answered with the content of the bucket,
    both locators ([get_latest_report_file] of the polling script and
    [get_latest_report_filename] of func.py) return without raising: [None]
    if the filtered set (prefix and [.csv.gz] suffix) is empty, and otherwise
    an entry of the filtered set (its name, for func.py) whose creation time
    is maximal in that set. *)
Theorem locator_returns_latest (w : World) (self : ReportSender) (s : Store)
  (namespace bucket_name prefix : string) (content : list ObjectSummary) :
  config self !! "NAMESPACE" = Some namespace ->
  config self !! "REPORT_BUCKET_NAME" = Some bucket_name ->
  oss_bucket w (signer self) namespace bucket_name = Returns content ->
  (match matching_reports "WeeklyCostsScheduledReport_" content with
   | [] => fst (get_latest_report_file w self s) = Ok None
   | F => exists o, fst (get_latest_report_file w self s) = Ok (Some o) /\ is_latest_of F o
   end) /\
  (match matching_reports prefix content with
   | [] => fst (get_latest_report_filename w (signer self) namespace bucket_name prefix s)
           = Ok None
   | F => exists o,
       fst (get_latest_report_filename w (signer self) namespace bucket_name prefix s)
         = Ok (Some (name o)) /\ is_latest_of F o
   end).
Proof.
  intros Hns Hb Hlist. split.
  - unfold get_latest_report_file, try_except, bind, cfg, lift, dict_index,
      list_objects, call, modify.
    rewrite Hb, Hns. cbn. rewrite Hlist. cbn.
    rewrite <- (filter_reports "WeeklyCostsScheduledReport_" content).
    destruct (List.filter (fun o => PyStr.startswith (name o) "WeeklyCostsScheduledReport_")
                content) as [|o1 l1] eqn:E1; [reflexivity|].
    destruct (List.filter is_report (o1 :: l1)) as [|x l] eqn:E2; [reflexivity|].
    destruct (sort_desc_first time_created x l) as (o & rest & Hs & Hin & Hall).
    exists o. cbn [bind ret fst]. unfold ret. rewrite Hs. cbn.
    split; [reflexivity | split; assumption].
  - unfold get_latest_report_filename, try_except, bind, list_objects, call, modify.
    cbn. rewrite Hlist. cbn.
    rewrite <- (filter_reports prefix content).
    destruct (List.filter (fun o => PyStr.startswith (name o) prefix) content)
      as [|o1 l1] eqn:E1; [reflexivity|].
    destruct (List.filter is_report (o1 :: l1)) as [|x l] eqn:E2; [reflexivity|].
    destruct (sort_desc_first time_created x l) as (o & rest & Hs & Hin & Hall).
    exists o. rewrite Hs. cbn.
    split; [reflexivity | split; assumption].
Qed.

(** The scenario of the specification: of the reports of 1 January and of
    8 January in the sample bucket, the locators return the later one. *)
Lemma locator_returns_latest_witness :
  (exists o,
      fst (get_latest_report_file Sample.world Sample.sender (Sample.store FileMissing))
        = Ok (Some o) /\
      is_latest_of [Sample.report_0101; Sample.report_0108] o) /\
  (exists o,
      fst (get_latest_report_filename Sample.world (signer Sample.sender) "tenancy-ns"
             "cost-reports" "WeeklyCostsScheduledReport_" (Sample.store FileMissing))
        = Ok (Some (name o)) /\
      is_latest_of [Sample.report_0101; Sample.report_0108] o).
Proof.
  exact (locator_returns_latest Sample.world Sample.sender (Sample.store FileMissing)
           "tenancy-ns" "cost-reports" "WeeklyCostsScheduledReport_" Sample.bucket
           eq_refl eq_refl eq_refl).
Defined.

(** ** Effects of the monadic operations *)

Lemma same_core_refl s : same_core s s.
Proof. repeat split. Qed.

Lemma same_core_trans s1 s2 s3 :
  same_core s1 s2 -> same_core s2 s3 -> same_core s1 s3.
Proof. intros (?&?&?) (?&?&?). repeat split; congruence. Qed.

Section Frames.
Context {A B : Type}.

Lemma frames_ret (a : A) : frames (ret a).
Proof. intros s. apply same_core_refl. Qed.

Lemma frames_raise (e : exn) : frames (@raise A e).
Proof. intros s. apply same_core_refl. Qed.

Lemma frames_sys_exit (c : Z) : frames (@sys_exit A c).
Proof. intros s. apply same_core_refl. Qed.

Lemma frames_lift (r : answer A) : frames (lift r).
Proof. intros s. destruct r; apply same_core_refl. Qed.

Lemma frames_bind (m : M A) (k : A -> M B) :
  frames m -> (forall a, frames (k a)) -> frames (bind m k).
Proof.
  intros Hm Hk s. unfold bind. specialize (Hm s).
  destruct (m s) as [[a|e|c] s1]; cbn in *; try assumption.
  eapply same_core_trans; [exact Hm | apply Hk].
Qed.

Lemma frames_try_except (m : M A) (h : exn -> M A) :
  frames m -> (forall e, frames (h e)) -> frames (try_except m h).
Proof.
  intros Hm Hh s. unfold try_except. specialize (Hm s).
  destruct (m s) as [[a|e|c] s1]; cbn in *; try assumption.
  eapply same_core_trans; [exact Hm | apply Hh].
Qed.

Lemma frames_try_except_class cls (m : M A) (h : exn -> M A) :
  frames m -> (forall e, frames (h e)) -> frames (try_except_class cls m h).
Proof.
  intros Hm Hh s. unfold try_except_class. specialize (Hm s).
  destruct (m s) as [[a|e|c] s1]; cbn in *; try assumption.
  destruct (String.eqb (exn_type e) cls); cbn; [|assumption].
  eapply same_core_trans; [exact Hm | apply Hh].
Qed.

Lemma indep_ret (a : A) : indep (ret a).
Proof. intros s s'. reflexivity. Qed.

Lemma indep_raise (e : exn) : indep (@raise A e).
Proof. intros s s'. reflexivity. Qed.

Lemma indep_lift (r : answer A) : indep (lift r).
Proof. intros s s'. destruct r; reflexivity. Qed.

Lemma indep_bind (m : M A) (k : A -> M B) :
  indep m -> (forall a, indep (k a)) -> indep (bind m k).
Proof.
  intros Hm Hk s s'. unfold bind. specialize (Hm s s').
  destruct (m s) as [[a|e|c] s1], (m s') as [[a'|e'|c'] s1'];
    cbn in *; try congruence.
  injection Hm as <-. apply Hk.
Qed.

Lemma indep_try_except (m : M A) (h : exn -> M A) :
  indep m -> (forall e, indep (h e)) -> indep (try_except m h).
Proof.
  intros Hm Hh s s'. unfold try_except. specialize (Hm s s').
  destruct (m s) as [[a|e|c] s1], (m s') as [[a'|e'|c'] s1'];
    cbn in *; try congruence.
  injection Hm as <-. apply Hh.
Qed.
End Frames.

Lemma frames_gets {A} (f : Store -> A) : frames (gets f).
Proof. intros s. apply same_core_refl. Qed.

Lemma frames_call c : frames (call c).
Proof. intros s. repeat split. Qed.

Lemma frames_log lvl msg : frames (log lvl msg).
Proof. intros s. repeat split. Qed.

Lemma indep_call c : indep (call c).
Proof. intros s s'. reflexivity. Qed.

Lemma indep_log lvl msg : indep (log lvl msg).
Proof. intros s s'. reflexivity. Qed.

Create HintDb effects.
#[local] Hint Resolve frames_ret frames_raise frames_sys_exit frames_lift
  frames_gets frames_call frames_log indep_ret indep_raise indep_lift
  indep_call indep_log : effects.

(** Walks through a computation built from the operations above. *)
Ltac effects :=
  repeat match goal with
    | |- forall _, _ => intro
    | |- frames (bind _ _) => apply frames_bind
    | |- frames (try_except_class _ _ _) => apply frames_try_except_class
    | |- frames (try_except _ _) => apply frames_try_except
    | |- indep (bind _ _) => apply indep_bind
    | |- indep (try_except _ _) => apply indep_try_except
    | |- frames (match ?x with _ => _ end) => destruct x
    | |- indep (match ?x with _ => _ end) => destruct x
    | _ => solve [auto with effects]
    end.

Lemma frames_cfg self key : frames (cfg self key).
Proof. unfold cfg. effects. Qed.

Lemma indep_cfg self key : indep (cfg self key).
Proof. unfold cfg. effects. Qed.

Lemma frames_list_objects w sg ns b p : frames (list_objects w sg ns b p).
Proof. unfold list_objects. effects. Qed.

Lemma indep_list_objects w sg ns b p : indep (list_objects w sg ns b p).
Proof. unfold list_objects. effects. Qed.

#[local] Hint Resolve frames_cfg indep_cfg frames_list_objects indep_list_objects : effects.

Lemma frames_get_latest_report_file w self : frames (get_latest_report_file w self).
Proof. unfold get_latest_report_file. effects. Qed.

Lemma indep_get_latest_report_file w self : indep (get_latest_report_file w self).
Proof. unfold get_latest_report_file. effects. Qed.

Lemma frames_get_secret w sg id : frames (get_secret w sg id).
Proof. unfold get_secret. effects. Qed.

Lemma frames_download_file w self file_name : frames (download_file w self file_name).
Proof. unfold download_file. effects. Qed.

Lemma frames_load_config w : frames (load_config w).
Proof. unfold load_config. effects. Qed.

Lemma indep_load_config w : indep (load_config w).
Proof. unfold load_config. effects. Qed.

Lemma frames_make_signer w c : frames (make_signer w c).
Proof. unfold make_signer. effects. Qed.

Lemma indep_make_signer w c : indep (make_signer w c).
Proof. unfold make_signer. effects. Qed.

#[local] Hint Resolve frames_get_latest_report_file indep_get_latest_report_file
  frames_get_secret frames_download_file frames_load_config indep_load_config
  frames_make_signer indep_make_signer : effects.

Lemma frames_setup_oci_config w : frames (setup_oci_config w).
Proof. unfold setup_oci_config. effects. Qed.

Lemma indep_setup_oci_config w : indep (setup_oci_config w).
Proof. unfold setup_oci_config. effects. Qed.

Lemma frames_setup_signer w c : frames (setup_signer w c).
Proof. unfold setup_signer. effects. Qed.

Lemma indep_setup_signer w c : indep (setup_signer w c).
Proof. unfold setup_signer. effects. Qed.

#[local] Hint Resolve frames_setup_oci_config indep_setup_oci_config
  frames_setup_signer indep_setup_signer : effects.

(** ** The sent-files ledger *)

Section LedgerFacts.
Context {T : Type} `{Format T}.

Lemma mark_file_as_sent_memory w (file_name : string) (t : T) s :
  fst (mark_file_as_sent w file_name t s) = Ok tt /\
  sent_files (snd (mark_file_as_sent w file_name t s))
    = <[file_hash file_name t :=
          mkSentRecord file_name (format t) (now_isoformat w)]> (sent_files s) /\
  outbox (snd (mark_file_as_sent w file_name t s)) = outbox s /\
  match fs_write w with
  | WriteOk =>
      ledger_file (snd (mark_file_as_sent w file_name t s))
        = FileLedger (sent_files (snd (mark_file_as_sent w file_name t s)))
  | WriteDenied _ =>
      ledger_file (snd (mark_file_as_sent w file_name t s)) = ledger_file s
  | WriteTorn e =>
      ledger_file (snd (mark_file_as_sent w file_name t s)) = FileUnreadable e
  end.
Proof.
  unfold mark_file_as_sent, save_sent_files, try_except, bind, gets,
    set_sent_files, set_ledger_file, call, log, modify, raise.
  destruct (fs_write w); cbn; repeat split; reflexivity.
Qed.

Lemma is_file_already_sent_reads (file_name : string) (t : T) s :
  is_file_already_sent file_name t s
  = (Ok (match sent_files s !! file_hash file_name t with
         | Some _ => true
         | None => false
         end), s).
Proof. reflexivity. Qed.
End LedgerFacts.


(** C9. The fingerprint is the MD5 digest of [name + "_" + str(createdAt)]
    and of nothing else: two pairs with the same concatenation have the same
    fingerprint, and after one of them was marked as sent the other one is
    reported as already sent. *)
Theorem fingerprint_of_concatenation {T : Type} `{Format T}
  (n1 n2 : string) (t1 t2 : T) :
  file_key n1 t1 = file_key n2 t2 ->
  file_hash n1 t1 = MD5.hexdigest (PyStr.encode (n1 ++ "_" ++ format t1)) /\
  file_hash n1 t1 = file_hash n2 t2 /\
  forall w s,
    fst ((mark_file_as_sent w n1 t1 ;; is_file_already_sent n2 t2) s) = Ok true.
Proof.
  intros Hkey.
  assert (Hh : file_hash n1 t1 = file_hash n2 t2)
    by (unfold file_hash; now rewrite Hkey).
  split; [reflexivity | split; [exact Hh|]].
  intros w s. unfold bind at 1.
  destruct (mark_file_as_sent_memory w n1 t1 s) as (Hr & Hm & _).
  destruct (mark_file_as_sent w n1 t1 s) as [r s1]; cbn [fst snd] in *.
  subst r. cbv beta iota.
  rewrite is_file_already_sent_reads, Hm, <- Hh, lookup_insert_eq. reflexivity.
Qed.

(** The pairs [("a_b", "c")] and [("a", "b_c")] differ and collide. *)
Lemma fingerprint_of_concatenation_witness :
  ("a_b", "c") <> ("a", "b_c") /\
  file_hash "a_b" "c" = MD5.hexdigest (PyStr.encode ("a_b" ++ "_" ++ format "c")) /\
  file_hash "a_b" "c" = file_hash "a" "b_c" /\
  forall w s,
    fst ((mark_file_as_sent w "a_b" "c" ;; is_file_already_sent "a" "b_c") s) = Ok true.
Proof.
  split; [discriminate|].
  exact (fingerprint_of_concatenation "a_b" "a" "c" "b_c" eq_refl).
Defined.

(** ** The polling run and the ledger *)

Lemma sends_one_bind_frames {A B} (m : M A) (k : A -> M B) P :
  frames m -> (forall a, sends_one (k a) P) -> sends_one (bind m k) P.
Proof.
  intros Hm Hk s. unfold bind. specialize (Hm s).
  destruct (m s) as [[a|e|c] s1]; cbn [snd] in Hm; try exact Hm.
  specialize (Hk a s1). destruct Hm as (Hm1 & Hm2 & Hm3).
  destruct (k a s1) as [[b|e|c] s2].
  - destruct Hk as (? & ? & msg & ? & ?).
    repeat split; try congruence. exists msg. split; congruence.
  - eapply same_core_trans; [|exact Hk]. repeat split; assumption.
  - eapply same_core_trans; [|exact Hk]. repeat split; assumption.
Qed.

Lemma sends_one_try_reraise {A} (m : M A) P (text : exn -> string) :
  sends_one m P ->
  sends_one (try_except m (fun e => log ERROR (text e) ;; raise e)) P.
Proof.
  intros Hm s. unfold try_except. specialize (Hm s).
  destruct (m s) as [[a|e|c] s1]; exact Hm.
Qed.

Lemma sends_one_smtp_session w server port user password msg :
  sends_one (smtp_session w server port user password msg) (fun m => m = msg).
Proof.
  intros s. unfold smtp_session, bind, call, deliver, modify, raise.
  destruct (smtp_deliver w server port user password msg); cbn.
  - repeat split.
  - repeat split. now exists msg.
Qed.

Lemma sends_one_weaken {A} (m : M A) (P Q : MimeMultipart -> Prop) :
  (forall msg, P msg -> Q msg) -> sends_one m P -> sends_one m Q.
Proof.
  intros HPQ Hm s. specialize (Hm s).
  destruct (m s) as [[a|e|c] s1]; try exact Hm.
  destruct Hm as (? & ? & msg & ? & ?). repeat split; try assumption.
  exists msg. auto.
Qed.

Lemma sends_one_send_email w self file_name file_data :
  sends_one (send_email w self file_name file_data) (carries file_name file_data).
Proof.
  unfold send_email. apply sends_one_try_reraise.
  repeat match goal with
         | |- sends_one (bind _ _) _ =>
             apply sends_one_bind_frames; [solve [auto with effects] | intros ?]
         end.
  eapply sends_one_weaken; [|apply sends_one_smtp_session].
  intros msg ->. eexists. reflexivity.
Qed.

(** Closes the branches of [run] that end through [sys.exit]. *)
Ltac aborts :=
  split;
  [ eexists; reflexivity
  | cbn [snd];
    first [ assumption
          | eapply same_core_trans; [|apply frames_log]; repeat split; congruence
          | repeat split; congruence ] ].

(** The computation of [run], one collaborator after the other. *)
Lemma run_unfold (w : World) (self : ReportSender) (s : Store) :
  run w self s =
  match get_latest_report_file w self s with
  | (Ok (Some o), s1) =>
      match sent_files s1 !! file_hash (name o) (time_created o) with
      | Some _ => (Ok tt, s1)
      | None =>
          match download_file w self (name o) s1 with
          | (Ok file_data, s2) =>
              match send_email w self (name o) file_data s2 with
              | (Ok _, s3) => mark_file_as_sent w (name o) (time_created o) s3
              | (Raise e, s3) =>
                  (Exit 1, snd (log ERROR ("Failed to send report: " ++ exn_str e) s3))
              | (Exit code, s3) => (Exit code, s3)
              end
          | (Raise e, s2) =>
              (Exit 1, snd (log ERROR ("Failed to send report: " ++ exn_str e) s2))
          | (Exit code, s2) => (Exit code, s2)
          end
      end
  | (Ok None, s1) => (Ok tt, s1)
  | (Raise e, s1) =>
      (Exit 1, snd (log ERROR ("Failed to send report: " ++ exn_str e) s1))
  | (Exit code, s1) => (Exit code, s1)
  end.
Proof.
  unfold run, try_except, bind.
  destruct (get_latest_report_file w self s) as [[[o|]|e|c] s1]; try reflexivity.
  rewrite is_file_already_sent_reads.
  destruct (sent_files s1 !! file_hash (name o) (time_created o)); [reflexivity|].
  destruct (download_file w self (name o) s1) as [[file_data|e|c] s2]; try reflexivity.
  destruct (send_email w self (name o) file_data s2) as [[[]|e|c] s3]; try reflexivity.
  destruct (mark_file_as_sent_memory w (name o) (time_created o) s3) as (Hr & _).
  destruct (mark_file_as_sent w (name o) (time_created o) s3) as [r s4].
  cbn in Hr. now subst r.
Qed.


(** The successful branch in the sample installation: one message, and the
    record of the report of 8 January in memory and in the file. *)
Example sample_run_records :
  let s' := snd (process Sample.world (Sample.store FileMissing)) in
  List.length (outbox s') = 1%nat /\
  sent_files s' !! "b99d6c6d0f45bf688eb0cfead5c306e3"
    = Some (mkSentRecord "WeeklyCostsScheduledReport_20240108.csv.gz"
              "2024-01-08 06:00:00+00:00" "2024-01-09T07:00:00.000000") /\
  ledger_file s' = FileLedger (sent_files s').
Proof. repeat split; vm_compute; reflexivity. Qed.

(** ** Two invocations of the polling script *)

Lemma run_effect (w : World) (self : ReportSender) (s : Store) :
  same_core s (snd (run w self s)) \/
  exists o msg,
    fst (get_latest_report_file w self s) = Ok (Some o) /\
    outbox (snd (run w self s)) = (outbox s ++ [msg])%list /\
    is_Some (sent_files (snd (run w self s)) !! file_hash (name o) (time_created o)) /\
    (fs_write w = WriteOk ->
     ledger_file (snd (run w self s)) = FileLedger (sent_files (snd (run w self s)))).
Proof.
  rewrite run_unfold.
  pose proof (frames_get_latest_report_file w self s) as H0.
  destruct (get_latest_report_file w self s) as [[[o|]|e|c] s1]; cbn [snd fst] in *;
    try (left; first [exact H0 | eapply same_core_trans; [exact H0 | apply frames_log]]).
  destruct (sent_files s1 !! file_hash (name o) (time_created o)); [left; exact H0|].
  pose proof (frames_download_file w self (name o) s1) as H1.
  destruct (download_file w self (name o) s1) as [[file_data|e|c] s2]; cbn [snd] in *.
  2,3: left; eapply same_core_trans; [exact H0|];
       first [exact H1 | eapply same_core_trans; [exact H1 | apply frames_log]].
  pose proof (sends_one_send_email w self (name o) file_data s2) as H2.
  destruct (send_email w self (name o) file_data s2) as [[[]|e|c] s3]; cbn [snd] in *.
  2,3: left; eapply same_core_trans; [exact H0|];
       eapply same_core_trans; [exact H1|];
       first [exact H2 | eapply same_core_trans; [exact H2 | apply frames_log]].
  right. destruct H2 as (Hsf2 & Hlf2 & msg & Hob2 & _).
  destruct H0 as (_ & _ & Hob0), H1 as (_ & _ & Hob1).
  destruct (mark_file_as_sent_memory w (name o) (time_created o) s3)
    as (_ & Hm & Ho & Hf).
  exists o, msg. split; [reflexivity|]. split; [congruence|]. split.
  - rewrite Hm, lookup_insert_eq. eauto.
  - intros Hw. now rewrite Hw in Hf.
Qed.

Lemma run_skips (w : World) (self : ReportSender) (s : Store) o :
  fst (get_latest_report_file w self s) = Ok (Some o) ->
  is_Some (sent_files s !! file_hash (name o) (time_created o)) ->
  same_core s (snd (run w self s)).
Proof.
  intros Hloc [r Hr]. rewrite run_unfold.
  pose proof (frames_get_latest_report_file w self s) as H0.
  destruct (get_latest_report_file w self s) as [[[o'|]|e|c] s1];
    cbn [fst snd] in *; try discriminate.
  injection Hloc as ->. destruct H0 as (Hsf & ? & ?).
  rewrite Hsf, Hr. repeat split; assumption.
Qed.

Lemma load_sent_files_total s :
  exists s', load_sent_files s = (Ok (loaded_from (ledger_file s)), s') /\ same_core s s'.
Proof.
  unfold load_sent_files, bind, call, gets, modify, try_except, raise, log, ret.
  cbn. destruct (ledger_file s) eqn:E; eexists; (split; [reflexivity|]);
    repeat split; cbn; congruence.
Qed.

(** What [__init__] leaves behind: the ledger in memory is the one the file
    held, the file and the mail are untouched. *)
Lemma init_effect (w : World) (s : Store) :
  ledger_file (snd (ReportSender_init w s)) = ledger_file s /\
  outbox (snd (ReportSender_init w s)) = outbox s /\
  forall self, fst (ReportSender_init w s) = Ok self ->
               sent_files (snd (ReportSender_init w s)) = loaded_from (ledger_file s).
Proof.
  destruct (ReportSender_init w s) as [r s'] eqn:E. cbn [fst snd].
  unfold ReportSender_init in E. unfold bind at 1 in E.
  pose proof (frames_load_config w s) as H0.
  destruct (load_config w s) as [[config|e|c] s1]; cbn [snd fst] in *;
    destruct H0 as (Hsf0 & Hlf0 & Hob0).
  2,3: injection E as <- <-; split; [assumption | split; [assumption | discriminate]].
  unfold bind at 1 in E.
  destruct (load_sent_files_total s1) as (s2 & Hload & (Hsf1 & Hlf1 & Hob1)).
  rewrite Hload in E. unfold bind at 1 in E. cbn [set_sent_files modify] in E.
  set (s3 := mkStore (loaded_from (ledger_file s1)) (ledger_file s2) (outbox s2)
                     (calls s2) (logs s2)) in E.
  assert (Hrest : frames (let* oci_config := setup_oci_config w in
                          let* signer := setup_signer w oci_config in
                          ret (mkReportSender config oci_config signer)))
    by effects.
  specialize (Hrest s3). rewrite E in Hrest.
  destruct Hrest as (Hsf3 & Hlf3 & Hob3). subst s3. cbn in *.
  split; [congruence|]. split; [congruence|].
  intros _ _. congruence.
Qed.

Lemma indep_bind_uniform {A B} (m : M A) (k : A -> M B) :
  (forall s, exists a, fst (m s) = Ok a) ->
  (forall a a' s s', fst (k a s) = fst (k a' s')) ->
  indep (bind m k).
Proof.
  intros Hm Hk s s'. unfold bind.
  destruct (Hm s) as [a Ha], (Hm s') as [a' Ha'].
  destruct (m s) as [r s1], (m s') as [r' s1']; cbn [fst] in *; subst.
  apply Hk.
Qed.

Lemma indep_after_set {B} (a a' : gmap string SentRecord) (R : M B) s s' :
  indep R -> fst ((set_sent_files a ;; R) s) = fst ((set_sent_files a' ;; R) s').
Proof. intros HR. apply HR. Qed.

Lemma indep_init (w : World) : indep (ReportSender_init w).
Proof.
  unfold ReportSender_init. apply indep_bind; [apply indep_load_config|].
  intros config. apply indep_bind_uniform.
  - intros s. destruct (load_sent_files_total s) as (s1 & -> & _). eauto.
  - intros a a' s s'. apply indep_after_set. effects.
Qed.

Lemma init_unchanged (w1 w2 : World) (s : Store) :
  unchanged w1 w2 -> ReportSender_init w2 s = ReportSender_init w1 s.
Proof.
  intros (H1 & H2 & H3 & H4 & H5 & H6 & H7).
  unfold ReportSender_init, load_config, setup_oci_config, setup_signer, make_signer.
  now rewrite H1, H2, H3, H4, H5, H6.
Qed.

Lemma locator_unchanged (w1 w2 : World) (self : ReportSender) (s : Store) :
  unchanged w1 w2 ->
  get_latest_report_file w2 self s = get_latest_report_file w1 self s.
Proof.
  intros (H1 & H2 & H3 & H4 & H5 & H6 & H7).
  unfold get_latest_report_file, list_objects. now rewrite H7.
Qed.

(** The computation of [main]. *)
Lemma main_unfold (w : World) (s : Store) :
  main w s =
  match ReportSender_init w s with
  | (Ok sender, s1) =>
      match run w sender s1 with
      | (Raise e, s2) =>
          (Exit 1, snd (log ERROR ("Application failed: " ++ exn_str e) s2))
      | r => r
      end
  | (Raise e, s1) => (Exit 1, snd (log ERROR ("Application failed: " ++ exn_str e) s1))
  | (Exit code, s1) => (Exit code, s1)
  end.
Proof.
  unfold main, try_except, bind.
  destruct (ReportSender_init w s) as [[sender|e|c] s1]; reflexivity.
Qed.

(** One process either leaves the mail and the ledger file alone, or sends
    the latest report once and, if the write succeeds, leaves a ledger file
    that holds its fingerprint. *)
Ltac store_simpl :=
  unfold fresh_process, log, modify in *;
  cbn [outbox ledger_file sent_files calls logs snd fst] in *.

Lemma process_effect (w : World) (s : Store) :
  (outbox (snd (process w s)) = outbox s /\
   ledger_file (snd (process w s)) = ledger_file s) \/
  exists self o msg,
    fst (ReportSender_init w s) = Ok self /\
    fst (get_latest_report_file w self s) = Ok (Some o) /\
    outbox (snd (process w s)) = (outbox s ++ [msg])%list /\
    (fs_write w = WriteOk ->
     exists entries, ledger_file (snd (process w s)) = FileLedger entries /\
                     is_Some (entries !! file_hash (name o) (time_created o))).
Proof.
  unfold process. rewrite main_unfold.
  destruct (init_effect w (fresh_process s)) as (Hlf & Hob & _).
  pose proof (indep_init w (fresh_process s) s) as Hind.
  destruct (ReportSender_init w (fresh_process s)) as [[self|e|c] s1];
    cbn [fst snd] in *; try (left; split; assumption).
  destruct (run_effect w self s1) as [(Hsf1 & Hlf1 & Hob1) | (o & msg & Hloc & Hout & Hin & Hfile)].
  - left. destruct (run w self s1) as [[[]|e|c] s2]; store_simpl; split; congruence.
  - right. exists self, o, msg. split; [congruence|].
    split; [rewrite <- Hloc; apply indep_get_latest_report_file|].
    destruct (run w self s1) as [[[]|e|c] s2]; store_simpl;
      (split; [congruence|]); intros Hw; specialize (Hfile Hw); eauto.
Qed.

(** A process that finds the fingerprint of the latest report in the
    ledger file sends nothing. *)
Lemma process_skips (w : World) (s : Store) self o entries :
  fst (ReportSender_init w s) = Ok self ->
  fst (get_latest_report_file w self s) = Ok (Some o) ->
  ledger_file s = FileLedger entries ->
  is_Some (entries !! file_hash (name o) (time_created o)) ->
  outbox (snd (process w s)) = outbox s.
Proof.
  intros Hinit Hloc Hfile Hin. unfold process. rewrite main_unfold.
  destruct (init_effect w (fresh_process s)) as (Hlf & Hob & Hmem).
  pose proof (indep_init w (fresh_process s) s) as Hind.
  destruct (ReportSender_init w (fresh_process s)) as [[self'|e|c] s1];
    cbn [fst snd] in *; try congruence.
  assert (self' = self) by congruence. subst self'.
  specialize (Hmem self eq_refl). store_simpl. rewrite Hfile in Hmem. cbn in Hmem.
  assert (Hskip : same_core s1 (snd (run w self s1))).
  { apply run_skips with (o := o).
    - rewrite <- Hloc. apply indep_get_latest_report_file.
    - now rewrite Hmem. }
  destruct Hskip as (_ & _ & Hout).
  destruct (run w self s1) as [[[]|e|c] s2]; store_simpl; congruence.
Qed.




(** ** The event-triggered handler *)

Section EndsIn.
Context {A B : Type}.

Lemma ends_in_ret (P : A -> Prop) (a : A) : P a -> ends_in P (ret a).
Proof. intros Ha s. exact Ha. Qed.

Lemma ends_in_raise (P : A -> Prop) (e : exn) : ends_in P (raise e).
Proof. intros s. exact I. Qed.

Lemma ends_in_lift (r : answer A) : ends_in (fun _ => True) (lift r).
Proof. intros s. destruct r; exact I. Qed.

Lemma ends_in_weaken (P : A -> Prop) (m : M A) :
  ends_in P m -> ends_in (fun _ => True) m.
Proof. intros Hm s. specialize (Hm s). destruct (fst (m s)); auto. Qed.

Lemma ends_in_bind (P : B -> Prop) (m : M A) (k : A -> M B) :
  ends_in (fun _ => True) m -> (forall a, ends_in P (k a)) -> ends_in P (bind m k).
Proof.
  intros Hm Hk s. unfold bind. specialize (Hm s).
  destruct (m s) as [[a|e|c] s1]; cbn [fst] in *; auto.
  apply Hk.
Qed.

Lemma ends_in_try_except (P : A -> Prop) (m : M A) (h : exn -> M A) :
  ends_in P m -> (forall e, ends_in P (h e)) -> ends_in P (try_except m h).
Proof.
  intros Hm Hh s. unfold try_except. specialize (Hm s).
  destruct (m s) as [[a|e|c] s1]; cbn [fst] in *; auto.
  apply Hh.
Qed.

Lemma ends_in_try_except_class (P : A -> Prop) cls (m : M A) (h : exn -> M A) :
  ends_in P m -> (forall e, ends_in P (h e)) -> ends_in P (try_except_class cls m h).
Proof.
  intros Hm Hh s. unfold try_except_class. specialize (Hm s).
  destruct (m s) as [[a|e|c] s1]; cbn [fst] in *; auto.
  destruct (String.eqb (exn_type e) cls); cbn; auto. apply Hh.
Qed.
End EndsIn.

Lemma ends_in_modify f : ends_in (fun _ => True) (modify f).
Proof. intros s. exact I. Qed.

Lemma indep_modify f : indep (modify f).
Proof. intros s s'. reflexivity. Qed.

#[local] Hint Resolve ends_in_raise ends_in_lift ends_in_modify indep_modify : effects.
#[local] Hint Extern 1 (ends_in _ (call _)) => apply ends_in_modify : effects.
#[local] Hint Extern 1 (ends_in _ (log _ _)) => apply ends_in_modify : effects.
#[local] Hint Extern 1 (ends_in _ (deliver _)) => apply ends_in_modify : effects.
#[local] Hint Extern 1 (indep (deliver _)) => apply indep_modify : effects.
#[local] Hint Extern 1 (ends_in _ (ret _)) => apply ends_in_ret; eauto : effects.

(** Walks through a handler computation. *)
Ltac outcome :=
  repeat match goal with
    | |- forall _, _ => intro
    | |- ends_in _ (bind _ _) => apply ends_in_bind
    | |- ends_in _ (try_except_class _ _ _) => apply ends_in_try_except_class
    | |- ends_in _ (try_except _ _) => apply ends_in_try_except
    | |- indep (bind _ _) => apply indep_bind
    | |- indep (try_except _ _) => apply indep_try_except
    | |- ends_in _ (match ?x with _ => _ end) => destruct x
    | |- indep (match ?x with _ => _ end) => destruct x
    | _ => solve [auto with effects]
    end.

Lemma ends_in_make_signer w c : ends_in (fun _ => True) (make_signer w c).
Proof. unfold make_signer. outcome. Qed.

Lemma ends_in_func_get_secret w id sg : ends_in (fun _ => True) (func_get_secret w id sg).
Proof. unfold func_get_secret. outcome. Qed.

Lemma indep_func_get_secret w id sg : indep (func_get_secret w id sg).
Proof. unfold func_get_secret. outcome. Qed.

Lemma ends_in_smtp_session w server port user password msg :
  ends_in (fun _ => True) (smtp_session w server port user password msg).
Proof. unfold smtp_session. outcome. Qed.

Lemma indep_smtp_session w server port user password msg :
  indep (smtp_session w server port user password msg).
Proof. unfold smtp_session. outcome. Qed.

Lemma ends_in_init_authentication w : ends_in (fun _ => True) (init_authentication w).
Proof.
  pose proof (ends_in_make_signer w).
  unfold init_authentication. outcome.
Qed.

Lemma indep_init_authentication w : indep (init_authentication w).
Proof. unfold init_authentication. outcome. Qed.

Lemma ends_in_check_environment w : ends_in (fun _ => True) (check_environment w).
Proof. unfold check_environment. outcome. Qed.

Lemma indep_check_environment w : indep (check_environment w).
Proof. unfold check_environment. outcome. Qed.

Lemma ends_in_parse_body w data : ends_in (fun _ => True) (parse_body w data).
Proof. unfold parse_body. outcome. Qed.

Lemma ends_in_extract_object_name body :
  ends_in (fun _ => True) (extract_object_name body).
Proof. unfold extract_object_name. outcome. Qed.

Lemma indep_extract_object_name body : indep (extract_object_name body).
Proof. unfold extract_object_name. outcome. Qed.

#[local] Hint Resolve ends_in_make_signer ends_in_func_get_secret indep_func_get_secret
  ends_in_smtp_session indep_smtp_session ends_in_init_authentication
  indep_init_authentication ends_in_check_environment indep_check_environment
  ends_in_parse_body ends_in_extract_object_name indep_extract_object_name : effects.

Lemma ends_in_handler_rest w object_name :
  ends_in (fun r => r = success_result w object_name) (handler_rest w object_name).
Proof. unfold handler_rest. outcome. Qed.

Lemma indep_handler_rest w object_name : indep (handler_rest w object_name).
Proof. unfold handler_rest. outcome. Qed.

Lemma ends_in_handler_steps w data :
  ends_in (fun r => exists object_name, r = success_result w object_name)
          (handler_steps w data).
Proof.
  unfold handler_steps.
  apply ends_in_bind; [auto with effects | intros body].
  apply ends_in_bind; [auto with effects | intros object_name s].
  pose proof (ends_in_handler_rest w object_name s) as Hr.
  destruct (fst (handler_rest w object_name s)); eauto.
Qed.

(** [handler] is its steps, wrapped by the outer [try]. *)
Lemma handler_of_steps (w : World) (ctx : option InvokeContext)
  (data : option (list ascii)) (s : Store) :
  fst (handler w ctx data s) =
  match fst (handler_steps w data s), ctx with
  | Ok result, Some _ => Ok (Response 200 result)
  | Ok result, None => Ok (LocalResult result)
  | Raise e, Some _ => Ok (Response 500 (error_result e))
  | Raise e, None => Raise e
  | Exit code, _ => Exit code
  end.
Proof.
  unfold handler, try_except, bind.
  destruct (handler_steps w data s) as [[r|e|c] s1], ctx; reflexivity.
Qed.

(** What [parse_body] hands on is a dict. *)
Lemma parse_body_dict (w : World) (data : option (list ascii)) (s s1 : Store) body :
  parse_body w data s = (Ok body, s1) -> exists items, body = PDict items.
Proof.
  unfold parse_body, try_except_class, bind, lift, log, modify, ret.
  destruct data as [bytes|]; [|intros [= <- _]; eauto].
  destruct (Json.loads w bytes) as [v|e].
  - destruct v; cbn; try discriminate. intros [= <- _]. eauto.
  - destruct (String.eqb (exn_type e) "JSONDecodeError"); [|discriminate].
    intros [= <- _]. eauto.
Qed.

Lemma extract_object_name_spec (items : list (string * PyVal)) (s : Store) :
  data_is_object items ->
  exists s', extract_object_name (PDict items) s = (Ok (spec_object_name items), s') /\
             same_core s s' /\ calls s' = calls s.
Proof.
  unfold data_is_object, spec_object_name, extract_object_name, bind, lift, ret,
    log, modify. cbn.
  destruct (assoc items "data") as [[| | | | |l|d]|]; try contradiction; intros _; cbn.
  - destruct (assoc d "resourceName") as [v|]; cbn; [eexists; repeat split|].
    destruct (assoc items "objectName") as [v|]; cbn; eexists; repeat split.
  - destruct (assoc items "objectName") as [v|]; cbn; eexists; repeat split.
Qed.

(** C7, as the specification states it, fails: in a payload whose [data]
    member is [null], [data.resourceName] is absent; the handler does not go
    on to [objectName] or to the placeholder, the membership test raises
    [TypeError] and the invocation is answered with an error. *)
Lemma object_name_lost_when_data_is_null :
  fst (parse_body Sample.world (Some (list_ascii_of_string Sample.payload_data_null))
         (Sample.store FileMissing))
    = Ok (PDict [("data", PNone); ("objectName", PStr "x.csv")]) /\
  fst (extract_object_name (PDict [("data", PNone); ("objectName", PStr "x.csv")])
         (Sample.store FileMissing))
    = Raise (type_error "argument of type 'NoneType' is not iterable") /\
  fst (extract_object_name (PDict [("data", PNone)]) (Sample.store FileMissing))
    = Raise (type_error "argument of type 'NoneType' is not iterable") /\
  fst (handler Sample.world (Some FnContext)
         (Some (list_ascii_of_string Sample.payload_data_null)) (Sample.store FileMissing))
    = Ok (Response 500
            (error_result (type_error "argument of type 'NoneType' is not iterable"))).
Proof. repeat split; vm_compute; reflexivity. Qed.

(** C7, amended.  For every payload that parses to a JSON object whose
    [data] member, if there is one, is itself a JSON object, the handler
    takes the object name from [data.resourceName] if present, otherwise from
    [objectName] if present, otherwise it is ["test-report.csv"]; the
    extraction raises nothing, touches neither mail nor ledger, calls no
    collaborator, and the handler goes on with that name. *)
Theorem object_name_from_payload (w : World) (data : option (list ascii))
  (s s1 : Store) (items : list (string * PyVal)) :
  parse_body w data s = (Ok (PDict items), s1) ->
  data_is_object items ->
  exists s2,
    extract_object_name (PDict items) s1 = (Ok (spec_object_name items), s2) /\
    handler_steps w data s = handler_rest w (spec_object_name items) s2 /\
    same_core s1 s2 /\ calls s2 = calls s1.
Proof.
  intros Hparse Hobj.
  destruct (extract_object_name_spec items s1 Hobj) as (s2 & Hex & Hcore & Hcalls).
  exists s2. split; [exact Hex|]. split; [|split; assumption].
  unfold handler_steps. unfold bind at 1. rewrite Hparse.
  unfold bind at 1. now rewrite Hex.
Qed.

(** The scenario of the specification: the payload
    [{"data": {"resourceName": "x.csv"}}] yields ["x.csv"]. *)
Lemma object_name_from_payload_witness :
  exists s2,
    extract_object_name (PDict [("data", PDict [("resourceName", PStr "x.csv")])])
      (Sample.store FileMissing) = (Ok (PStr "x.csv"), s2) /\
    handler_steps Sample.world (Some (list_ascii_of_string Sample.payload_event))
      (Sample.store FileMissing) = handler_rest Sample.world (PStr "x.csv") s2 /\
    same_core (Sample.store FileMissing) s2 /\
    calls s2 = calls (Sample.store FileMissing).
Proof.
  exact (object_name_from_payload Sample.world
           (Some (list_ascii_of_string Sample.payload_event))
           (Sample.store FileMissing) (Sample.store FileMissing)
           [("data", PDict [("resourceName", PStr "x.csv")])] eq_refl I).
Defined.

(** The empty payload [{}] falls back to the placeholder. *)
Example empty_payload_uses_placeholder :
  fst (extract_object_name (PDict []) (Sample.store FileMissing))
    = Ok (PStr "test-report.csv") /\
  fst (handler Sample.world (Some FnContext)
         (Some (list_ascii_of_string Sample.payload_empty_object))
         (Sample.store FileMissing))
    = Ok (Response 200 (success_result Sample.world (PStr "test-report.csv"))).
Proof. split; vm_compute; reflexivity. Qed.

(** In test mode the outcome does not depend on what was logged before. *)
Lemma indep_test_mode (w : World) :
  indep (let* object_name := extract_object_name (PDict []) in
         handler_rest w object_name).
Proof.
  apply indep_bind; [apply indep_extract_object_name|].
  intros object_name. apply indep_handler_rest.
Qed.

Lemma handler_steps_no_data (w : World) (s : Store) :
  handler_steps w None s
  = (let* object_name := extract_object_name (PDict []) in
     handler_rest w object_name) s.
Proof. reflexivity. Qed.

(** C10, as the specification states it, fails: the one-byte payload
    [b'\xff'] is not valid JSON, and [json.loads] raises
    [UnicodeDecodeError] on it, which the [except json.JSONDecodeError] of
    the parsing step does not catch.  The handler fails at that step: nothing
    is logged there, no placeholder is used, and the answer is an error where
    an empty payload gets a success. *)
Lemma undecodable_payload_fails_at_parsing :
  Json.loads Sample.world payload_ff = Raises Json.unicode_decode_error /\
  parse_body Sample.world (Some payload_ff) (Sample.store FileMissing)
    = (Raise Json.unicode_decode_error, Sample.store FileMissing) /\
  fst (handler Sample.world (Some FnContext) (Some payload_ff) (Sample.store FileMissing))
    = Ok (Response 500 (error_result Json.unicode_decode_error)) /\
  fst (handler Sample.world (Some FnContext)
         (Some (list_ascii_of_string Sample.payload_empty_object))
         (Sample.store FileMissing))
    = Ok (Response 200 (success_result Sample.world (PStr "test-report.csv"))).
Proof. repeat split; vm_compute; reflexivity. Qed.

(** C10, amended.  For every payload on which [json.loads] raises
    [json.JSONDecodeError], the handler does not fail at the parsing step: it
    logs the decode error, takes the body to be the empty dict, goes on with
    the object name ["test-report.csv"], and ends exactly as it does without
    data and as it does for a payload that parses to [{}]. *)
Theorem malformed_json_means_test_mode (w : World) (ctx : option InvokeContext)
  (bytes : list ascii) (e : exn) (s : Store) :
  Json.loads w bytes = Raises e ->
  exn_type e = "JSONDecodeError" ->
  parse_body w (Some bytes) s
    = (Ok (PDict []), snd (log ERROR ("Failed to parse JSON data: " ++ exn_str e) s)) /\
  (exists s2,
      handler_steps w (Some bytes) s = handler_rest w (PStr "test-report.csv") s2) /\
  fst (handler w ctx (Some bytes) s) = fst (handler w ctx None s) /\
  (forall empty_object,
      Json.loads w empty_object = Returns (PDict []) ->
      fst (handler w ctx (Some bytes) s) = fst (handler w ctx (Some empty_object) s)).
Proof.
  intros Hloads Htype.
  assert (Hparse : parse_body w (Some bytes) s
            = (Ok (PDict []),
               snd (log ERROR ("Failed to parse JSON data: " ++ exn_str e) s))).
  { unfold parse_body, try_except_class, bind at 1, lift.
    rewrite Hloads, Htype. reflexivity. }
  assert (Hsteps :
             handler_steps w (Some bytes) s
             = (let* object_name := extract_object_name (PDict []) in
                handler_rest w object_name)
                 (snd (log ERROR ("Failed to parse JSON data: " ++ exn_str e) s))).
  { unfold handler_steps. unfold bind at 1. now rewrite Hparse. }
  split; [exact Hparse|]. split; [|split].
  - rewrite Hsteps. unfold bind at 1.
    destruct (extract_object_name_spec [] (snd (log ERROR
                ("Failed to parse JSON data: " ++ exn_str e) s)) I)
      as (s2 & -> & _).
    exists s2. reflexivity.
  - rewrite !handler_of_steps, Hsteps, handler_steps_no_data.
    now rewrite (indep_test_mode w _ s).
  - intros empty_object Hempty.
    rewrite !handler_of_steps, Hsteps.
    assert (Hsteps0 : handler_steps w (Some empty_object) s
              = (let* object_name := extract_object_name (PDict []) in
                 handler_rest w object_name) s).
    { unfold handler_steps, parse_body, try_except_class, bind at 1 2, lift.
      rewrite Hempty. reflexivity. }
    rewrite Hsteps0. now rewrite (indep_test_mode w _ s).
Qed.

(** In the sample world the text [nonsense] is answered with
    [JSONDecodeError]. *)
Lemma malformed_json_means_test_mode_witness :
  parse_body Sample.world (Some (list_ascii_of_string "nonsense"))
             (Sample.store FileMissing)
    = (Ok (PDict []),
       snd (log ERROR ("Failed to parse JSON data: "
                       ++ "Expecting value: line 1 column 1 (char 0)")
                (Sample.store FileMissing))) /\
  (exists s2,
      handler_steps Sample.world (Some (list_ascii_of_string "nonsense"))
                    (Sample.store FileMissing)
      = handler_rest Sample.world (PStr "test-report.csv") s2) /\
  fst (handler Sample.world (Some FnContext) (Some (list_ascii_of_string "nonsense"))
         (Sample.store FileMissing))
    = fst (handler Sample.world (Some FnContext) None (Sample.store FileMissing)) /\
  (forall empty_object,
      Json.loads Sample.world empty_object = Returns (PDict []) ->
      fst (handler Sample.world (Some FnContext)
             (Some (list_ascii_of_string "nonsense")) (Sample.store FileMissing))
      = fst (handler Sample.world (Some FnContext) (Some empty_object)
               (Sample.store FileMissing))).
Proof.
  exact (malformed_json_means_test_mode Sample.world (Some FnContext)
           (list_ascii_of_string "nonsense")
           (Exception "JSONDecodeError" "Expecting value: line 1 column 1 (char 0)")
           (Sample.store FileMissing) eq_refl eq_refl).
Defined.

(** C5, as the specification states it, fails: called without a context, as
    the module's own [__main__] block calls it, the handler does not return
    an error result when a step fails: it raises the exception again.  Here
    the required environment variables are missing. *)
Lemma handler_without_context_raises :
  fst (handler (Sample.with_environ bare_environ Sample.world) None None
         (Sample.store FileMissing))
  = Raise (Exception "ValueError"
             ("Missing required environment variables: "
              ++ "SMTP_USERNAME_SECRET_OCID, SMTP_PASSWORD_SECRET_OCID, "
              ++ "EMAIL_FROM, EMAIL_TO, NAMESPACE, BUCKET_NAME")).
Proof. vm_compute. reflexivity. Qed.

(** C5, amended.  For every input and every answer of the collaborators,
    the handler's steps either produce the success result or raise an
    exception; they never leave through [sys.exit].  Called with a context,
    the handler returns a response in both cases: status 200 with
    [{status: "success", message, object_name, recipient}], or status 500
    with [{status: "error", message, error_type}].  Called without a context
    it returns the bare success result, or raises the exception again. *)
Theorem handler_always_answers (w : World) (c : InvokeContext)
  (data : option (list ascii)) (s : Store) :
  match fst (handler_steps w data s) with
  | Ok result =>
      (exists object_name, result = success_result w object_name) /\
      fst (handler w (Some c) data s) = Ok (Response 200 result) /\
      fst (handler w None data s) = Ok (LocalResult result)
  | Raise e =>
      fst (handler w (Some c) data s) = Ok (Response 500 (error_result e)) /\
      fst (handler w None data s) = Raise e
  | Exit _ => False
  end.
Proof.
  rewrite !handler_of_steps.
  pose proof (ends_in_handler_steps w data s) as Hs.
  destruct (fst (handler_steps w data s)); auto.
Qed.

(** ** Missing settings *)

Lemma string_app_assoc (a b c : string) : (a ++ b) ++ c = a ++ (b ++ c).
Proof.
  induction a as [|x a IH]; [reflexivity|].
  change (String x ((a ++ b) ++ c) = String x (a ++ b ++ c)). now f_equal.
Qed.

Lemma string_app_nil_r (a : string) : a ++ EmptyString = a.
Proof.
  induction a as [|x a IH]; [reflexivity|].
  change (String x (a ++ EmptyString) = String x a). now f_equal.
Qed.

Lemma occurs_in_here (k post : string) : occurs_in k (k ++ post).
Proof. exists EmptyString, post. reflexivity. Qed.

Lemma occurs_in_later (k pre msg : string) : occurs_in k msg -> occurs_in k (pre ++ msg).
Proof.
  intros (a & b & ->). exists (pre ++ a), b.
  now rewrite string_app_assoc.
Qed.

Lemma occurs_in_join (sep k : string) (l : list string) :
  In k l -> occurs_in k (PyStr.join sep l).
Proof.
  induction l as [|p [|q rest] IH]; cbn [PyStr.join].
  - intros [].
  - intros [-> | []]. exists EmptyString, EmptyString. cbn.
    now rewrite string_app_nil_r.
  - intros [-> | Hin].
    + apply occurs_in_here.
    + apply occurs_in_later, occurs_in_later, IH, Hin.
Qed.

Lemma occurs_in_quoted (k msg : string) :
  occurs_in ("'" ++ k ++ "'") msg -> occurs_in k msg.
Proof.
  intros (a & b & ->). exists (a ++ "'"), ("'" ++ b).
  rewrite !string_app_assoc. reflexivity.
Qed.

Lemma occurs_in_repr_list (k : string) (l : list string) :
  In k l -> occurs_in k (PyStr.repr_list l).
Proof.
  intros Hin. unfold PyStr.repr_list.
  apply occurs_in_later. apply occurs_in_quoted.
  destruct (occurs_in_join ", " ("'" ++ k ++ "'")
              (List.map (fun k => "'" ++ k ++ "'") l)) as (a & b & Hab).
  { apply (List.in_map (fun k => "'" ++ k ++ "'")), Hin. }
  rewrite Hab. exists a, (b ++ "]").
  now rewrite !string_app_assoc.
Qed.

Section CallsOnly.
Context {A B : Type} (Q : Call -> Prop).

Lemma calls_only_quiet (m : M A) :
  (forall s, calls (snd (m s)) = calls s) -> calls_only Q m.
Proof. intros Hm s. exists []. rewrite Hm, app_nil_r. auto. Qed.

Lemma calls_only_bind (m : M A) (k : A -> M B) :
  calls_only Q m -> (forall a, calls_only Q (k a)) -> calls_only Q (bind m k).
Proof.
  intros Hm Hk s. unfold bind. destruct (Hm s) as (cs & Hcs & HQ).
  destruct (m s) as [[a|e|c] s1]; cbn [snd] in *; eauto.
  destruct (Hk a s1) as (cs' & Hcs' & HQ').
  exists (cs ++ cs')%list. rewrite Hcs', Hcs, app_assoc.
  split; [reflexivity | now apply Forall_app].
Qed.

Lemma calls_only_try_except (m : M A) (h : exn -> M A) :
  calls_only Q m -> (forall e, calls_only Q (h e)) -> calls_only Q (try_except m h).
Proof.
  intros Hm Hh s. unfold try_except. destruct (Hm s) as (cs & Hcs & HQ).
  destruct (m s) as [[a|e|c] s1]; cbn [snd] in *; eauto.
  destruct (Hh e s1) as (cs' & Hcs' & HQ').
  exists (cs ++ cs')%list. rewrite Hcs', Hcs, app_assoc.
  split; [reflexivity | now apply Forall_app].
Qed.

Lemma calls_only_try_except_class cls (m : M A) (h : exn -> M A) :
  calls_only Q m -> (forall e, calls_only Q (h e)) ->
  calls_only Q (try_except_class cls m h).
Proof.
  intros Hm Hh s. unfold try_except_class. destruct (Hm s) as (cs & Hcs & HQ).
  destruct (m s) as [[a|e|c] s1]; cbn [snd] in *; eauto.
  destruct (String.eqb (exn_type e) cls); cbn [snd]; eauto.
  destruct (Hh e s1) as (cs' & Hcs' & HQ').
  exists (cs ++ cs')%list. rewrite Hcs', Hcs, app_assoc.
  split; [reflexivity | now apply Forall_app].
Qed.

Lemma calls_only_ret (a : A) : calls_only Q (ret a).
Proof. apply calls_only_quiet. reflexivity. Qed.

Lemma calls_only_raise (e : exn) : calls_only Q (@raise A e).
Proof. apply calls_only_quiet. reflexivity. Qed.

Lemma calls_only_lift (r : answer A) : calls_only Q (lift r).
Proof. apply calls_only_quiet. intros s. destruct r; reflexivity. Qed.

End CallsOnly.

Lemma calls_only_log Q lvl msg : calls_only Q (log lvl msg).
Proof. apply calls_only_quiet. reflexivity. Qed.

Lemma calls_only_call (Q : Call -> Prop) c : Q c -> calls_only Q (call c).
Proof. intros Hc s. exists [c]. split; [reflexivity | auto]. Qed.

#[local] Hint Resolve calls_only_ret calls_only_raise calls_only_lift calls_only_log : effects.
#[local] Hint Extern 1 (calls_only _ (call _)) => apply calls_only_call; exact I : effects.

Ltac quiet :=
  repeat match goal with
    | |- forall _, _ => intro
    | |- calls_only _ (bind _ _) => apply calls_only_bind
    | |- calls_only _ (try_except_class _ _ _) => apply calls_only_try_except_class
    | |- calls_only _ (try_except _ _) => apply calls_only_try_except
    | |- calls_only _ (match ?x with _ => _ end) => destruct x
    | _ => solve [auto with effects]
    end.

Lemma calls_only_make_signer w c : calls_only is_authentication_call (make_signer w c).
Proof. unfold make_signer. quiet. Qed.

#[local] Hint Resolve calls_only_make_signer : effects.

Lemma calls_only_init_authentication w :
  calls_only is_authentication_call (init_authentication w).
Proof. unfold init_authentication. quiet. Qed.

Lemma calls_only_parse_body w data : calls_only is_authentication_call (parse_body w data).
Proof. unfold parse_body. quiet. Qed.

Lemma calls_only_extract_object_name body :
  calls_only is_authentication_call (extract_object_name body).
Proof. unfold extract_object_name. quiet. Qed.

(** The two checks name exactly the settings that are absent or empty. *)
Lemma missing_keys_complete config key :
  In key required_keys -> truthy (config !! key) = false ->
  In key (missing_keys_of config).
Proof.
  intros Hin Hfalse. unfold missing_keys_of.
  apply List.filter_In. split; [exact Hin|]. now rewrite Hfalse.
Qed.

Lemma missing_vars_complete w var :
  In var required_vars -> truthy (env_var w var) = false ->
  In var (missing_vars_of w).
Proof.
  intros Hin Hfalse. unfold missing_vars_of.
  apply List.filter_In. split; [exact Hin|]. now rewrite Hfalse.
Qed.

(** C8, as the specification states it, fails on the event path.  The
    handler sets up the identity before it looks at the environment: with a
    resource principal the signer is obtained first; in a local run without an
    OCI profile, and with all six required variables missing, the error that
    ends the invocation is the one of the profile, and its message names none
    of the missing variables. *)
Lemma environment_check_comes_after_authentication :
  missing_vars_of unconfigured_world = required_vars /\
  handler unconfigured_world (Some FnContext) None (Sample.store FileMissing)
  = (Ok (Response 500
           (error_result
              (Exception "ConfigFileNotFound"
                 "Could not find config file at /home/ops/.oci/config"))),
     mkStore ∅ FileMissing [] [CallOciConfigFile "/home/ops/.oci/config" "DEFAULT"]
       [(WARNING, "No object name found in payload, using test mode");
        (ERROR, "Failed to initialize local OCI authentication: "
                ++ "Could not find config file at /home/ops/.oci/config");
        (ERROR, "Function execution failed: "
                ++ "Could not find config file at /home/ops/.oci/config");
        (ERROR, "Full traceback")]) /\
  Forall (fun var =>
            PyStr.contains
              ("Function execution failed: "
               ++ "Could not find config file at /home/ops/.oci/config") var = false)
         required_vars /\
  calls (snd (handler (Sample.with_environ bare_environ Sample.world) (Some FnContext)
                None (Sample.store FileMissing)))
  = [CallResourcePrincipal].
Proof.
  split; [vm_compute; reflexivity|].
  split; [vm_compute; reflexivity|].
  split; [|vm_compute; reflexivity].
  repeat constructor.
Qed.

(** C8, amended.  Polling path: when [config.env] is read and required keys
    are missing or empty, [ReportSender()] raises [ValueError] with a message
    that lists every such key; nothing but the configuration file was read,
    and the process ends with status 1.  Event path: the check of the
    environment runs after the payload is parsed and the identity is set up;
    when those steps succeed and required variables are missing or empty, the
    handler's steps end with a [ValueError] whose message lists every such
    variable, and up to then only calls of the identity set-up were made: no
    object was fetched, no secret read, no mail sent. *)
Theorem missing_settings_fail_fast (w : World) (s : Store) :
  (forall text,
      fs_config w = ConfigText text ->
      missing_keys_of (parse_config text) <> [] ->
      let msg := "Missing required configuration keys: "
                 ++ PyStr.repr_list (missing_keys_of (parse_config text)) in
      ReportSender_init w s = (Raise (Exception "ValueError" msg), snd (call CallReadConfig s)) /\
      fst (main w s) = Exit 1 /\
      calls (snd (main w s)) = (calls s ++ [CallReadConfig])%list /\
      same_core s (snd (main w s)) /\
      Forall (fun key => truthy (parse_config text !! key) = false -> occurs_in key msg)
             required_keys) /\
  (forall data body object_name auth s1 s2 s3,
      parse_body w data s = (Ok body, s1) ->
      extract_object_name body s1 = (Ok object_name, s2) ->
      init_authentication w s2 = (Ok auth, s3) ->
      missing_vars_of w <> [] ->
      let msg := "Missing required environment variables: "
                 ++ PyStr.join ", " (missing_vars_of w) in
      handler_steps w data s = (Raise (Exception "ValueError" msg), snd (log ERROR msg s3)) /\
      (exists auth_calls,
          calls (snd (handler_steps w data s)) = (calls s ++ auth_calls)%list /\
          Forall is_authentication_call auth_calls) /\
      outbox (snd (handler_steps w data s)) = outbox s /\
      Forall (fun var => truthy (env_var w var) = false -> occurs_in var msg)
             required_vars).
Proof.
  split.
  - intros text Hcfg Hmissing msg.
    assert (Hinit : ReportSender_init w s
              = (Raise (Exception "ValueError" msg), snd (call CallReadConfig s))).
    { unfold ReportSender_init, load_config, bind at 1 2. cbn [call modify].
      rewrite Hcfg. subst msg.
      destruct (missing_keys_of (parse_config text)); [congruence | reflexivity]. }
    split; [exact Hinit|].
    rewrite main_unfold, Hinit. cbn.
    split; [reflexivity|]. split; [reflexivity|]. split; [repeat split|].
    apply List.Forall_forall. intros key Hin Hfalse.
    apply occurs_in_later, occurs_in_repr_list, missing_keys_complete; assumption.
  - intros data body object_name auth s1 s2 s3 Hparse Hextract Hauth Hmissing msg.
    assert (Hsteps : handler_steps w data s
              = (Raise (Exception "ValueError" msg), snd (log ERROR msg s3))).
    { unfold handler_steps. unfold bind at 1. rewrite Hparse.
      unfold bind at 1. rewrite Hextract.
      unfold handler_rest. unfold bind at 1. rewrite Hauth.
      destruct auth as [config_for_clients sg].
      unfold bind at 1. unfold check_environment. subst msg.
      destruct (missing_vars_of w); [congruence | reflexivity]. }
    split; [exact Hsteps|]. rewrite Hsteps. cbn [snd log modify calls outbox].
    split; [|split].
    + destruct (calls_only_parse_body w data s) as (c1 & Hc1 & HQ1).
      destruct (calls_only_extract_object_name body s1) as (c2 & Hc2 & HQ2).
      destruct (calls_only_init_authentication w s2) as (c3 & Hc3 & HQ3).
      rewrite Hparse in Hc1. rewrite Hextract in Hc2. rewrite Hauth in Hc3.
      cbn [snd] in *.
      exists (c1 ++ c2 ++ c3)%list. split.
      * rewrite Hc3, Hc2, Hc1, <- !app_assoc. reflexivity.
      * repeat apply Forall_app_2; assumption.
    + pose proof (ends_in_parse_body w data) as _.
      assert (Hf1 : outbox s1 = outbox s).
      { assert (F : frames (parse_body w data)) by (unfold parse_body; effects).
        specialize (F s). rewrite Hparse in F. apply F. }
      assert (Hf2 : outbox s2 = outbox s1).
      { assert (F : frames (extract_object_name body))
          by (unfold extract_object_name; effects).
        specialize (F s1). rewrite Hextract in F. apply F. }
      assert (Hf3 : outbox s3 = outbox s2).
      { assert (F : frames (init_authentication w))
          by (unfold init_authentication; effects).
        specialize (F s2). rewrite Hauth in F. apply F. }
      congruence.
    + apply List.Forall_forall. intros var Hin Hfalse.
      apply occurs_in_later, occurs_in_join, missing_vars_complete; assumption.
Qed.

(** The sample installation with a configuration file that lacks two keys
    and leaves one empty, and a function deployed without its variables. *)
Lemma missing_settings_fail_fast_witness :
  (ReportSender_init (Sample.with_fs_config (ConfigText Sample.partial_config_text)
                        (Sample.with_environ bare_environ Sample.world))
     (Sample.store FileMissing)
   = (Raise (Exception "ValueError"
               ("Missing required configuration keys: "
                ++ "['EMAIL_RECIPIENT', 'SMTP_PASSWORD_SECRET_OCID', 'SMTP_PORT']")),
      snd (call CallReadConfig (Sample.store FileMissing)))) /\
  (handler_steps (Sample.with_fs_config (ConfigText Sample.partial_config_text)
                    (Sample.with_environ bare_environ Sample.world))
     None (Sample.store FileMissing)
   = (Raise (Exception "ValueError"
               ("Missing required environment variables: "
                ++ "SMTP_USERNAME_SECRET_OCID, SMTP_PASSWORD_SECRET_OCID, "
                ++ "EMAIL_FROM, EMAIL_TO, NAMESPACE, BUCKET_NAME")),
      snd (log ERROR
             ("Missing required environment variables: "
              ++ "SMTP_USERNAME_SECRET_OCID, SMTP_PASSWORD_SECRET_OCID, "
              ++ "EMAIL_FROM, EMAIL_TO, NAMESPACE, BUCKET_NAME")
             (snd (init_authentication
                     (Sample.with_environ bare_environ Sample.world)
                     (snd (extract_object_name (PDict []) (Sample.store FileMissing)))))))).
Proof.
  pose (w := Sample.with_fs_config (ConfigText Sample.partial_config_text)
               (Sample.with_environ bare_environ Sample.world)).
  destruct (missing_settings_fail_fast w (Sample.store FileMissing)) as [Hp He].
  split.
  - refine (proj1 (Hp Sample.partial_config_text eq_refl _)). vm_compute. discriminate.
  - refine (proj1 (He None (PDict []) (PStr "test-report.csv") (∅, ResourcePrincipalsSigner)
                     _ _ _ eq_refl eq_refl eq_refl _)).
    vm_compute. discriminate.
Defined.

(** * Further properties of the code *)

(** ** The locators: ties and failures *)

Section FirstLatest.
Context {A : Type} (key : A -> datetime).

Lemma dt_leb_false_le (a b : datetime) : dt_leb a b = false -> dt_leb b a = true.
Proof. intros H. destruct (dt_leb_total a b); congruence. Qed.

(** The head of the sorted list is the element of the input that comes
  first among those with the largest key. *)
Lemma sort_desc_head_first (l : list A) :
match sort_desc key l with
| [] => l = []
| o :: _ =>
    exists pre post,
      l = (pre ++ o :: post)%list /\
      Forall (fun x => dt_leb (key o) (key x) = false) pre /\
      Forall (fun x => dt_leb (key x) (key o) = true) post
end.
Proof.
induction l as [|x l IH]; cbn [sort_desc]; [reflexivity|].
destruct (sort_desc key l) as [|o rest].
- subst l. cbn. exists [], []. repeat split; constructor.
- destruct IH as (pre & post & -> & Hpre & Hpost). cbn [insert_desc].
  destruct (dt_leb (key o) (key x)) eqn:Hox.
  + exists [], (pre ++ o :: post)%list. split; [reflexivity|].
    split; [constructor|].
    apply Forall_app. split.
    * eapply List.Forall_impl; [|exact Hpre]. cbn. intros a Ha.
      eapply dt_leb_trans; [apply dt_leb_false_le, Ha | exact Hox].
    * constructor; [exact Hox|].
      eapply List.Forall_impl; [|exact Hpost]. cbn. intros a Ha.
      eapply dt_leb_trans; eassumption.
  + exists (x :: pre), post. split; [reflexivity|].
    split; [constructor; assumption | assumption].
Qed.
End FirstLatest.

(** X1. Ties: among several reports with the same latest creation time both
    locators return the one the listing names first.  (When the listing is
    answered and the filtered set is not empty, the object returned splits
    the filtered set into strictly older entries before it and entries not
    newer after it.) *)
Theorem locator_returns_first_listed (w : World) (self : ReportSender) (s : Store)
  (namespace bucket_name prefix : string) (content : list ObjectSummary) :
  config self !! "NAMESPACE" = Some namespace ->
  config self !! "REPORT_BUCKET_NAME" = Some bucket_name ->
  oss_bucket w (signer self) namespace bucket_name = Returns content ->
  (match matching_reports "WeeklyCostsScheduledReport_" content with
   | [] => True
   | F => exists o, fst (get_latest_report_file w self s) = Ok (Some o) /\
                    first_latest_of F o
   end) /\
  (match matching_reports prefix content with
   | [] => True
   | F => exists o,
       fst (get_latest_report_filename w (signer self) namespace bucket_name prefix s)
         = Ok (Some (name o)) /\ first_latest_of F o
   end).
Proof.
  intros Hns Hb Hlist. split.
  - unfold get_latest_report_file, try_except, bind, cfg, lift, dict_index,
      list_objects, call, modify.
    rewrite Hb, Hns. cbn. rewrite Hlist. cbn.
    rewrite <- (filter_reports "WeeklyCostsScheduledReport_" content).
    destruct (List.filter (fun o => PyStr.startswith (name o) "WeeklyCostsScheduledReport_")
                content) as [|o1 l1] eqn:E1; [exact I|].
    destruct (List.filter is_report (o1 :: l1)) as [|x l] eqn:E2; [exact I|].
    pose proof (sort_desc_head_first time_created (x :: l)) as Hs.
    pose proof (sort_desc_nonempty time_created x l) as Hne.
    destruct (sort_desc time_created (x :: l)) as [|o rest] eqn:Es; [congruence|].
    exists o. cbn. unfold ret. split; [reflexivity | exact Hs].
  - unfold get_latest_report_filename, try_except, bind, list_objects, call, modify.
    cbn. rewrite Hlist. cbn.
    rewrite <- (filter_reports prefix content).
    destruct (List.filter (fun o => PyStr.startswith (name o) prefix) content)
      as [|o1 l1] eqn:E1; [exact I|].
    destruct (List.filter is_report (o1 :: l1)) as [|x l] eqn:E2; [exact I|].
    pose proof (sort_desc_head_first time_created (x :: l)) as Hs.
    pose proof (sort_desc_nonempty time_created x l) as Hne.
    destruct (sort_desc time_created (x :: l)) as [|o rest] eqn:Es; [congruence|].
    exists o. cbn. split; [reflexivity | exact Hs].
Qed.

(** Two reports of 8 January at the same instant: the one listed first. *)
Lemma locator_returns_first_listed_witness :
  (exists o,
      fst (get_latest_report_file tied_world Sample.sender (Sample.store FileMissing))
        = Ok (Some o) /\
      first_latest_of tied_bucket o) /\
  (exists o,
      fst (get_latest_report_filename tied_world (signer Sample.sender) "tenancy-ns"
             "cost-reports" "WeeklyCostsScheduledReport_" (Sample.store FileMissing))
        = Ok (Some (name o)) /\
      first_latest_of tied_bucket o).
Proof.
  exact (locator_returns_first_listed tied_world Sample.sender (Sample.store FileMissing)
           "tenancy-ns" "cost-reports" "WeeklyCostsScheduledReport_" tied_bucket
           eq_refl eq_refl eq_refl).
Defined.

Example tied_reports_first_listed_wins :
  fst (get_latest_report_file tied_world Sample.sender (Sample.store FileMissing))
  = Ok (Some (mkObject "WeeklyCostsScheduledReport_20240108b.csv.gz"
                       (mkDatetime 2024 1 8 6 0 0 0) 7)).
Proof. vm_compute. reflexivity. Qed.

(** X2. A listing call that fails is not turned into "nothing found": both
    locators log the error and raise the same exception again, and the
    polling run ends through [sys.exit(1)] with the ledger and the mail
    untouched and without any download, vault or SMTP call. *)
Theorem listing_failure_is_reraised (w : World) (self : ReportSender) (s : Store)
  (namespace bucket_name prefix : string) (e : exn) :
  config self !! "NAMESPACE" = Some namespace ->
  config self !! "REPORT_BUCKET_NAME" = Some bucket_name ->
  oss_bucket w (signer self) namespace bucket_name = Raises e ->
  get_latest_report_file w self s
  = (Raise e,
     mkStore (sent_files s) (ledger_file s) (outbox s)
       (calls s ++ [CallListObjects namespace bucket_name "WeeklyCostsScheduledReport_"])
       (logs s ++ [(ERROR, "Failed to get latest report file: " ++ exn_str e)])) /\
  get_latest_report_filename w (signer self) namespace bucket_name prefix s
  = (Raise e,
     mkStore (sent_files s) (ledger_file s) (outbox s)
       (calls s ++ [CallListObjects namespace bucket_name prefix])
       (logs s ++ [(ERROR, "Error listing objects in bucket '" ++ bucket_name ++ "': "
                           ++ exn_str e)])) /\
  fst (run w self s) = Exit 1 /\
  same_core s (snd (run w self s)) /\
  calls (snd (run w self s))
  = (calls s ++ [CallListObjects namespace bucket_name "WeeklyCostsScheduledReport_"])%list.
Proof.
  intros Hns Hb Hlist.
  assert (H1 : get_latest_report_file w self s
    = (Raise e,
       mkStore (sent_files s) (ledger_file s) (outbox s)
         (calls s ++ [CallListObjects namespace bucket_name "WeeklyCostsScheduledReport_"])
         (logs s ++ [(ERROR, "Failed to get latest report file: " ++ exn_str e)]))).
  { unfold get_latest_report_file, try_except, bind, cfg, lift, dict_index,
      list_objects, call, modify, log, raise.
    rewrite Hb, Hns. cbn. rewrite Hlist. reflexivity. }
  split; [exact H1|]. split.
  - unfold get_latest_report_filename, try_except, bind, list_objects, call, modify,
      log, raise. cbn. rewrite Hlist. reflexivity.
  - rewrite run_unfold, H1. cbn. repeat split.
Qed.

Lemma listing_failure_is_reraised_witness :
  get_latest_report_file unlistable_world Sample.sender (Sample.store FileMissing)
  = (Raise (Exception "ServiceError" "BucketNotFound"),
     mkStore ∅ FileMissing []
       [CallListObjects "tenancy-ns" "cost-reports" "WeeklyCostsScheduledReport_"]
       [(ERROR, "Failed to get latest report file: " ++ "BucketNotFound")]) /\
  get_latest_report_filename unlistable_world (signer Sample.sender) "tenancy-ns"
    "cost-reports" "Weekly" (Sample.store FileMissing)
  = (Raise (Exception "ServiceError" "BucketNotFound"),
     mkStore ∅ FileMissing []
       [CallListObjects "tenancy-ns" "cost-reports" "Weekly"]
       [(ERROR, "Error listing objects in bucket '" ++ "cost-reports" ++ "': "
                ++ "BucketNotFound")]) /\
  fst (run unlistable_world Sample.sender (Sample.store FileMissing)) = Exit 1 /\
  same_core (Sample.store FileMissing)
    (snd (run unlistable_world Sample.sender (Sample.store FileMissing))) /\
  calls (snd (run unlistable_world Sample.sender (Sample.store FileMissing)))
  = [CallListObjects "tenancy-ns" "cost-reports" "WeeklyCostsScheduledReport_"].
Proof.
  exact (listing_failure_is_reraised unlistable_world Sample.sender
           (Sample.store FileMissing) "tenancy-ns" "cost-reports" "Weekly"
           (Exception "ServiceError" "BucketNotFound") eq_refl eq_refl eq_refl).
Defined.

(** ** Reading [config.env] *)

Lemma split_once_assignment (key value : string) :
  no_char (Ascii.eqb "="%char) key = true ->
  PyStr.split_once "="%char (key ++ "=" ++ value) = (key, Some value).
Proof.
  induction key as [|c key IH]; cbn [no_char]; intros Hk; [reflexivity|].
  apply andb_prop in Hk as [Hc Hk]. apply negb_true_iff in Hc.
  change (String c key ++ "=" ++ value) with (String c (key ++ "=" ++ value)).
  cbn [PyStr.split_once]. rewrite Ascii.eqb_sym, Hc, (IH Hk). reflexivity.
Qed.

Lemma contains_assignment (key value : string) :
  PyStr.contains (key ++ "=" ++ value) "=" = true.
Proof.
  induction key as [|c key IH]; [destruct value; reflexivity|].
  change (String c key ++ "=" ++ value) with (String c (key ++ "=" ++ value)).
  cbn [PyStr.contains]. rewrite IH. apply orb_true_r.
Qed.

(** A line that is an assignment once stripped stores the key as written
    and the value without surrounding quote characters. *)
Lemma parse_line_assignment (config : gmap string string) (raw key value : string) :
  PyStr.strip raw = key ++ "=" ++ value ->
  PyStr.startswith (key ++ "=" ++ value) "#" = false ->
  no_char (Ascii.eqb "="%char) key = true ->
  parse_line config raw
  = <[key := PyStr.strip_chars (PyStr.dquote ++ "'") value]> config.
Proof.
  intros Hstrip Hhash Hkey. unfold parse_line. rewrite Hstrip, Hhash.
  rewrite contains_assignment, (split_once_assignment key value Hkey).
  assert (Hne : String.eqb (key ++ "=" ++ value) EmptyString = false).
  { destruct key; reflexivity. }
  rewrite Hne. reflexivity.
Qed.

Lemma lines_from_line (line cur rest : string) :
  no_char is_break line = true ->
  PyStr.lines_from cur (line ++ PyStr.nl ++ rest)
  = (cur ++ line) :: PyStr.lines_from EmptyString rest.
Proof.
  revert cur. induction line as [|c line IH]; intros cur; cbn [no_char]; intros Hl.
  - rewrite string_app_nil_r. reflexivity.
  - apply andb_prop in Hl as [Hc Hl]. apply negb_true_iff in Hc.
    change (String c line ++ PyStr.nl ++ rest) with (String c (line ++ PyStr.nl ++ rest)).
    cbn [PyStr.lines_from].
    change (Ascii.eqb c (ascii_of_N 10) || Ascii.eqb c (ascii_of_N 13)) with (is_break c).
    rewrite Hc, (IH _ Hl), string_app_assoc. reflexivity.
Qed.

(** Reading back a file written line by line gives the lines. *)
Lemma lines_unlines (ls : list string) :
  Forall (fun l => no_char is_break l = true) ls ->
  PyStr.lines (unlines ls) = ls.
Proof.
  unfold PyStr.lines. induction 1 as [|l ls Hl _ IH]; [reflexivity|].
  cbn [unlines]. rewrite (lines_from_line l EmptyString _ Hl), IH. reflexivity.
Qed.



(** The key of an assignment is not stripped: [KEY = value] defines the key
    [KEY ] (with the space), so the key [KEY] stays undefined. *)
Example spaced_assignment_defines_another_key :
  parse_config (unlines ["SMTP_PORT = 587"]) !! "SMTP_PORT" = None /\
  parse_config (unlines ["SMTP_PORT = 587"]) !! "SMTP_PORT " = Some " 587".
Proof. split; vm_compute; reflexivity. Qed.

(** ** What [ReportSender()] guarantees *)

Lemma load_config_ok (w : World) (s s1 : Store) (config : gmap string string) :
  load_config w s = (Ok config, s1) ->
  exists text, fs_config w = ConfigText text /\ config = parse_config text /\
               missing_keys_of config = [].
Proof.
  unfold load_config, bind, call, modify, raise, ret.
  destruct (fs_config w) as [|e|text]; try discriminate.
  destruct (missing_keys_of (parse_config text)) eqn:E; [|discriminate].
  intros [= <- _]. eauto.
Qed.

Lemma none_missing_all_set (config : gmap string string) (key : string) :
  missing_keys_of config = [] -> In key required_keys ->
  exists c rest, config !! key = Some (String c rest).
Proof.
  intros Hnone Hin.
  destruct (truthy (config !! key)) eqn:Ht.
  - destruct (config !! key) as [[|c rest]|]; try discriminate. eauto.
  - pose proof (missing_keys_complete config key Hin Ht) as Hm.
    rewrite Hnone in Hm. destruct Hm.
Qed.

Lemma make_signer_ok (w : World) (c : gmap string string) (s s1 : Store) (sg : Signer) :
  make_signer w c s = (Ok sg, s1) ->
  exists tenancy user fingerprint key_file,
    c !! "tenancy" = Some tenancy /\ c !! "user" = Some user /\
    c !! "fingerprint" = Some fingerprint /\ c !! "key_file" = Some key_file /\
    load_private_key w key_file (c !! "pass_phrase") = None /\
    sg = KeyFileSigner tenancy user fingerprint key_file (c !! "pass_phrase").
Proof.
  unfold make_signer, bind, lift, dict_index, call, modify, raise, ret.
  destruct (c !! "tenancy") as [tenancy|]; [|discriminate].
  destruct (c !! "user") as [user|]; [|discriminate].
  destruct (c !! "fingerprint") as [fingerprint|]; [|discriminate].
  destruct (c !! "key_file") as [key_file|]; [|discriminate].
  destruct (load_private_key w key_file (c !! "pass_phrase")) eqn:Ek; [discriminate|].
  intros [= <- _]. exists tenancy, user, fingerprint, key_file. repeat split.
  exact Ek.
Qed.

Lemma setup_signer_ok (w : World) (c : gmap string string) (s s1 : Store) (sg : Signer) :
  setup_signer w c s = (Ok sg, s1) -> exists s0, make_signer w c s = (Ok sg, s0).
Proof.
  unfold setup_signer, try_except.
  destruct (make_signer w c s) as [[sg'|e|code] s0]; [|discriminate|discriminate].
  intros [= <- _]. eauto.
Qed.

(** X4. An instance [ReportSender()] has built is fit for the run: its
    configuration is the one parsed from [config.env], each of the eight
    required keys is set to a non-empty value (so no [self.config[...]] of
    the run raises [KeyError]), its signer is a key-file signer made from
    the four entries of the OCI profile with a key that could be loaded, and
    the ledger in memory is the one the ledger file held. *)
Theorem init_validates_configuration (w : World) (s s' : Store) (self : ReportSender) :
  ReportSender_init w s = (Ok self, s') ->
  (exists text, fs_config w = ConfigText text /\ config self = parse_config text) /\
  Forall (fun key => exists c rest,
              config self !! key = Some (String c rest) /\
              forall s0, cfg self key s0 = (Ok (String c rest), s0))
         required_keys /\
  (exists tenancy user fingerprint key_file,
      oci_config self !! "tenancy" = Some tenancy /\
      oci_config self !! "user" = Some user /\
      oci_config self !! "fingerprint" = Some fingerprint /\
      oci_config self !! "key_file" = Some key_file /\
      load_private_key w key_file (oci_config self !! "pass_phrase") = None /\
      signer self = KeyFileSigner tenancy user fingerprint key_file
                      (oci_config self !! "pass_phrase")) /\
  sent_files s' = loaded_from (ledger_file s).
Proof.
  intros Hinit.
  destruct (init_effect w s) as (_ & _ & Hmem).
  assert (Hsf : sent_files s' = loaded_from (ledger_file s)).
  { specialize (Hmem self). rewrite Hinit in Hmem. exact (Hmem eq_refl). }
  unfold ReportSender_init in Hinit. unfold bind at 1 in Hinit.
  destruct (load_config w s) as [[conf|e|c] s1] eqn:E0; try discriminate.
  destruct (load_config_ok w s s1 conf E0) as (text & Hcfg & Hparse & Hnone).
  unfold bind at 1 in Hinit.
  destruct (load_sent_files_total s1) as (s2 & Hload & _).
  rewrite Hload in Hinit. unfold bind at 1 in Hinit.
  cbn [set_sent_files modify] in Hinit. unfold bind at 1 in Hinit.
  match type of Hinit with
  | context [setup_oci_config w ?s3] =>
      destruct (setup_oci_config w s3) as [[oc|e|c] s4]; try discriminate
  end.
  unfold bind at 1 in Hinit.
  destruct (setup_signer w oc s4) as [[sg|e|c] s5] eqn:E2; try discriminate.
  injection Hinit as <- <-. cbn [config oci_config signer].
  split; [eauto|]. split; [|split; [|exact Hsf]].
  - apply List.Forall_forall. intros key Hin.
    destruct (none_missing_all_set conf key Hnone Hin) as (c & rest & Hk).
    exists c, rest. split; [exact Hk|].
    intros s0. unfold cfg, lift, dict_index.
    cbn [config]. rewrite Hk. reflexivity.
  - destruct (setup_signer_ok w oc s4 s5 sg E2) as (s0 & Hmk).
    exact (make_signer_ok w oc s4 s0 sg Hmk).
Qed.

Lemma init_validates_configuration_witness :
  (exists text, fs_config Sample.world = ConfigText text /\
                config Sample.sender = parse_config text) /\
  Forall (fun key => exists c rest,
              config Sample.sender !! key = Some (String c rest) /\
              forall s0, cfg Sample.sender key s0 = (Ok (String c rest), s0))
         required_keys /\
  (exists tenancy user fingerprint key_file,
      oci_config Sample.sender !! "tenancy" = Some tenancy /\
      oci_config Sample.sender !! "user" = Some user /\
      oci_config Sample.sender !! "fingerprint" = Some fingerprint /\
      oci_config Sample.sender !! "key_file" = Some key_file /\
      load_private_key Sample.world key_file (oci_config Sample.sender !! "pass_phrase")
        = None /\
      signer Sample.sender = KeyFileSigner tenancy user fingerprint key_file
                               (oci_config Sample.sender !! "pass_phrase")) /\
  sent_files (snd (ReportSender_init Sample.world (Sample.store FileMissing)))
  = loaded_from (ledger_file (Sample.store FileMissing)).
Proof.
  apply (init_validates_configuration Sample.world (Sample.store FileMissing)
           (snd (ReportSender_init Sample.world (Sample.store FileMissing)))
           Sample.sender).
  vm_compute. reflexivity.
Defined.

(** ** Start-up of the polling script *)

Lemma calls_only_gets {A} Q (f : Store -> A) : calls_only Q (gets f).
Proof. apply calls_only_quiet. reflexivity. Qed.

Lemma calls_only_set_sent_files Q m : calls_only Q (set_sent_files m).
Proof. apply calls_only_quiet. reflexivity. Qed.

#[local] Hint Resolve calls_only_gets calls_only_set_sent_files : effects.

Lemma calls_only_init (w : World) : calls_only is_startup_call (ReportSender_init w).
Proof.
  unfold ReportSender_init, load_config, load_sent_files, setup_oci_config,
    setup_signer, make_signer.
  quiet.
Qed.

(** X5. Whatever makes [ReportSender()] raise (the configuration file
    absent or unreadable, required keys missing, the OCI profile or the key
    not loading), [main] logs the error and ends the process with status 1.
    Up to then only start-up calls were made: the bucket was not listed,
    nothing was fetched, no secret was read, no mail was sent, and the ledger
    file is as it was. *)
Theorem startup_failure_ends_process (w : World) (s s1 : Store) (e : exn) :
  ReportSender_init w s = (Raise e, s1) ->
  main w s = (Exit 1, snd (log ERROR ("Application failed: " ++ exn_str e) s1)) /\
  ledger_file (snd (main w s)) = ledger_file s /\
  outbox (snd (main w s)) = outbox s /\
  exists cs, calls (snd (main w s)) = (calls s ++ cs)%list /\ Forall is_startup_call cs.
Proof.
  intros Hinit.
  destruct (init_effect w s) as (Hlf & Hob & _).
  destruct (calls_only_init w s) as (cs & Hcs & HQ).
  rewrite Hinit in Hlf, Hob, Hcs. cbn [snd] in *.
  rewrite main_unfold, Hinit. cbn [snd log modify ledger_file outbox calls].
  repeat split; try assumption. eauto.
Qed.

Lemma startup_failure_ends_process_witness :
  main unconfigured_polling_world (Sample.store FileMissing)
  = (Exit 1,
     snd (log ERROR ("Application failed: " ++
                     "Configuration file not found: /opt/reports/local-execution/../config.env")
            (snd (call CallReadConfig (Sample.store FileMissing))))) /\
  ledger_file (snd (main unconfigured_polling_world (Sample.store FileMissing)))
  = FileMissing /\
  outbox (snd (main unconfigured_polling_world (Sample.store FileMissing))) = [] /\
  exists cs,
    calls (snd (main unconfigured_polling_world (Sample.store FileMissing)))
    = ([] ++ cs)%list /\ Forall is_startup_call cs.
Proof.
  exact (startup_failure_ends_process unconfigured_polling_world
           (Sample.store FileMissing)
           (snd (call CallReadConfig (Sample.store FileMissing)))
           (Exception "FileNotFoundError"
              "Configuration file not found: /opt/reports/local-execution/../config.env")
           eq_refl).
Defined.

(** X6. A key-file signer needs the four entries [tenancy], [user],
    [fingerprint] and [key_file] of the OCI profile: if one is absent,
    [setup_signer] logs and raises [KeyError] for the first absent one, in
    that order, and the key file is never read; the handler's local
    authentication fails the same way.  [pass_phrase] is optional: with the
    four entries present the key is loaded whether or not it is there. *)
Theorem signer_needs_profile_entries (w : World) (c : gmap string string) (s : Store) :
  (forall missing before after,
      signer_entries = (before ++ missing :: after)%list ->
      Forall (fun key => is_Some (c !! key)) before ->
      c !! missing = None ->
      setup_signer w c s
      = (Raise (Exception "KeyError" ("'" ++ missing ++ "'")),
         snd (log ERROR ("Failed to setup OCI signer: " ++ "'" ++ missing ++ "'") s)) /\
      fst (make_signer w c s) = Raise (Exception "KeyError" ("'" ++ missing ++ "'")) /\
      calls (snd (make_signer w c s)) = calls s) /\
  (Forall (fun key => is_Some (c !! key)) signer_entries ->
   exists key_file,
     c !! "key_file" = Some key_file /\
     calls (snd (setup_signer w c s)) = (calls s ++ [CallLoadKey key_file])%list).
Proof.
  split.
  - intros missing before after Hsplit Hbefore Hmissing.
    assert (Hmk : make_signer w c s
                  = (Raise (Exception "KeyError" ("'" ++ missing ++ "'")), s)).
    { unfold signer_entries in Hsplit.
      unfold make_signer, bind, lift, dict_index.
      destruct before as [|b1 before]; cbn in Hsplit.
      { injection Hsplit as <- _. rewrite Hmissing. reflexivity. }
      injection Hsplit as <- Hsplit.
      apply Forall_cons in Hbefore as [[x1 Hx1] Hbefore]. rewrite Hx1.
      destruct before as [|b2 before]; cbn in Hsplit.
      { injection Hsplit as <- _. rewrite Hmissing. reflexivity. }
      injection Hsplit as <- Hsplit.
      apply Forall_cons in Hbefore as [[x2 Hx2] Hbefore]. rewrite Hx2.
      destruct before as [|b3 before]; cbn in Hsplit.
      { injection Hsplit as <- _. rewrite Hmissing. reflexivity. }
      injection Hsplit as <- Hsplit.
      apply Forall_cons in Hbefore as [[x3 Hx3] Hbefore]. rewrite Hx3.
      destruct before as [|b4 before]; cbn in Hsplit.
      { injection Hsplit as <- _. rewrite Hmissing. reflexivity. }
      injection Hsplit as <- Hsplit. destruct before; discriminate. }
    split; [|split].
    + unfold setup_signer, try_except. rewrite Hmk. reflexivity.
    + now rewrite Hmk.
    + now rewrite Hmk.
  - intros Hall. unfold signer_entries in Hall.
    apply Forall_cons in Hall as [[t Ht] Hall].
    apply Forall_cons in Hall as [[u Hu] Hall].
    apply Forall_cons in Hall as [[f Hf] Hall].
    apply Forall_cons in Hall as [[k Hk] _].
    exists k. split; [exact Hk|].
    unfold setup_signer, try_except, make_signer, bind, lift, dict_index, call,
      modify, raise, ret, log.
    rewrite Ht, Hu, Hf, Hk. cbn.
    destruct (load_private_key w k (c !! "pass_phrase")); reflexivity.
Qed.

(** An OCI profile without [key_file], and the complete sample profile. *)
Lemma signer_needs_profile_entries_witness :
  (setup_signer Sample.world keyless_profile (Sample.store FileMissing)
   = (Raise (Exception "KeyError" ("'" ++ "key_file" ++ "'")),
      snd (log ERROR ("Failed to setup OCI signer: " ++ "'" ++ "key_file" ++ "'")
             (Sample.store FileMissing))) /\
   fst (make_signer Sample.world keyless_profile (Sample.store FileMissing))
   = Raise (Exception "KeyError" ("'" ++ "key_file" ++ "'")) /\
   calls (snd (make_signer Sample.world keyless_profile (Sample.store FileMissing)))
   = []) /\
  (exists key_file,
      Sample.oci_profile !! "key_file" = Some key_file /\
      calls (snd (setup_signer Sample.world Sample.oci_profile (Sample.store FileMissing)))
      = ([] ++ [CallLoadKey key_file])%list).
Proof.
  split.
  - refine (proj1 (signer_needs_profile_entries Sample.world keyless_profile
                     (Sample.store FileMissing))
              "key_file" ["tenancy"; "user"; "fingerprint"] [] eq_refl _ eq_refl).
    repeat first [apply Forall_nil_2 | apply Forall_cons_2; [eexists; reflexivity|]].
  - refine (proj2 (signer_needs_profile_entries Sample.world Sample.oci_profile
                     (Sample.store FileMissing)) _).
    repeat first [apply Forall_nil_2 | apply Forall_cons_2; [eexists; reflexivity|]].
Defined.

(** ** The ledger on disk *)


Lemma run_ledger_growth (w : World) (self : ReportSender) (s : Store) :
  let s' := snd (run w self s) in
  (sent_files s' = sent_files s /\ ledger_file s' = ledger_file s) \/
  exists h r,
    sent_files s !! h = None /\
    sent_files s' = <[h := r]> (sent_files s) /\
    match fs_write w with
    | WriteOk => ledger_file s' = FileLedger (sent_files s')
    | WriteDenied _ => ledger_file s' = ledger_file s
    | WriteTorn e => ledger_file s' = FileUnreadable e
    end.
Proof.
  cbv zeta. rewrite run_unfold.
  pose proof (frames_get_latest_report_file w self s) as H0.
  destruct (get_latest_report_file w self s) as [[[o|]|e|c] s1]; cbn [snd fst] in *;
    destruct H0 as (Hsf0 & Hlf0 & Hob0);
    try (left; split; assumption).
  destruct (sent_files s1 !! file_hash (name o) (time_created o)) eqn:Hlook;
    [left; split; assumption|].
  pose proof (frames_download_file w self (name o) s1) as H1.
  destruct (download_file w self (name o) s1) as [[file_data|e|c] s2]; cbn [snd] in *;
    destruct H1 as (Hsf1 & Hlf1 & Hob1).
  2,3: left; cbn; split; congruence.
  pose proof (sends_one_send_email w self (name o) file_data s2) as H2.
  destruct (send_email w self (name o) file_data s2) as [[[]|e|c] s3]; cbn [snd] in *.
  2,3: destruct H2 as (Hsf2 & Hlf2 & _); left; cbn; split; congruence.
  destruct H2 as (Hsf2 & Hlf2 & _).
  destruct (mark_file_as_sent_memory w (name o) (time_created o) s3)
    as (_ & Hm & _ & Hf).
  right. exists (file_hash (name o) (time_created o)),
    (mkSentRecord (name o) (format (time_created o)) (now_isoformat w)).
  split; [congruence|]. split; [rewrite Hm; congruence|].
  destruct (fs_write w); congruence.
Qed.



Example sample_process_adds_to_ledger_file :
  match ledger_file
          (snd (process Sample.world
                  (Sample.store
                     (FileLedger {[ "0123" := mkSentRecord "old.csv.gz" "2023" "2023" ]}))))
  with
  | FileLedger entries' =>
      List.map fst (map_to_list entries')
      ≡ₚ ["0123"; "b99d6c6d0f45bf688eb0cfead5c306e3"]
  | _ => False
  end.
Proof. vm_compute. apply perm_swap || reflexivity. Qed.

(** ** How a polling process ends *)

Lemma ends_in_gets {A} (f : Store -> A) : ends_in (fun _ => True) (gets f).
Proof. intros s. exact I. Qed.

#[local] Hint Resolve ends_in_gets : effects.

Lemma ends_in_init (w : World) : ends_in (fun _ => True) (ReportSender_init w).
Proof.
  unfold ReportSender_init, load_config, load_sent_files, setup_oci_config,
    setup_signer, set_sent_files.
  outcome.
Qed.

Lemma ends_in_get_latest_report_file w self :
  ends_in (fun _ => True) (get_latest_report_file w self).
Proof. unfold get_latest_report_file, cfg, list_objects. outcome. Qed.

Lemma ends_in_download_file w self file_name :
  ends_in (fun _ => True) (download_file w self file_name).
Proof. unfold download_file, cfg. outcome. Qed.

Lemma ends_in_send_email w self file_name file_data :
  ends_in (fun _ => True) (send_email w self file_name file_data).
Proof. unfold send_email, get_secret, cfg. outcome. Qed.

Lemma run_status (w : World) (self : ReportSender) (s : Store) :
  match fst (run w self s) with
  | Ok _ => True
  | Raise _ => False
  | Exit code => code = 1%Z /\ ledger_file (snd (run w self s)) = ledger_file s
  end.
Proof.
  rewrite run_unfold.
  pose proof (frames_get_latest_report_file w self s) as F0.
  pose proof (ends_in_get_latest_report_file w self s) as E0.
  destruct (get_latest_report_file w self s) as [[[o|]|e|c] s1]; cbn [fst snd] in *;
    destruct F0 as (_ & Hlf0 & _); try exact I; try contradiction.
  2: { split; [reflexivity | exact Hlf0]. }
  destruct (sent_files s1 !! file_hash (name o) (time_created o)); [exact I|].
  pose proof (frames_download_file w self (name o) s1) as F1.
  pose proof (ends_in_download_file w self (name o) s1) as E1.
  destruct (download_file w self (name o) s1) as [[file_data|e|c] s2];
    cbn [fst snd] in *; destruct F1 as (_ & Hlf1 & _); try contradiction.
  2: { split; [reflexivity | cbn; congruence]. }
  pose proof (sends_one_send_email w self (name o) file_data s2) as F2.
  pose proof (ends_in_send_email w self (name o) file_data s2) as E2.
  destruct (send_email w self (name o) file_data s2) as [[[]|e|c] s3];
    cbn [fst snd] in *; try contradiction.
  2: { destruct F2 as (_ & Hlf2 & _). split; [reflexivity | cbn; congruence]. }
  destruct (mark_file_as_sent_memory w (name o) (time_created o) s3) as (Hr & _).
  rewrite Hr. exact I.
Qed.

(** X9. No exception escapes [main]: a polling process ends by returning
    (status 0) or through [sys.exit(1)], whatever the collaborators answer.
    A process that ends with status 1 has left the ledger file as it was. *)
Theorem main_exit_status (w : World) (s : Store) :
  match fst (main w s) with
  | Ok _ => True
  | Raise _ => False
  | Exit code => code = 1%Z /\ ledger_file (snd (main w s)) = ledger_file s
  end.
Proof.
  rewrite main_unfold.
  destruct (init_effect w s) as (Hlf & _ & _).
  pose proof (ends_in_init w s) as E0.
  destruct (ReportSender_init w s) as [[self|e|c] s1]; cbn [fst snd] in *;
    try contradiction.
  2: { split; [reflexivity | exact Hlf]. }
  pose proof (run_status w self s1) as Hrun.
  destruct (run w self s1) as [[[]|e|c] s2]; cbn [fst snd] in *;
    try exact I; try contradiction.
  destruct Hrun as [-> Hl]. split; [reflexivity | congruence].
Qed.

(** ** The order of the calls *)

Section Makes.
Context {A B : Type}.

Lemma makes_silent (m : M A) :
  (forall s, calls (snd (m s)) = calls s) -> makes [] m.
Proof.
  intros Hm s. exists []. rewrite Hm, app_nil_r.
  split; [reflexivity|]. split; [reflexivity|].
  destruct (fst (m s)); auto.
Qed.

Lemma makes_raise (l : list CallKind) (e : exn) : makes l (@raise A e).
Proof.
  intros s. exists []. cbn. rewrite app_nil_r.
  split; [reflexivity|]. split; [apply prefix_nil | exact I].
Qed.

Lemma makes_bind (l l1 l2 : list CallKind) (m : M A) (k : A -> M B) :
  makes l1 m -> (forall a, makes l2 (k a)) -> l = (l1 ++ l2)%list ->
  makes l (bind m k).
Proof.
  intros Hm Hk -> s. unfold bind. destruct (Hm s) as (cs & Hcs & Hp & Hok).
  destruct (m s) as [[a|e|c] s1]; cbn [fst snd] in *.
  - destruct (Hk a s1) as (cs' & Hcs' & Hp' & Hok').
    exists (cs ++ cs')%list. rewrite Hcs', Hcs, app_assoc.
    split; [reflexivity|]. rewrite List.map_app, Hok.
    split; [apply prefix_app, Hp'|].
    destruct (fst (k a s1)); auto. now rewrite Hok'.
  - exists cs. split; [assumption|]. split; [apply prefix_app_r, Hp | exact I].
  - exists cs. split; [assumption|]. split; [apply prefix_app_r, Hp | exact I].
Qed.

Lemma makes_within (l : list CallKind) (m : M A) : makes l m -> within l m.
Proof. intros Hm s. destruct (Hm s) as (cs & Hcs & Hp & _). eauto. Qed.

Lemma within_bind (l1 l2 : list CallKind) (m : M A) (k : A -> M B) :
  makes l1 m -> (forall a, within l2 (k a)) -> within (l1 ++ l2) (bind m k).
Proof.
  intros Hm Hk s. unfold bind. destruct (Hm s) as (cs & Hcs & Hp & Hok).
  destruct (m s) as [[a|e|c] s1]; cbn [fst snd] in *.
  - destruct (Hk a s1) as (cs' & Hcs' & Hp').
    exists (cs ++ cs')%list. rewrite Hcs', Hcs, app_assoc.
    split; [reflexivity|]. rewrite List.map_app, Hok. apply prefix_app, Hp'.
  - exists cs. split; [assumption | apply prefix_app_r, Hp].
  - exists cs. split; [assumption | apply prefix_app_r, Hp].
Qed.

Lemma within_longer (l l' : list CallKind) (m : M A) :
  within l m -> l `prefix_of` l' -> within l' m.
Proof.
  intros Hm Hl s. destruct (Hm s) as (cs & Hcs & Hp).
  exists cs. split; [assumption | etransitivity; eassumption].
Qed.

Lemma makes_try_reraise (l : list CallKind) (m : M A) (text : exn -> string) :
  makes l m -> makes l (try_except m (fun e => log ERROR (text e) ;; raise e)).
Proof.
  intros Hm s. unfold try_except. destruct (Hm s) as (cs & Hcs & Hp & Hok).
  destruct (m s) as [[a|e|c] s1]; cbn [fst snd] in *; eauto.
Qed.

Lemma within_try_except (l : list CallKind) (m : M A) (h : exn -> M A) :
  within l m -> (forall e s, calls (snd (h e s)) = calls s) ->
  within l (try_except m h).
Proof.
  intros Hm Hh s. unfold try_except. destruct (Hm s) as (cs & Hcs & Hp).
  destruct (m s) as [[a|e|c] s1]; cbn [fst snd] in *; eauto.
  exists cs. rewrite Hh. auto.
Qed.
End Makes.

Lemma makes_ret {A} (a : A) : makes [] (ret a).
Proof. apply makes_silent. reflexivity. Qed.

Lemma makes_lift {A} (r : answer A) : makes [] (lift r).
Proof. apply makes_silent. intros s. destruct r; reflexivity. Qed.

Lemma makes_gets {A} (f : Store -> A) : makes [] (gets f).
Proof. apply makes_silent. reflexivity. Qed.

Lemma makes_log lvl msg : makes [] (log lvl msg).
Proof. apply makes_silent. reflexivity. Qed.

Lemma makes_deliver msg : makes [] (deliver msg).
Proof. apply makes_silent. reflexivity. Qed.

Lemma makes_set_sent_files m : makes [] (set_sent_files m).
Proof. apply makes_silent. reflexivity. Qed.

Lemma makes_call (c : Call) (k : CallKind) : kind_of c = k -> makes [k] (call c).
Proof.
  intros <- s. exists [c]. cbn. split; [reflexivity|]. split; reflexivity.
Qed.

Create HintDb protocol.
#[local] Hint Resolve makes_ret makes_raise makes_lift makes_gets makes_log
  makes_deliver makes_set_sent_files : protocol.

(** Derives the calls of a computation from those of its parts. *)
Ltac protocol :=
  lazymatch goal with
  | |- forall _, _ => intro; protocol
  | |- makes _ (bind _ _) => eapply makes_bind; [protocol | protocol | reflexivity]
  | |- makes _ (try_except _ _) => apply makes_try_reraise; protocol
  | |- makes _ (match ?x with _ => _ end) => destruct x; protocol
  | |- makes _ (let _ := _ in _) => cbv zeta; protocol
  | |- makes _ (call _) => eapply makes_call; cbn; reflexivity
  | |- _ => solve [eauto with protocol]
  end.

Lemma makes_cfg self key : makes [] (cfg self key).
Proof. unfold cfg. protocol. Qed.

Lemma makes_load_config w : makes [KReadConfig] (load_config w).
Proof. unfold load_config. protocol. Qed.

Lemma makes_load_sent_files : makes [KReadLedger] load_sent_files.
Proof.
  intros s. exists [CallReadLedger].
  unfold load_sent_files, bind, call, gets, modify, try_except, raise, log, ret. cbn.
  destruct (ledger_file s); cbn; repeat split; reflexivity.
Qed.

Lemma makes_setup_oci_config w : makes [KOciConfigFile] (setup_oci_config w).
Proof. unfold setup_oci_config. protocol. Qed.

Lemma makes_make_signer w c : makes [KLoadKey] (make_signer w c).
Proof. unfold make_signer. protocol. Qed.

#[local] Hint Resolve makes_cfg makes_load_config makes_load_sent_files
  makes_setup_oci_config makes_make_signer : protocol.

Lemma makes_setup_signer w c : makes [KLoadKey] (setup_signer w c).
Proof. unfold setup_signer. protocol. Qed.

#[local] Hint Resolve makes_setup_signer : protocol.

Lemma makes_init w :
  makes [KReadConfig; KReadLedger; KOciConfigFile; KLoadKey] (ReportSender_init w).
Proof. unfold ReportSender_init. protocol. Qed.

Lemma makes_list_objects w sg ns b p : makes [KListObjects] (list_objects w sg ns b p).
Proof. unfold list_objects. protocol. Qed.

#[local] Hint Resolve makes_list_objects : protocol.

Lemma makes_get_latest_report_file w self :
  makes [KListObjects] (get_latest_report_file w self).
Proof. unfold get_latest_report_file. protocol. Qed.

Lemma makes_get_latest_report_filename w sg ns b p :
  makes [KListObjects] (get_latest_report_filename w sg ns b p).
Proof. unfold get_latest_report_filename. protocol. Qed.

Lemma makes_download_file w self file_name :
  makes [KGetObject] (download_file w self file_name).
Proof. unfold download_file. protocol. Qed.

Lemma makes_get_secret w sg id : makes [KGetSecret] (get_secret w sg id).
Proof. unfold get_secret. protocol. Qed.

Lemma makes_smtp_session w server port user password msg :
  makes [KSmtp] (smtp_session w server port user password msg).
Proof. unfold smtp_session. protocol. Qed.

#[local] Hint Resolve makes_get_secret makes_smtp_session : protocol.

Lemma makes_send_email w self file_name file_data :
  makes [KGetSecret; KGetSecret; KSmtp] (send_email w self file_name file_data).
Proof. unfold send_email. protocol. Qed.

Lemma makes_save_sent_files w : makes [KWriteLedger] (save_sent_files w).
Proof.
  intros s. exists [CallWriteLedger].
  unfold save_sent_files, try_except, bind, call, gets, set_ledger_file, modify,
    raise, log.
  destruct (fs_write w); cbn; repeat split; reflexivity.
Qed.

#[local] Hint Resolve makes_save_sent_files : protocol.

Lemma makes_mark_file_as_sent {T} `{Format T} w file_name (t : T) :
  makes [KWriteLedger] (mark_file_as_sent w file_name t).
Proof. unfold mark_file_as_sent. protocol. Qed.

Lemma makes_is_file_already_sent {T} `{Format T} file_name (t : T) :
  makes [] (is_file_already_sent file_name t).
Proof. unfold is_file_already_sent. protocol. Qed.

Lemma within_ret {A} (l : list CallKind) (a : A) : within l (ret a).
Proof. eapply within_longer; [apply makes_within, makes_ret | apply prefix_nil]. Qed.

Lemma within_run w self :
  within [KListObjects; KGetObject; KGetSecret; KGetSecret; KSmtp; KWriteLedger]
         (run w self).
Proof.
  unfold run. apply within_try_except; [|reflexivity].
  apply (within_bind [KListObjects] [KGetObject; KGetSecret; KGetSecret; KSmtp; KWriteLedger]);
    [apply makes_get_latest_report_file|].
  intros [o|]; [|apply within_ret].
  apply (within_bind [] [KGetObject; KGetSecret; KGetSecret; KSmtp; KWriteLedger]);
    [apply makes_is_file_already_sent|].
  intros [|]; [apply within_ret|].
  apply makes_within.
  eapply makes_bind; [apply makes_download_file | intros file_data | reflexivity].
  eapply makes_bind; [apply makes_send_email | intros _ | reflexivity].
  apply makes_mark_file_as_sent.
Qed.

(** X10. The calls of a polling process always come in the same order:
    configuration file, ledger file, OCI profile, private key, one listing of
    the bucket, one download, the two secrets, one SMTP session, one write of
    the ledger file.  A process may stop anywhere along this sequence, but it
    never skips a step, never repeats one, and never changes the order: the
    ledger is read before the bucket is listed, the secrets are fetched only
    after the download, and the ledger file is written only after the SMTP
    session. *)
Theorem polling_calls_follow_protocol (w : World) (s : Store) :
  exists cs,
    calls (snd (main w s)) = (calls s ++ cs)%list /\
    List.map kind_of cs `prefix_of` polling_protocol.
Proof.
  revert s. change (within polling_protocol (main w)).
  unfold main. apply within_try_except; [|reflexivity].
  apply (within_bind [KReadConfig; KReadLedger; KOciConfigFile; KLoadKey]
           [KListObjects; KGetObject; KGetSecret; KGetSecret; KSmtp; KWriteLedger]);
    [apply makes_init | intros self; apply within_run].
Qed.

Example sample_process_makes_all_calls :
  List.map kind_of (calls (snd (main Sample.world (Sample.store FileMissing))))
  = polling_protocol.
Proof. vm_compute. reflexivity. Qed.

(** ** The handler's calls *)

Lemma makes_func_get_secret w id sg : makes [KGetSecret] (func_get_secret w id sg).
Proof. unfold func_get_secret. protocol. Qed.

Lemma makes_parse_body w data : makes [] (parse_body w data).
Proof.
  apply makes_silent. intros s.
  unfold parse_body, try_except_class, bind, lift, log, modify, ret.
  destruct data as [bytes|]; [|reflexivity].
  destruct (Json.loads w bytes) as [v|e].
  - destruct (py_keys v) as [keys|e]; [reflexivity|].
    destruct (String.eqb (exn_type e) "JSONDecodeError"); reflexivity.
  - destruct (String.eqb (exn_type e) "JSONDecodeError"); reflexivity.
Qed.

Lemma makes_extract_object_name body : makes [] (extract_object_name body).
Proof. unfold extract_object_name. protocol. Qed.

Lemma makes_init_authentication w :
  makes (authentication_protocol w) (init_authentication w).
Proof.
  unfold init_authentication, authentication_protocol.
  destruct (environ w !! "OCI_RESOURCE_PRINCIPAL_VERSION"); protocol.
Qed.

Lemma makes_check_environment w : makes [] (check_environment w).
Proof. unfold check_environment. protocol. Qed.

#[local] Hint Resolve makes_func_get_secret makes_parse_body makes_extract_object_name
  makes_init_authentication makes_check_environment : protocol.

Lemma makes_handler_rest w object_name :
  makes (handler_protocol w) (handler_rest w object_name).
Proof.
  unfold handler_rest, handler_protocol.
  eapply makes_bind; [apply makes_init_authentication | | reflexivity].
  intros [config_for_clients sg]. protocol.
Qed.

Lemma makes_handler_steps w data : makes (handler_protocol w) (handler_steps w data).
Proof.
  unfold handler_steps.
  eapply makes_bind; [apply makes_parse_body | intros body | reflexivity].
  eapply makes_bind; [apply makes_extract_object_name | intros object_name | reflexivity].
  apply makes_handler_rest.
Qed.

Section KeepsLedger.
Context {A B : Type}.

Lemma keeps_ledger_frames (m : M A) : frames m -> keeps_ledger m.
Proof. intros Hm s. destruct (Hm s) as (? & ? & _). auto. Qed.

Lemma keeps_ledger_bind (m : M A) (k : A -> M B) :
  keeps_ledger m -> (forall a, keeps_ledger (k a)) -> keeps_ledger (bind m k).
Proof.
  intros Hm Hk s. unfold bind. destruct (Hm s) as [H1 H2].
  destruct (m s) as [[a|e|c] s1]; cbn [snd] in *; auto.
  destruct (Hk a s1) as [H3 H4]. split; congruence.
Qed.

Lemma keeps_ledger_try_except (m : M A) (h : exn -> M A) :
  keeps_ledger m -> (forall e, keeps_ledger (h e)) -> keeps_ledger (try_except m h).
Proof.
  intros Hm Hh s. unfold try_except. destruct (Hm s) as [H1 H2].
  destruct (m s) as [[a|e|c] s1]; cbn [snd] in *; auto.
  destruct (Hh e s1) as [H3 H4]. split; congruence.
Qed.
End KeepsLedger.

Lemma keeps_ledger_smtp_session w server port user password msg :
  keeps_ledger (smtp_session w server port user password msg).
Proof.
  intros s. unfold smtp_session, bind, call, deliver, modify, raise.
  destruct (smtp_deliver w server port user password msg); split; reflexivity.
Qed.

Lemma frames_parse_body w data : frames (parse_body w data).
Proof. unfold parse_body. effects. Qed.

Lemma frames_extract_object_name body : frames (extract_object_name body).
Proof. unfold extract_object_name. effects. Qed.

Lemma frames_init_authentication w : frames (init_authentication w).
Proof. unfold init_authentication. effects. Qed.

Lemma frames_check_environment w : frames (check_environment w).
Proof. unfold check_environment. effects. Qed.

Lemma frames_func_get_secret w id sg : frames (func_get_secret w id sg).
Proof. unfold func_get_secret. effects. Qed.

#[local] Hint Resolve frames_parse_body frames_extract_object_name
  frames_init_authentication frames_check_environment frames_func_get_secret : effects.

(** Walks through a computation that may deliver mail. *)
Ltac ledger :=
  lazymatch goal with
  | |- forall _, _ => intro; ledger
  | |- keeps_ledger (smtp_session _ _ _ _ _ _) => apply keeps_ledger_smtp_session
  | |- keeps_ledger (bind _ _) => apply keeps_ledger_bind; ledger
  | |- keeps_ledger (try_except _ _) => apply keeps_ledger_try_except; ledger
  | |- keeps_ledger (match ?x with _ => _ end) => destruct x; ledger
  | |- keeps_ledger (let _ := _ in _) => cbv zeta; ledger
  | |- keeps_ledger _ => apply keeps_ledger_frames; solve [auto with effects]
  end.

Lemma keeps_ledger_handler w ctx data : keeps_ledger (handler w ctx data).
Proof. unfold handler, handler_steps, handler_rest. ledger. Qed.

(** X11. The handler's calls always come in the same order: the identity
    set-up (the resource principal, or the OCI profile and then the key), one
    fetch of the object, the two secrets, one SMTP session; an invocation may
    stop anywhere along this sequence.  The handler never lists the bucket
    ([get_latest_report_filename] is not part of it) and never reads or
    writes the sent-files ledger. *)
Theorem handler_calls_follow_protocol (w : World) (ctx : option InvokeContext)
  (data : option (list ascii)) (s : Store) :
  (exists cs,
      calls (snd (handler w ctx data s)) = (calls s ++ cs)%list /\
      List.map kind_of cs `prefix_of` handler_protocol w) /\
  sent_files (snd (handler w ctx data s)) = sent_files s /\
  ledger_file (snd (handler w ctx data s)) = ledger_file s.
Proof.
  split; [|apply keeps_ledger_handler].
  revert s. change (within (handler_protocol w) (handler w ctx data)).
  unfold handler. apply within_try_except.
  - apply makes_within.
    eapply makes_bind; [apply makes_handler_steps | intros result|].
    + destruct ctx; apply makes_ret.
    + now rewrite app_nil_r.
  - intros e s. destruct ctx; reflexivity.
Qed.

Example sample_invocation_makes_all_calls :
  List.map kind_of
    (calls (snd (handler Sample.world (Some FnContext) None (Sample.store FileMissing))))
  = [KResourcePrincipal; KGetObject; KGetSecret; KGetSecret; KSmtp].
Proof. vm_compute. reflexivity. Qed.

(** ** What a successful invocation did *)

Section Inversion.
Context {A B : Type}.

Lemma bind_ok (m : M A) (k : A -> M B) s b s' :
  bind m k s = (Ok b, s') -> exists a s1, m s = (Ok a, s1) /\ k a s1 = (Ok b, s').
Proof.
  unfold bind. destruct (m s) as [[a|e|c] s1]; try discriminate. eauto.
Qed.

Lemma try_reraise_ok (m : M A) (text : exn -> string) s a s' :
  try_except m (fun e => log ERROR (text e) ;; raise e) s = (Ok a, s') ->
  m s = (Ok a, s').
Proof.
  unfold try_except. destruct (m s) as [[a'|e|c] s1]; try discriminate; auto.
Qed.

Lemma lift_ok (r : answer A) s a s' : lift r s = (Ok a, s') -> r = Returns a /\ s' = s.
Proof. destruct r; cbn; [intros [= <- <-]; auto | discriminate]. Qed.
End Inversion.

Lemma func_get_secret_ok w id sg s v s' :
  func_get_secret w id sg s = (Ok v, s') ->
  vault_secret w sg id = Returns v /\ outbox s' = outbox s.
Proof.
  intros H. unfold func_get_secret in H. apply try_reraise_ok in H.
  apply bind_ok in H as ([] & s1 & Hc & H). apply lift_ok in H as [Hv ->].
  injection Hc as <-. auto.
Qed.

Lemma smtp_session_ok w server port user password msg s s' :
  smtp_session w server port user password msg s = (Ok tt, s') ->
  smtp_deliver w server port user password msg = None /\
  outbox s' = (outbox s ++ [msg])%list.
Proof.
  unfold smtp_session, bind, call, deliver, modify, raise.
  destruct (smtp_deliver w server port user password msg); [discriminate|].
  intros [= <-]. auto.
Qed.

Lemma check_environment_ok w s s' :
  check_environment w s = (Ok tt, s') -> missing_vars_of w = [] /\ s' = s.
Proof.
  unfold check_environment. destruct (missing_vars_of w); [|discriminate].
  intros [= <-]. auto.
Qed.

Lemma handler_rest_ok (w : World) (object_name : PyVal) (s s' : Store) (result : PyVal) :
  handler_rest w object_name s = (Ok result, s') ->
  exists sg file_data smtp_user smtp_pass port,
    result = success_result w object_name /\
    missing_vars_of w = [] /\
    oss_get_object w sg (env_text w "NAMESPACE") (env_text w "BUCKET_NAME") object_name
      = Returns file_data /\
    vault_secret w sg (env_text w "SMTP_USERNAME_SECRET_OCID") = Returns smtp_user /\
    vault_secret w sg (env_text w "SMTP_PASSWORD_SECRET_OCID") = Returns smtp_pass /\
    PyInt.int (env_text w "SMTP_PORT") = Returns port /\
    smtp_deliver w (env_text w "SMTP_SERVER") port smtp_user smtp_pass
      (handler_message w object_name file_data) = None /\
    outbox s' = (outbox s ++ [handler_message w object_name file_data])%list.
Proof.
  intros H. unfold handler_rest in H.
  apply bind_ok in H as ([conf sg] & s1 & Hauth & H).
  pose proof (frames_init_authentication w s) as (_ & _ & Ho1).
  rewrite Hauth in Ho1. cbn [snd] in Ho1. cbv beta iota zeta in H.
  apply bind_ok in H as ([] & s2 & Henv & H).
  apply check_environment_ok in Henv as [Hnone ->].
  apply bind_ok in H as (file_data & s3 & Hfetch & H).
  apply try_reraise_ok in Hfetch.
  apply bind_ok in Hfetch as ([] & s4 & Hc & Hfetch).
  apply lift_ok in Hfetch as [Hget ->]. injection Hc as <-.
  apply bind_ok in H as ([smtp_user smtp_pass] & s5 & Hcred & H).
  apply try_reraise_ok in Hcred.
  apply bind_ok in Hcred as (u & s6 & Hu & Hcred).
  apply bind_ok in Hcred as (p & s7 & Hp & Hcred).
  injection Hcred as -> -> <-.
  apply func_get_secret_ok in Hu as [Hu Ho2], Hp as [Hp Ho3].
  cbv beta iota zeta in H.
  apply bind_ok in H as ([] & s8 & Hsend & H).
  apply try_reraise_ok in Hsend.
  apply bind_ok in Hsend as (port & s9 & Hport & Hsend).
  apply lift_ok in Hport as [Hport ->].
  apply smtp_session_ok in Hsend as [Hsmtp Ho4].
  injection H as <- <-.
  exists sg, file_data, smtp_user, smtp_pass, port.
  repeat split; try assumption.
  unfold handler_message. rewrite Ho4, Ho3, Ho2. cbn [outbox]. now rewrite Ho1.
Qed.

Lemma required_var_lookup (w : World) (var : string) :
  In var required_vars -> env_var w var = environ w !! var.
Proof.
  intros Hin. cbn in Hin.
  repeat (destruct Hin as [<- | Hin]; [reflexivity|]). destruct Hin.
Qed.

(** X12. What a success means.  When the handler's steps return, the result
    is the success dict for an object name, all six required variables are
    set to non-empty values, the object of that name was fetched from the
    bucket [BUCKET_NAME] of the namespace [NAMESPACE], both secrets were read,
    and exactly one message was handed to the SMTP server: from
    [EMAIL_FROM] to [EMAIL_TO], with the object's name in the subject and
    the fetched bytes as its attachment. *)
Theorem handler_success_delivers_object (w : World) (data : option (list ascii))
  (s s' : Store) (result : PyVal) :
  handler_steps w data s = (Ok result, s') ->
  exists object_name sg file_data smtp_user smtp_pass port,
    result = success_result w object_name /\
    Forall (fun var => exists c rest, environ w !! var = Some (String c rest))
           required_vars /\
    oss_get_object w sg (env_text w "NAMESPACE") (env_text w "BUCKET_NAME") object_name
      = Returns file_data /\
    vault_secret w sg (env_text w "SMTP_USERNAME_SECRET_OCID") = Returns smtp_user /\
    vault_secret w sg (env_text w "SMTP_PASSWORD_SECRET_OCID") = Returns smtp_pass /\
    PyInt.int (env_text w "SMTP_PORT") = Returns port /\
    smtp_deliver w (env_text w "SMTP_SERVER") port smtp_user smtp_pass
      (handler_message w object_name file_data) = None /\
    outbox s' = (outbox s ++ [handler_message w object_name file_data])%list /\
    mp_headers (handler_message w object_name file_data)
    = [("Content-Type", "multipart/mixed"); ("MIME-Version", "1.0");
       ("From", env_text w "EMAIL_FROM"); ("To", env_text w "EMAIL_TO");
       ("Subject", "OCI Usage Report: " ++ py_str w object_name)] /\
    carries (py_str w object_name) file_data (handler_message w object_name file_data).
Proof.
  intros H. unfold handler_steps in H.
  apply bind_ok in H as (body & s1 & Hparse & H).
  apply bind_ok in H as (object_name & s2 & Hextract & H).
  pose proof (frames_parse_body w data s) as (_ & _ & Ho1).
  pose proof (frames_extract_object_name body s1) as (_ & _ & Ho2).
  rewrite Hparse in Ho1. rewrite Hextract in Ho2. cbn [snd] in *.
  destruct (handler_rest_ok w object_name s2 s' result H)
    as (sg & file_data & smtp_user & smtp_pass & port & Hres & Hnone & Hget & Hu & Hp
        & Hport & Hsmtp & Hout).
  exists object_name, sg, file_data, smtp_user, smtp_pass, port.
  split; [exact Hres|]. split.
  { apply List.Forall_forall. intros var Hin.
    destruct (truthy (env_var w var)) eqn:Ht.
    - rewrite (required_var_lookup w var Hin) in Ht.
      destruct (environ w !! var) as [[|c rest]|]; try discriminate. eauto.
    - pose proof (missing_vars_complete w var Hin Ht) as Hm.
      rewrite Hnone in Hm. destruct Hm. }
  repeat (split; [assumption|]).
  split; [congruence|]. split; [reflexivity|].
  eexists. reflexivity.
Qed.

Lemma handler_success_delivers_object_witness :
  exists object_name sg file_data smtp_user smtp_pass port,
    success_result Sample.world (PStr "test-report.csv")
    = success_result Sample.world object_name /\
    Forall (fun var => exists c rest, environ Sample.world !! var = Some (String c rest))
           required_vars /\
    oss_get_object Sample.world sg (env_text Sample.world "NAMESPACE")
      (env_text Sample.world "BUCKET_NAME") object_name = Returns file_data /\
    vault_secret Sample.world sg (env_text Sample.world "SMTP_USERNAME_SECRET_OCID")
      = Returns smtp_user /\
    vault_secret Sample.world sg (env_text Sample.world "SMTP_PASSWORD_SECRET_OCID")
      = Returns smtp_pass /\
    PyInt.int (env_text Sample.world "SMTP_PORT") = Returns port /\
    smtp_deliver Sample.world (env_text Sample.world "SMTP_SERVER") port smtp_user
      smtp_pass (handler_message Sample.world object_name file_data) = None /\
    outbox (snd (handler_steps Sample.world None (Sample.store FileMissing)))
    = ([] ++ [handler_message Sample.world object_name file_data])%list /\
    mp_headers (handler_message Sample.world object_name file_data)
    = [("Content-Type", "multipart/mixed"); ("MIME-Version", "1.0");
       ("From", env_text Sample.world "EMAIL_FROM");
       ("To", env_text Sample.world "EMAIL_TO");
       ("Subject", "OCI Usage Report: " ++ py_str Sample.world object_name)] /\
    carries (py_str Sample.world object_name) file_data
      (handler_message Sample.world object_name file_data).
Proof.
  apply (handler_success_delivers_object Sample.world None (Sample.store FileMissing)
           (snd (handler_steps Sample.world None (Sample.store FileMissing)))
           (success_result Sample.world (PStr "test-report.csv"))).
  vm_compute. reflexivity.
Defined.

(** ** The handler has no memory *)

Section Uniform.
Context {A B : Type}.

Lemma uniform_quiet (m : M A) :
  indep m -> (forall s, outbox (snd (m s)) = outbox s) -> uniform m.
Proof.
  intros Hi Ho s s'. split; [apply Hi|].
  exists []. rewrite !Ho, !app_nil_r. auto.
Qed.

Lemma uniform_bind (m : M A) (k : A -> M B) :
  uniform m -> (forall a, uniform (k a)) -> uniform (bind m k).
Proof.
  intros Hm Hk s s'. unfold bind.
  destruct (Hm s s') as (Hf & added & Ho & Ho').
  destruct (m s) as [[a|e|c] s1], (m s') as [[a'|e'|c'] s1'];
    cbn [fst snd] in *; try discriminate; injection Hf as <-.
  all: try (split; [reflexivity | eauto]).
  destruct (Hk a s1 s1') as (Hf2 & added2 & Ho2 & Ho2').
  split; [assumption|]. exists (added ++ added2)%list.
  rewrite Ho2, Ho2', Ho, Ho', !app_assoc. auto.
Qed.

Lemma uniform_try_except (m : M A) (h : exn -> M A) :
  uniform m -> (forall e, uniform (h e)) -> uniform (try_except m h).
Proof.
  intros Hm Hh s s'. unfold try_except.
  destruct (Hm s s') as (Hf & added & Ho & Ho').
  destruct (m s) as [[a|e|c] s1], (m s') as [[a'|e'|c'] s1'];
    cbn [fst snd] in *; try discriminate; injection Hf as <-.
  all: try (split; [reflexivity | eauto]).
  destruct (Hh e s1 s1') as (Hf2 & added2 & Ho2 & Ho2').
  split; [assumption|]. exists (added ++ added2)%list.
  rewrite Ho2, Ho2', Ho, Ho', !app_assoc. auto.
Qed.

Lemma uniform_try_except_class cls (m : M A) (h : exn -> M A) :
  uniform m -> (forall e, uniform (h e)) -> uniform (try_except_class cls m h).
Proof.
  intros Hm Hh s s'. unfold try_except_class.
  destruct (Hm s s') as (Hf & added & Ho & Ho').
  destruct (m s) as [[a|e|c] s1], (m s') as [[a'|e'|c'] s1'];
    cbn [fst snd] in *; try discriminate; injection Hf as <-.
  all: try (split; [reflexivity | eauto]).
  destruct (String.eqb (exn_type e) cls); [|split; [reflexivity | eauto]].
  destruct (Hh e s1 s1') as (Hf2 & added2 & Ho2 & Ho2').
  split; [assumption|]. exists (added ++ added2)%list.
  rewrite Ho2, Ho2', Ho, Ho', !app_assoc. auto.
Qed.
End Uniform.

Lemma uniform_frames {A} (m : M A) : indep m -> frames m -> uniform m.
Proof. intros Hi Hf. apply uniform_quiet; [exact Hi|]. intros s. apply Hf. Qed.

Lemma uniform_deliver msg : uniform (deliver msg).
Proof. intros s s'. split; [reflexivity|]. exists [msg]. auto. Qed.

Lemma indep_try_except_class {A} cls (m : M A) (h : exn -> M A) :
  indep m -> (forall e, indep (h e)) -> indep (try_except_class cls m h).
Proof.
  intros Hm Hh s s'. unfold try_except_class. specialize (Hm s s').
  destruct (m s) as [[a|e|c] s1], (m s') as [[a'|e'|c'] s1'];
    cbn [fst] in *; try discriminate; try assumption.
  injection Hm as <-. destruct (String.eqb (exn_type e) cls); [apply Hh | reflexivity].
Qed.

Lemma indep_parse_body w data : indep (parse_body w data).
Proof.
  unfold parse_body. destruct data as [bytes|]; [|outcome].
  apply indep_try_except_class; outcome.
Qed.

#[local] Hint Resolve indep_parse_body : effects.

(** Walks through a computation that reads nothing of the store. *)
Ltac uniformity :=
  lazymatch goal with
  | |- forall _, _ => intro; uniformity
  | |- uniform (deliver _) => apply uniform_deliver
  | |- uniform (bind _ _) => apply uniform_bind; uniformity
  | |- uniform (try_except_class _ _ _) => apply uniform_try_except_class; uniformity
  | |- uniform (try_except _ _) => apply uniform_try_except; uniformity
  | |- uniform (match ?x with _ => _ end) => destruct x; uniformity
  | |- uniform (let _ := _ in _) => cbv zeta; uniformity
  | |- uniform _ => apply uniform_frames; solve [auto with effects]
  end.

Lemma uniform_handler_steps w data : uniform (handler_steps w data).
Proof.
  unfold handler_steps, parse_body, extract_object_name, handler_rest,
    init_authentication, check_environment, func_get_secret, smtp_session,
    make_signer.
  uniformity.
Qed.

Lemma handler_steps_ok_outbox (w : World) (data : option (list ascii))
  (s s' : Store) (result : PyVal) :
  handler_steps w data s = (Ok result, s') ->
  exists msg, outbox s' = (outbox s ++ [msg])%list.
Proof.
  intros H. unfold handler_steps in H.
  apply bind_ok in H as (body & s1 & Hparse & H).
  apply bind_ok in H as (object_name & s2 & Hextract & H).
  pose proof (frames_parse_body w data s) as (_ & _ & Ho1).
  pose proof (frames_extract_object_name body s1) as (_ & _ & Ho2).
  rewrite Hparse in Ho1. rewrite Hextract in Ho2. cbn [snd] in *.
  destruct (handler_rest_ok w object_name s2 s' result H)
    as (sg & file_data & smtp_user & smtp_pass & port & _ & _ & _ & _ & _ & _ & _ & Hout).
  exists (handler_message w object_name file_data). rewrite Hout, Ho2, Ho1. reflexivity.
Qed.

(** X13. The handler keeps no record of what it sent.  An invocation that
    succeeded succeeds again, with the same result and the same message,
    every time the same event arrives while the collaborators answer the
    same: whatever was delivered or recorded before plays no role, so an
    event delivered twice is mailed twice. *)
Theorem handler_resends_on_redelivery (w : World) (data : option (list ascii))
  (s s1 : Store) (result : PyVal) :
  handler_steps w data s = (Ok result, s1) ->
  exists msg,
    outbox s1 = (outbox s ++ [msg])%list /\
    (forall s0,
        fst (handler_steps w data s0) = Ok result /\
        outbox (snd (handler_steps w data s0)) = (outbox s0 ++ [msg])%list) /\
    outbox (snd (handler_steps w data s1)) = (outbox s ++ [msg; msg])%list.
Proof.
  intros H.
  destruct (handler_steps_ok_outbox w data s s1 result H) as (msg & Hout).
  assert (Hall : forall s0,
             fst (handler_steps w data s0) = Ok result /\
             outbox (snd (handler_steps w data s0)) = (outbox s0 ++ [msg])%list).
  { intros s0. destruct (uniform_handler_steps w data s s0) as (Hf & added & Ho & Ho').
    rewrite H in Hf, Ho. cbn [fst snd] in *.
    rewrite Hout in Ho. apply app_inv_head in Ho. subst added. auto. }
  exists msg. split; [exact Hout|]. split; [exact Hall|].
  destruct (Hall s1) as [_ ->]. rewrite Hout, <- app_assoc. reflexivity.
Qed.

Lemma handler_resends_on_redelivery_witness :
  exists msg,
    outbox (snd (handler_steps Sample.world None (Sample.store FileMissing)))
    = ([] ++ [msg])%list /\
    (forall s0,
        fst (handler_steps Sample.world None s0)
        = Ok (success_result Sample.world (PStr "test-report.csv")) /\
        outbox (snd (handler_steps Sample.world None s0)) = (outbox s0 ++ [msg])%list) /\
    outbox (snd (handler_steps Sample.world None
                   (snd (handler_steps Sample.world None (Sample.store FileMissing)))))
    = ([] ++ [msg; msg])%list.
Proof.
  apply (handler_resends_on_redelivery Sample.world None (Sample.store FileMissing)
           (snd (handler_steps Sample.world None (Sample.store FileMissing)))
           (success_result Sample.world (PStr "test-report.csv"))).
  vm_compute. reflexivity.
Defined.

(** ** Failures of the handler's collaborators *)

Lemma steps_raise_is_500 (w : World) (data : option (list ascii)) (s : Store) (e : exn) :
  fst (handler_steps w data s) = Raise e ->
  forall c, fst (handler w (Some c) data s) = Ok (Response 500 (error_result e)).
Proof. intros H c. rewrite handler_of_steps, H. reflexivity. Qed.

(** X14. A collaborator that fails stops the handler where it is, and its
    exception is what the handler reports.  If the object cannot be fetched,
    no secret is requested; if the user-name secret cannot be read, the
    password secret is not requested; in all three cases the SMTP server is
    never contacted, nothing is delivered, and an invocation with a context
    is answered with status 500 and the exception's type and text. *)
Theorem handler_stops_at_failing_collaborator (w : World) (data : option (list ascii))
  (s s1 s2 s3 : Store) (body object_name : PyVal) (conf : gmap string string)
  (sg : Signer) (e : exn) :
  parse_body w data s = (Ok body, s1) ->
  extract_object_name body s1 = (Ok object_name, s2) ->
  init_authentication w s2 = (Ok (conf, sg), s3) ->
  missing_vars_of w = [] ->
  let namespace := env_text w "NAMESPACE" in
  let bucket_name := env_text w "BUCKET_NAME" in
  let user_id := env_text w "SMTP_USERNAME_SECRET_OCID" in
  let pass_id := env_text w "SMTP_PASSWORD_SECRET_OCID" in
  let fetch := CallGetObject namespace bucket_name object_name in
  (oss_get_object w sg namespace bucket_name object_name = Raises e ->
   stops_with w data s s3 e [fetch]
     [(ERROR, "Failed to fetch object '" ++ py_str w object_name ++ "': " ++ exn_str e)]) /\
  (forall file_data,
      oss_get_object w sg namespace bucket_name object_name = Returns file_data ->
      vault_secret w sg user_id = Raises e ->
      stops_with w data s s3 e [fetch; CallGetSecret user_id]
        [(ERROR, "Error fetching secret " ++ user_id ++ ": " ++ exn_str e);
         (ERROR, "Failed to retrieve SMTP credentials: " ++ exn_str e)]) /\
  (forall file_data smtp_user,
      oss_get_object w sg namespace bucket_name object_name = Returns file_data ->
      vault_secret w sg user_id = Returns smtp_user ->
      vault_secret w sg pass_id = Raises e ->
      stops_with w data s s3 e [fetch; CallGetSecret user_id; CallGetSecret pass_id]
        [(ERROR, "Error fetching secret " ++ pass_id ++ ": " ++ exn_str e);
         (ERROR, "Failed to retrieve SMTP credentials: " ++ exn_str e)]).
Proof.
  intros Hparse Hextract Hauth Hnone namespace bucket_name user_id pass_id fetch.
  assert (Hsteps : forall r,
             (let* file_data :=
                try_except
                  (call fetch ;;
                   lift (oss_get_object w sg namespace bucket_name object_name))
                  (fun e => log ERROR ("Failed to fetch object '"
                                       ++ py_str w object_name ++ "': " ++ exn_str e) ;;
                            raise e) in
              let* credentials :=
                try_except
                  (let* smtp_user := func_get_secret w user_id sg in
                   let* smtp_pass := func_get_secret w pass_id sg in
                   ret (smtp_user, smtp_pass))
                  (fun e => log ERROR ("Failed to retrieve SMTP credentials: "
                                       ++ exn_str e) ;; raise e) in
              let '(smtp_user, smtp_pass) := credentials in
              try_except
                (let* port := lift (PyInt.int (env_text w "SMTP_PORT")) in
                 smtp_session w (env_text w "SMTP_SERVER") port smtp_user smtp_pass
                   (handler_message w object_name file_data))
                (fun e => log ERROR ("Failed to send email: " ++ exn_str e) ;; raise e) ;;
              ret (success_result w object_name)) s3 = r ->
             handler_steps w data s = r).
  { intros r <-. unfold handler_steps. unfold bind at 1. rewrite Hparse.
    unfold bind at 1. rewrite Hextract.
    unfold handler_rest. unfold bind at 1. rewrite Hauth.
    unfold bind at 1. unfold check_environment. rewrite Hnone. reflexivity. }
  assert (Hstop : forall cs lg,
             handler_steps w data s
             = (Raise e, mkStore (sent_files s3) (ledger_file s3) (outbox s3)
                                 (calls s3 ++ cs) (logs s3 ++ lg)) ->
             stops_with w data s s3 e cs lg).
  { intros cs lg H. split; [exact H|]. apply steps_raise_is_500. now rewrite H. }
  split; [|split].
  - intros Hget. apply Hstop, Hsteps.
    unfold try_except, bind, call, modify, lift, log, raise. cbn. rewrite Hget.
    reflexivity.
  - intros file_data Hget Hu. apply Hstop, Hsteps.
    unfold func_get_secret, try_except, bind, call, modify, lift, log, raise. cbn.
    rewrite Hget. cbn. rewrite Hu. cbn. rewrite <- !app_assoc. reflexivity.
  - intros file_data smtp_user Hget Hu Hp. apply Hstop, Hsteps.
    unfold func_get_secret, try_except, bind, call, modify, lift, log, raise. cbn.
    rewrite Hget. cbn. rewrite Hu. cbn. rewrite Hp. cbn.
    rewrite <- !app_assoc. reflexivity.
Qed.

(** The sample function against a bucket that cannot be read, a vault that
    rejects everything, and a vault that rejects the password. *)
Lemma handler_stops_at_failing_collaborator_witness :
  stops_with unfetchable_world None (Sample.store FileMissing)
    (snd (init_authentication Sample.world
            (snd (extract_object_name (PDict []) (Sample.store FileMissing)))))
    (Exception "ServiceError" "ObjectNotFound")
    [CallGetObject "tenancy-ns" "cost-reports" (PStr "test-report.csv")]
    [(ERROR, "Failed to fetch object '" ++ "test-report.csv" ++ "': " ++ "ObjectNotFound")] /\
  stops_with sealed_world None (Sample.store FileMissing)
    (snd (init_authentication Sample.world
            (snd (extract_object_name (PDict []) (Sample.store FileMissing)))))
    (Exception "ServiceError" "NotAuthorizedOrNotFound")
    [CallGetObject "tenancy-ns" "cost-reports" (PStr "test-report.csv");
     CallGetSecret "ocid1.secret.user"]
    [(ERROR, "Error fetching secret " ++ "ocid1.secret.user" ++ ": "
             ++ "NotAuthorizedOrNotFound");
     (ERROR, "Failed to retrieve SMTP credentials: " ++ "NotAuthorizedOrNotFound")] /\
  stops_with half_sealed_world None (Sample.store FileMissing)
    (snd (init_authentication Sample.world
            (snd (extract_object_name (PDict []) (Sample.store FileMissing)))))
    (Exception "ServiceError" "NotAuthorizedOrNotFound")
    [CallGetObject "tenancy-ns" "cost-reports" (PStr "test-report.csv");
     CallGetSecret "ocid1.secret.user"; CallGetSecret "ocid1.secret.pass"]
    [(ERROR, "Error fetching secret " ++ "ocid1.secret.pass" ++ ": "
             ++ "NotAuthorizedOrNotFound");
     (ERROR, "Failed to retrieve SMTP credentials: " ++ "NotAuthorizedOrNotFound")].
Proof.
  pose (s3 := snd (init_authentication Sample.world
                     (snd (extract_object_name (PDict []) (Sample.store FileMissing))))).
  split; [|split].
  - exact (proj1 (handler_stops_at_failing_collaborator unfetchable_world None
                    (Sample.store FileMissing) (Sample.store FileMissing)
                    (snd (extract_object_name (PDict []) (Sample.store FileMissing))) s3
                    (PDict []) (PStr "test-report.csv") ∅ ResourcePrincipalsSigner
                    (Exception "ServiceError" "ObjectNotFound")
                    eq_refl eq_refl eq_refl eq_refl) eq_refl).
  - exact (proj1 (proj2 (handler_stops_at_failing_collaborator sealed_world None
                    (Sample.store FileMissing) (Sample.store FileMissing)
                    (snd (extract_object_name (PDict []) (Sample.store FileMissing))) s3
                    (PDict []) (PStr "test-report.csv") ∅ ResourcePrincipalsSigner
                    (Exception "ServiceError" "NotAuthorizedOrNotFound")
                    eq_refl eq_refl eq_refl eq_refl))
             Sample.report_bytes eq_refl eq_refl).
  - exact (proj2 (proj2 (handler_stops_at_failing_collaborator half_sealed_world None
                    (Sample.store FileMissing) (Sample.store FileMissing)
                    (snd (extract_object_name (PDict []) (Sample.store FileMissing))) s3
                    (PDict []) (PStr "test-report.csv") ∅ ResourcePrincipalsSigner
                    (Exception "ServiceError" "NotAuthorizedOrNotFound")
                    eq_refl eq_refl eq_refl eq_refl))
             Sample.report_bytes "smtp-user" eq_refl eq_refl eq_refl).
Defined.

(** ** Payloads the handler does not expect *)

(** X15. The object name for every JSON object.  The extraction raises
    exactly when the [data] member is a scalar ([null], a boolean, a number),
    a string that contains the text [resourceName], or a list that has the
    string [resourceName] as an element, and what it raises is a
    [TypeError], never a [KeyError]; on every other payload (a [data] member
    of another shape is ignored) the name is [data.resourceName], else
    [objectName], else ["test-report.csv"]. *)
Theorem object_name_for_every_payload (items : list (string * PyVal)) (s : Store) :
  match fst (extract_object_name (PDict items) s) with
  | Ok object_name => rejects_data items = false /\ object_name = spec_object_name items
  | Raise e => rejects_data items = true /\ exn_type e = "TypeError"
  | Exit _ => False
  end.
Proof.
  unfold rejects_data, spec_object_name, extract_object_name, bind, lift, ret,
    log, modify. cbn.
  destruct (assoc items "data") as [[| | | |text|l|d]|]; cbn; auto.
  - destruct (PyStr.contains text "resourceName"); cbn; auto.
    destruct (assoc items "objectName"); cbn; auto.
  - destruct (existsb _ l); cbn; auto.
    destruct (assoc items "objectName"); cbn; auto.
  - destruct (assoc d "resourceName"); cbn; auto.
    destruct (assoc items "objectName"); cbn; auto.
  - destruct (assoc items "objectName"); cbn; auto.
Qed.

Example data_text_naming_the_key_is_rejected :
  fst (extract_object_name
         (PDict [("data", PStr "see resourceName"); ("objectName", PStr "x.csv")])
         (Sample.store FileMissing))
  = Raise (type_error "string indices must be integers, not 'str'") /\
  fst (extract_object_name
         (PDict [("data", PStr "see below"); ("objectName", PStr "x.csv")])
         (Sample.store FileMissing))
  = Ok (PStr "x.csv").
Proof. split; vm_compute; reflexivity. Qed.

(** X16. A payload that is valid JSON but not a JSON object (an array, a
    string, a number, [true], [null]) is not treated as an empty payload:
    asking for its keys raises [AttributeError], which the parsing step does
    not catch.  The invocation fails there, before any collaborator is
    contacted, and with a context it is answered with status 500. *)
Theorem non_object_payload_is_an_error (w : World) (bytes : list ascii) (v : PyVal)
  (s : Store) :
  Json.loads w bytes = Returns v ->
  (forall items, v <> PDict items) ->
  let e := Exception "AttributeError"
             ("'" ++ type_name v ++ "' object has no attribute 'keys'") in
  parse_body w (Some bytes) s = (Raise e, s) /\
  handler_steps w (Some bytes) s = (Raise e, s) /\
  forall c,
    handler w (Some c) (Some bytes) s
    = (Ok (Response 500 (error_result e)),
       mkStore (sent_files s) (ledger_file s) (outbox s) (calls s)
         (logs s ++ [(ERROR, "Function execution failed: " ++ exn_str e);
                     (ERROR, "Full traceback")])).
Proof.
  intros Hloads Hshape e.
  assert (Hparse : parse_body w (Some bytes) s = (Raise e, s)).
  { unfold parse_body, try_except_class, bind, lift. rewrite Hloads.
    destruct v; try reflexivity. now destruct (Hshape items). }
  assert (Hsteps : handler_steps w (Some bytes) s = (Raise e, s)).
  { unfold handler_steps. unfold bind at 1. now rewrite Hparse. }
  split; [exact Hparse|]. split; [exact Hsteps|].
  intros c. unfold handler, try_except. unfold bind at 1. rewrite Hsteps.
  unfold bind, log, modify, ret. cbn. rewrite <- app_assoc. reflexivity.
Qed.

Lemma non_object_payload_is_an_error_witness :
  parse_body array_world (Some (list_ascii_of_string "[]")) (Sample.store FileMissing)
  = (Raise (Exception "AttributeError"
              ("'" ++ "list" ++ "' object has no attribute 'keys'")),
     Sample.store FileMissing) /\
  handler_steps array_world (Some (list_ascii_of_string "[]")) (Sample.store FileMissing)
  = (Raise (Exception "AttributeError"
              ("'" ++ "list" ++ "' object has no attribute 'keys'")),
     Sample.store FileMissing) /\
  forall c,
    handler array_world (Some c) (Some (list_ascii_of_string "[]"))
      (Sample.store FileMissing)
    = (Ok (Response 500
             (error_result
                (Exception "AttributeError"
                   ("'" ++ "list" ++ "' object has no attribute 'keys'")))),
       mkStore ∅ FileMissing [] []
         ([] ++ [(ERROR, "Function execution failed: "
                         ++ "'" ++ "list" ++ "' object has no attribute 'keys'");
                 (ERROR, "Full traceback")])).
Proof.
  exact (non_object_payload_is_an_error array_world (list_ascii_of_string "[]")
           (PList []) (Sample.store FileMissing) eq_refl
           ltac:(intros items; discriminate)).
Defined.

(** ** The polling script's mail and its failures *)

Lemma cfg_ok self key s v s' :
  cfg self key s = (Ok v, s') -> config self !! key = Some v /\ s' = s.
Proof.
  unfold cfg, lift, dict_index. destruct (config self !! key); [|discriminate].
  intros [= <- <-]. auto.
Qed.

Lemma get_secret_ok w sg id s v s' :
  get_secret w sg id s = (Ok v, s') ->
  vault_secret w sg id = Returns v /\ outbox s' = outbox s.
Proof.
  intros H. unfold get_secret in H. apply try_reraise_ok in H.
  apply bind_ok in H as ([] & s1 & Hc & H). apply lift_ok in H as [Hv ->].
  injection Hc as <-. auto.
Qed.

(** X17. What [send_email] sent.  When [send_email] returns, both secrets
    named in the configuration were read with the instance's signer, and
    exactly one message was handed to the server [SMTP_SERVER] at the port
    [int(SMTP_PORT)] with those credentials: from [EMAIL_SENDER] to
    [EMAIL_RECIPIENT], with the file name in the subject, the stripped body
    text, and the given bytes as its attachment. *)
Theorem send_email_sends_configured_message (w : World) (self : ReportSender)
  (file_name : string) (file_data : list ascii) (s s' : Store) :
  send_email w self file_name file_data s = (Ok tt, s') ->
  exists user_ocid pass_ocid smtp_username smtp_password sender recipient server
         port_text port,
    config self !! "SMTP_USERNAME_SECRET_OCID" = Some user_ocid /\
    config self !! "SMTP_PASSWORD_SECRET_OCID" = Some pass_ocid /\
    config self !! "EMAIL_SENDER" = Some sender /\
    config self !! "EMAIL_RECIPIENT" = Some recipient /\
    config self !! "SMTP_SERVER" = Some server /\
    config self !! "SMTP_PORT" = Some port_text /\
    vault_secret w (signer self) user_ocid = Returns smtp_username /\
    vault_secret w (signer self) pass_ocid = Returns smtp_password /\
    PyInt.int port_text = Returns port /\
    smtp_deliver w server port smtp_username smtp_password
      (polling_message w sender recipient file_name file_data) = None /\
    outbox s' = (outbox s ++ [polling_message w sender recipient file_name file_data])%list /\
    mp_headers (polling_message w sender recipient file_name file_data)
    = [("Content-Type", "multipart/mixed"); ("MIME-Version", "1.0");
       ("From", sender); ("To", recipient);
       ("Subject", "OCI Usage Report: " ++ file_name)] /\
    carries file_name file_data (polling_message w sender recipient file_name file_data).
Proof.
  intros H. unfold send_email in H. apply try_reraise_ok in H.
  apply bind_ok in H as (user_ocid & s1 & H1 & H). apply cfg_ok in H1 as [H1 ->].
  apply bind_ok in H as (smtp_username & s2 & H2 & H).
  apply get_secret_ok in H2 as [H2 Ho2].
  apply bind_ok in H as (pass_ocid & s3 & H3 & H). apply cfg_ok in H3 as [H3 ->].
  apply bind_ok in H as (smtp_password & s4 & H4 & H).
  apply get_secret_ok in H4 as [H4 Ho4].
  apply bind_ok in H as (sender & s5 & H5 & H). apply cfg_ok in H5 as [H5 ->].
  apply bind_ok in H as (recipient & s6 & H6 & H). apply cfg_ok in H6 as [H6 ->].
  cbv zeta in H.
  apply bind_ok in H as (server & s7 & H7 & H). apply cfg_ok in H7 as [H7 ->].
  apply bind_ok in H as (port_text & s8 & H8 & H). apply cfg_ok in H8 as [H8 ->].
  apply bind_ok in H as (port & s9 & H9 & H). apply lift_ok in H9 as [H9 ->].
  apply smtp_session_ok in H as [Hsmtp Hout].
  exists user_ocid, pass_ocid, smtp_username, smtp_password, sender, recipient,
    server, port_text, port.
  repeat (split; [assumption|]).
  split; [unfold polling_message; congruence|].
  split; [reflexivity|]. eexists. reflexivity.
Qed.

Lemma send_email_sends_configured_message_witness :
  exists user_ocid pass_ocid smtp_username smtp_password sender recipient server
         port_text port,
    config Sample.sender !! "SMTP_USERNAME_SECRET_OCID" = Some user_ocid /\
    config Sample.sender !! "SMTP_PASSWORD_SECRET_OCID" = Some pass_ocid /\
    config Sample.sender !! "EMAIL_SENDER" = Some sender /\
    config Sample.sender !! "EMAIL_RECIPIENT" = Some recipient /\
    config Sample.sender !! "SMTP_SERVER" = Some server /\
    config Sample.sender !! "SMTP_PORT" = Some port_text /\
    vault_secret Sample.world (signer Sample.sender) user_ocid = Returns smtp_username /\
    vault_secret Sample.world (signer Sample.sender) pass_ocid = Returns smtp_password /\
    PyInt.int port_text = Returns port /\
    smtp_deliver Sample.world server port smtp_username smtp_password
      (polling_message Sample.world sender recipient "r.csv.gz" Sample.report_bytes)
    = None /\
    outbox (snd (send_email Sample.world Sample.sender "r.csv.gz" Sample.report_bytes
                   (Sample.store FileMissing)))
    = ([] ++ [polling_message Sample.world sender recipient "r.csv.gz"
                Sample.report_bytes])%list /\
    mp_headers (polling_message Sample.world sender recipient "r.csv.gz"
                  Sample.report_bytes)
    = [("Content-Type", "multipart/mixed"); ("MIME-Version", "1.0");
       ("From", sender); ("To", recipient);
       ("Subject", "OCI Usage Report: " ++ "r.csv.gz")] /\
    carries "r.csv.gz" Sample.report_bytes
      (polling_message Sample.world sender recipient "r.csv.gz" Sample.report_bytes).
Proof.
  apply (send_email_sends_configured_message Sample.world Sample.sender "r.csv.gz"
           Sample.report_bytes (Sample.store FileMissing)
           (snd (send_email Sample.world Sample.sender "r.csv.gz" Sample.report_bytes
                   (Sample.store FileMissing)))).
  vm_compute. reflexivity.
Defined.

Example sample_mail_is_from_the_unquoted_sender :
  exists msg,
    outbox (snd (main Sample.world (Sample.store FileMissing))) = [msg] /\
    get_header (mp_headers msg) "from" EmptyString = "reports@example.com" /\
    get_header (mp_headers msg) "to" EmptyString = "finance@example.com".
Proof. eexists. repeat split; vm_compute; reflexivity. Qed.

(** X18. A collaborator that fails stops the run where it is and ends the
    process with status 1.  If the download fails, no secret is requested;
    if the user-name secret cannot be read, the password secret is not
    requested; in both cases the SMTP server is never contacted, nothing is
    delivered and the ledger is neither changed nor written.  Each function
    on the way logs the error before it raises it again. *)
Theorem run_stops_at_failing_collaborator (w : World) (self : ReportSender)
  (s s1 : Store) (o : ObjectSummary) (namespace bucket_name : string) (e : exn) :
  get_latest_report_file w self s = (Ok (Some o), s1) ->
  sent_files s1 !! file_hash (name o) (time_created o) = None ->
  config self !! "NAMESPACE" = Some namespace ->
  config self !! "REPORT_BUCKET_NAME" = Some bucket_name ->
  let fetch := CallGetObject namespace bucket_name (PStr (name o)) in
  (oss_get_object w (signer self) namespace bucket_name (PStr (name o)) = Raises e ->
   run w self s
   = (Exit 1,
      mkStore (sent_files s1) (ledger_file s1) (outbox s1) (calls s1 ++ [fetch])
        (logs s1 ++ [(ERROR, "Failed to download file " ++ name o ++ ": " ++ exn_str e);
                     (ERROR, "Failed to send report: " ++ exn_str e)]))) /\
  (forall file_data user_ocid,
      oss_get_object w (signer self) namespace bucket_name (PStr (name o))
        = Returns file_data ->
      config self !! "SMTP_USERNAME_SECRET_OCID" = Some user_ocid ->
      vault_secret w (signer self) user_ocid = Raises e ->
      run w self s
      = (Exit 1,
         mkStore (sent_files s1) (ledger_file s1) (outbox s1)
           (calls s1 ++ [fetch; CallGetSecret user_ocid])
           (logs s1 ++ [(ERROR, "Failed to retrieve secret " ++ user_ocid ++ ": "
                                ++ exn_str e);
                        (ERROR, "Failed to send email: " ++ exn_str e);
                        (ERROR, "Failed to send report: " ++ exn_str e)]))).
Proof.
  intros Hloc Hnew Hns Hb fetch. split.
  - intros Hget. rewrite run_unfold, Hloc, Hnew.
    unfold download_file, try_except, bind, cfg, lift, dict_index, call, modify,
      log, raise.
    rewrite Hns, Hb. cbn. rewrite Hget. cbn. rewrite <- app_assoc. reflexivity.
  - intros file_data user_ocid Hget Hid Hu. rewrite run_unfold, Hloc, Hnew.
    unfold download_file, try_except, bind, cfg, lift, dict_index, call, modify,
      log, raise.
    rewrite Hns, Hb. cbn. rewrite Hget. cbn.
    unfold send_email, get_secret, try_except, bind, cfg, lift, dict_index, call,
      modify, log, raise.
    rewrite Hid. cbn. rewrite Hu. cbn. rewrite <- !app_assoc. reflexivity.
Qed.

Lemma run_stops_at_failing_collaborator_witness :
  run unfetchable_world Sample.sender (Sample.store FileMissing)
  = (Exit 1,
     mkStore ∅ FileMissing []
       ([CallListObjects "tenancy-ns" "cost-reports" "WeeklyCostsScheduledReport_"]
        ++ [CallGetObject "tenancy-ns" "cost-reports"
              (PStr (name Sample.report_0108))])
       ([] ++ [(ERROR, "Failed to download file " ++ name Sample.report_0108 ++ ": "
                       ++ "ObjectNotFound");
               (ERROR, "Failed to send report: " ++ "ObjectNotFound")])) /\
  run sealed_world Sample.sender (Sample.store FileMissing)
  = (Exit 1,
     mkStore ∅ FileMissing []
       ([CallListObjects "tenancy-ns" "cost-reports" "WeeklyCostsScheduledReport_"]
        ++ [CallGetObject "tenancy-ns" "cost-reports" (PStr (name Sample.report_0108));
            CallGetSecret "ocid1.secret.user"])
       ([] ++ [(ERROR, "Failed to retrieve secret " ++ "ocid1.secret.user" ++ ": "
                       ++ "NotAuthorizedOrNotFound");
               (ERROR, "Failed to send email: " ++ "NotAuthorizedOrNotFound");
               (ERROR, "Failed to send report: " ++ "NotAuthorizedOrNotFound")])).
Proof.
  split.
  - exact (proj1 (run_stops_at_failing_collaborator unfetchable_world Sample.sender
                    (Sample.store FileMissing)
                    (mkStore ∅ FileMissing []
                       [CallListObjects "tenancy-ns" "cost-reports"
                          "WeeklyCostsScheduledReport_"] [])
                    Sample.report_0108 "tenancy-ns" "cost-reports"
                    (Exception "ServiceError" "ObjectNotFound")
                    eq_refl eq_refl eq_refl eq_refl) eq_refl).
  - exact (proj2 (run_stops_at_failing_collaborator sealed_world Sample.sender
                    (Sample.store FileMissing)
                    (mkStore ∅ FileMissing []
                       [CallListObjects "tenancy-ns" "cost-reports"
                          "WeeklyCostsScheduledReport_"] [])
                    Sample.report_0108 "tenancy-ns" "cost-reports"
                    (Exception "ServiceError" "NotAuthorizedOrNotFound")
                    eq_refl eq_refl eq_refl eq_refl)
             Sample.report_bytes "ocid1.secret.user" eq_refl eq_refl eq_refl).
Defined.

(** ** The handler's SMTP settings *)

Lemma env_text_smtp_server (w : World) :
  env_text w "SMTP_SERVER"
  = dict_get_default (environ w) "SMTP_SERVER" default_smtp_server.
Proof. reflexivity. Qed.

Lemma env_text_smtp_port (w : World) :
  env_text w "SMTP_PORT" = dict_get_default (environ w) "SMTP_PORT" "587".
Proof. reflexivity. Qed.

(** The handler's steps once the payload is parsed, the identity set up and
    the environment found complete. *)
Lemma handler_steps_after_checks (w : World) (data : option (list ascii))
  (s s1 s2 s3 : Store) (body object_name : PyVal) (conf : gmap string string)
  (sg : Signer) :
  parse_body w data s = (Ok body, s1) ->
  extract_object_name body s1 = (Ok object_name, s2) ->
  init_authentication w s2 = (Ok (conf, sg), s3) ->
  missing_vars_of w = [] ->
  handler_steps w data s
  = (let* file_data :=
       try_except
         (call (CallGetObject (env_text w "NAMESPACE") (env_text w "BUCKET_NAME")
                  object_name) ;;
          lift (oss_get_object w sg (env_text w "NAMESPACE") (env_text w "BUCKET_NAME")
                  object_name))
         (fun e => log ERROR ("Failed to fetch object '"
                              ++ py_str w object_name ++ "': " ++ exn_str e) ;;
                   raise e) in
     let* credentials :=
       try_except
         (let* smtp_user :=
            func_get_secret w (env_text w "SMTP_USERNAME_SECRET_OCID") sg in
          let* smtp_pass :=
            func_get_secret w (env_text w "SMTP_PASSWORD_SECRET_OCID") sg in
          ret (smtp_user, smtp_pass))
         (fun e => log ERROR ("Failed to retrieve SMTP credentials: "
                              ++ exn_str e) ;; raise e) in
     let '(smtp_user, smtp_pass) := credentials in
     try_except
       (let* port := lift (PyInt.int (env_text w "SMTP_PORT")) in
        smtp_session w (env_text w "SMTP_SERVER") port smtp_user smtp_pass
          (handler_message w object_name file_data))
       (fun e => log ERROR ("Failed to send email: " ++ exn_str e) ;; raise e) ;;
     ret (success_result w object_name)) s3.
Proof.
  intros Hparse Hextract Hauth Hnone.
  unfold handler_steps. unfold bind at 1. rewrite Hparse.
  unfold bind at 1. rewrite Hextract.
  unfold handler_rest. unfold bind at 1. rewrite Hauth.
  unfold bind at 1. unfold check_environment. rewrite Hnone. reflexivity.
Qed.

(** X19. The two SMTP settings of the handler are optional, and only their
    absence is made up for.  With [SMTP_SERVER] and [SMTP_PORT] unset, a
    successful invocation handed its message to
    [smtp.email.eu-frankfurt-1.oci.oraclecloud.com] at port 587.  Neither
    variable is ever reported as missing; an [SMTP_PORT] that is set but
    empty is not replaced by the default, and a port that [int] rejects
    makes the invocation fail only at the SMTP step: after the object and
    both secrets were fetched, without the server being contacted, with the
    [ValueError] of [int] as the error reported. *)
Theorem handler_smtp_settings (w : World) (data : option (list ascii)) (s : Store) :
  (environ w !! "SMTP_SERVER" = None -> environ w !! "SMTP_PORT" = None ->
   forall result s',
     handler_steps w data s = (Ok result, s') ->
     exists smtp_user smtp_pass msg,
       smtp_deliver w default_smtp_server default_smtp_port smtp_user smtp_pass msg
         = None /\
       outbox s' = (outbox s ++ [msg])%list) /\
  (~ In "SMTP_SERVER" (missing_vars_of w) /\ ~ In "SMTP_PORT" (missing_vars_of w)) /\
  (environ w !! "SMTP_PORT" = Some EmptyString ->
   PyInt.int (env_text w "SMTP_PORT")
   = Raises (Exception "ValueError" "invalid literal for int() with base 10: ''")) /\
  (forall s1 s2 s3 body object_name conf sg file_data smtp_user smtp_pass e,
      parse_body w data s = (Ok body, s1) ->
      extract_object_name body s1 = (Ok object_name, s2) ->
      init_authentication w s2 = (Ok (conf, sg), s3) ->
      missing_vars_of w = [] ->
      oss_get_object w sg (env_text w "NAMESPACE") (env_text w "BUCKET_NAME") object_name
        = Returns file_data ->
      vault_secret w sg (env_text w "SMTP_USERNAME_SECRET_OCID") = Returns smtp_user ->
      vault_secret w sg (env_text w "SMTP_PASSWORD_SECRET_OCID") = Returns smtp_pass ->
      PyInt.int (env_text w "SMTP_PORT") = Raises e ->
      stops_with w data s s3 e
        [CallGetObject (env_text w "NAMESPACE") (env_text w "BUCKET_NAME") object_name;
         CallGetSecret (env_text w "SMTP_USERNAME_SECRET_OCID");
         CallGetSecret (env_text w "SMTP_PASSWORD_SECRET_OCID")]
        [(ERROR, "Failed to send email: " ++ exn_str e)]).
Proof.
  split; [|split; [|split]].
  - intros Hserver Hport result s' H.
    unfold handler_steps in H.
    apply bind_ok in H as (body & s1 & Hparse & H).
    apply bind_ok in H as (object_name & s2 & Hextract & H).
    pose proof (frames_parse_body w data s) as (_ & _ & Ho1).
    pose proof (frames_extract_object_name body s1) as (_ & _ & Ho2).
    rewrite Hparse in Ho1. rewrite Hextract in Ho2. cbn [snd] in *.
    destruct (handler_rest_ok w object_name s2 s' result H)
      as (sg & file_data & smtp_user & smtp_pass & port & _ & _ & _ & _ & _
          & Hint & Hsmtp & Hout).
    rewrite env_text_smtp_server in Hsmtp. rewrite env_text_smtp_port in Hint.
    unfold dict_get_default in Hsmtp, Hint. rewrite Hserver in Hsmtp.
    rewrite Hport in Hint. injection Hint as <-.
    exists smtp_user, smtp_pass, (handler_message w object_name file_data).
    split; [exact Hsmtp | congruence].
  - unfold missing_vars_of. split; intros Hin; apply List.filter_In in Hin as [Hin _];
      cbn in Hin; repeat (destruct Hin as [Hin | Hin]; [discriminate|]); exact Hin.
  - intros Hport. rewrite env_text_smtp_port. unfold dict_get_default.
    rewrite Hport. reflexivity.
  - intros s1 s2 s3 body object_name conf sg file_data smtp_user smtp_pass e
      Hparse Hextract Hauth Hnone Hget Hu Hp Hint.
    assert (Hsteps := handler_steps_after_checks w data s s1 s2 s3 body object_name
                        conf sg Hparse Hextract Hauth Hnone).
    assert (Hraise : handler_steps w data s
              = (Raise e,
                 mkStore (sent_files s3) (ledger_file s3) (outbox s3)
                   (calls s3 ++
                    [CallGetObject (env_text w "NAMESPACE") (env_text w "BUCKET_NAME")
                       object_name;
                     CallGetSecret (env_text w "SMTP_USERNAME_SECRET_OCID");
                     CallGetSecret (env_text w "SMTP_PASSWORD_SECRET_OCID")])
                   (logs s3 ++ [(ERROR, "Failed to send email: " ++ exn_str e)]))).
    { rewrite Hsteps.
      unfold func_get_secret, try_except, bind, call, modify, lift, log, raise, ret.
      cbn [fst snd sent_files ledger_file outbox calls logs].
      rewrite Hget. cbn [fst snd sent_files ledger_file outbox calls logs].
      rewrite Hu. cbn [fst snd sent_files ledger_file outbox calls logs].
      rewrite Hp. cbn [fst snd sent_files ledger_file outbox calls logs].
      rewrite Hint. cbn [fst snd sent_files ledger_file outbox calls logs].
      rewrite <- !app_assoc. reflexivity. }
    split; [exact Hraise|]. apply steps_raise_is_500. now rewrite Hraise.
Qed.

(** The sample function, which sets neither variable, and the same function
    deployed with an empty [SMTP_PORT]. *)
Lemma handler_smtp_settings_witness :
  (exists smtp_user smtp_pass msg,
      smtp_deliver Sample.world default_smtp_server default_smtp_port smtp_user
        smtp_pass msg = None /\
      outbox (snd (handler_steps Sample.world None (Sample.store FileMissing)))
      = ([] ++ [msg])%list) /\
  PyInt.int (env_text portless_world "SMTP_PORT")
  = Raises (Exception "ValueError" "invalid literal for int() with base 10: ''") /\
  stops_with portless_world None (Sample.store FileMissing)
    (snd (init_authentication Sample.world
            (snd (extract_object_name (PDict []) (Sample.store FileMissing)))))
    (Exception "ValueError" "invalid literal for int() with base 10: ''")
    [CallGetObject "tenancy-ns" "cost-reports" (PStr "test-report.csv");
     CallGetSecret "ocid1.secret.user"; CallGetSecret "ocid1.secret.pass"]
    [(ERROR, "Failed to send email: " ++ "invalid literal for int() with base 10: ''")].
Proof.
  split; [|split].
  - refine (proj1 (handler_smtp_settings Sample.world None (Sample.store FileMissing))
              eq_refl eq_refl
              (success_result Sample.world (PStr "test-report.csv"))
              (snd (handler_steps Sample.world None (Sample.store FileMissing))) _).
    vm_compute. reflexivity.
  - exact (proj1 (proj2 (proj2 (handler_smtp_settings portless_world None
                                  (Sample.store FileMissing)))) eq_refl).
  - exact (proj2 (proj2 (proj2 (handler_smtp_settings portless_world None
                                  (Sample.store FileMissing))))
             (Sample.store FileMissing)
             (snd (extract_object_name (PDict []) (Sample.store FileMissing)))
             (snd (init_authentication Sample.world
                     (snd (extract_object_name (PDict []) (Sample.store FileMissing)))))
             (PDict []) (PStr "test-report.csv") ∅ ResourcePrincipalsSigner
             Sample.report_bytes "secret-of-ocid1.secret.user"
             "secret-of-ocid1.secret.pass"
             (Exception "ValueError" "invalid literal for int() with base 10: ''")
             eq_refl eq_refl eq_refl eq_refl eq_refl eq_refl eq_refl eq_refl).
Defined.
